(** * Recording controller and upload pipeline: a shallow embedding

    The Python sources embedded here are
    - [src/core/google_drive_manager.py] (class [GoogleDriveManager]),
    - [src/core/obs_manager.py] (class [OBSManager]),
    - [src/ui/main_window.py] (class [UploadWorker] and, of
      [MainWindow], the methods [rename_recording_file] and
      [search_for_recordings] and the file name [toggle_recording]
      builds),
    - [src/core/config.py] (the taxonomy of classes, chapters and
      subtopics and [validate_file] of [Config]).

    Python methods become functions in a small state-and-exception monad.
    The state holds the fields of the object a method is called on
    ([self]), the state of everything outside the process (the Drive
    service, the OBS websocket server, the file system, the clock) and a
    chronological trace of the remote calls issued so far (and of the
    invocations of the progress callback).  An exception
    keeps the mutations made before it was raised, as in Python.

    Conventions of the embedding:
    - the services are interfaces ([DriveService], [ObsClient], [Host]);
      the methods are written over any implementation, and [Sim] gives
      one on which they run;
    - logging and [time.sleep] have no counterpart;
    - a Python float is an IEEE 754 binary64 number, given by its value;
      an operation on floats rounds the exact result to the nearest
      one, ties to the even significand;
    - an unbounded [while] loop takes a number of iterations it may use,
      and answers [Diverged] beyond it; the recursion of
      [count_files_in_folder] takes the number of frames the interpreter
      still grants, and raises [RecursionError] beyond it, as Python does;
    - paths follow the POSIX flavour of [pathlib] and [os.path]. *)

From Stdlib Require Import String Ascii List Bool Arith ZArith QArith Qround Lia.
From Stdlib Require Import DecimalString DecimalNat FinFun Qpower Qabs Lqa.
Import ListNotations.
Open Scope list_scope.
Open Scope nat_scope.
Open Scope string_scope.

(** ** Python values shared by the three modules *)

(** The exceptions the embedded code raises or meets.  Every one of them
    derives from [Exception], so [except Exception] catches them all. *)
Inductive exn : Type :=
| FileNotFoundError (msg : string)
| TypeError (msg : string)
| RecursionError
| AttributeError (msg : string)
| OSError (msg : string)
| OverflowError (msg : string)
| ClientError (msg : string).

(** [str(e)] *)
Definition str_of_exn (e : exn) : string :=
  match e with
  | FileNotFoundError msg => msg
  | TypeError msg => msg
  | RecursionError => "maximum recursion depth exceeded"
  | AttributeError msg => msg
  | OSError msg => msg
  | OverflowError msg => msg
  | ClientError msg => msg
  end.

(** What a call on a remote service or on the host answers: a value or an
    exception. *)
Inductive reply (A : Type) : Type :=
| Reply (a : A)
| Fault (e : exn).
Arguments Reply {A} a.
Arguments Fault {A} e.

(** What running a piece of code gives: a value, a raised exception, or no
    answer at all (a loop that was cut off). *)
Inductive outcome (A : Type) : Type :=
| Ok (a : A)
| Raise (e : exn)
| Diverged.
Arguments Ok {A} a.
Arguments Raise {A} e.
Arguments Diverged {A}.

(** [str(n)] for a non-negative integer. *)
Definition str_of_nat (n : nat) : string :=
  NilEmpty.string_of_uint (Nat.to_uint n).

(** Truthiness of a string and Python's [x or d] on an optional string:
    [None] and the empty string are both falsy. *)
Definition truthy (s : string) : bool := negb (String.eqb s "").

Definition truthy_opt (x : option string) : bool :=
  match x with
  | Some s => truthy s
  | None => false
  end.

Definition py_or (x : option string) (d : string) : string :=
  match x with
  | Some s => if truthy s then s else d
  | None => d
  end.

(** ** Remote interfaces *)

(** The body of a Drive [files().create] request. *)
Record file_body : Type := mkBody {
  name : string;
  mimeType : option string;
  parents : list string
}.

(** An entry of a [files().list] answer. *)
Record item : Type := mkItem {
  item_id : string;
  item_name : string
}.

(** The answer to [files().list(...).execute()]: a dict whose ['files'] key
    may be absent. *)
Definition list_response : Type := option (list item).

(** [results.get('files', [])] *)
Definition get_files (results : list_response) : list item :=
  match results with
  | Some l => l
  | None => []
  end.

(** The resource a successful [create] answers with (the requested
    [fields]). *)
Record file_resource : Type := mkResource {
  resp_id : string;
  resp_name : string;
  resp_webViewLink : string
}.

(** A resumable upload request: the metadata and the local file behind the
    [MediaFileUpload]. *)
Record upload_request : Type := mkRequest {
  req_body : file_body;
  req_media : string;
  req_chunksize : N
}.

(** The status object of a chunk; [progress] is the value of the finite
    float [status.progress()] returns. *)
Record upload_status : Type := mkStatus {
  progress : Q
}.

(** The answer to [GetRecordStatus]; the [output_active] attribute may be
    missing. *)
Record record_status : Type := mkRecordStatus {
  output_active : option bool
}.

(** The answer to [StopRecord]; the [output_path] attribute may be
    missing. *)
Record stop_result : Type := mkStopResult {
  output_path : option string
}.

(** A date as [datetime.now()] gives it. *)
Record date : Type := mkDate {
  day : nat;
  month : nat;
  year : nat
}.

(** Remote calls and invocations of the progress callback, as they appear
    in the trace. *)
Inductive event : Type :=
| EvFilesList (q : string)
| EvFilesCreate (body : file_body)
| EvNextChunk (request : upload_request) (status : option upload_status)
| EvProgressCallback (value : Z)
| EvGetRecordStatus
| EvStartRecord
| EvStopRecord
| EvSetRecordDirectory (directory : string)
| EvSetProfileParameter (category pname value : string).

(** The Drive v3 service, as consumed by [GoogleDriveManager]. *)
Class DriveService (W : Type) : Type := {
  files_list : string -> W -> reply list_response * W;
  files_create : file_body -> W -> reply file_resource * W;
  request_next_chunk :
    upload_request -> W -> reply (option upload_status * option file_resource) * W
}.

(** The obs-websocket request client, as consumed by [OBSManager]. *)
Class ObsClient (W : Type) : Type := {
  get_record_status : W -> reply record_status * W;
  start_record : W -> reply unit * W;
  stop_record : W -> reply stop_result * W;
  set_record_directory : string -> W -> reply unit * W;
  set_profile_parameter : string -> string -> string -> W -> reply unit * W
}.

(** The host: file system and clock. *)
Class Host (W : Type) : Type := {
  path_exists : string -> W -> bool;
  path_getsize : string -> W -> reply N * W;
  path_mkdir : string -> W -> reply unit * W;
  path_write_text : string -> string -> W -> reply unit * W;
  path_unlink : string -> W -> reply unit * W;
  path_rename : string -> string -> W -> reply unit * W;
  datetime_now : W -> date;
  os_sep : ascii;
  os_altsep : option ascii
}.

(** ** The monad *)

Section Monad.
Context {W : Type}.

Record state (O : Type) : Type := mkState {
  self : O;
  world : W;
  trace : list event
}.
Arguments mkState {O} _ _ _.
Arguments self {O} _.
Arguments world {O} _.
Arguments trace {O} _.

Definition M (O A : Type) : Type := state O -> outcome A * state O.

Definition ret {O A} (a : A) : M O A := fun st => (Ok a, st).

Definition bind {O A B} (m : M O A) (k : A -> M O B) : M O B :=
  fun st =>
    match m st with
    | (Ok a, st') => k a st'
    | (Raise e, st') => (Raise e, st')
    | (Diverged, st') => (Diverged, st')
    end.

Definition raise {O A} (e : exn) : M O A := fun st => (Raise e, st).

Definition diverge {O A} : M O A := fun st => (Diverged, st).

(** [try: body / except Exception as e: handler e] *)
Definition try_except {O A} (body : M O A) (handler : exn -> M O A) : M O A :=
  fun st =>
    match body st with
    | (Raise e, st') => handler e st'
    | r => r
    end.

Definition outcome_of_reply {A} (r : reply A) : outcome A :=
  match r with
  | Reply a => Ok a
  | Fault e => Raise e
  end.

(** A call on a remote service, recorded in the trace. *)
Definition remote {O A} (ev : event) (op : W -> reply A * W) : M O A :=
  fun st =>
    let '(r, w) := op (world st) in
    (outcome_of_reply r, mkState (self st) w (trace st ++ [ev])%list).

(** A call on the host, not recorded. *)
Definition host {O A} (op : W -> reply A * W) : M O A :=
  fun st =>
    let '(r, w) := op (world st) in
    (outcome_of_reply r, mkState (self st) w (trace st)).

(** A query that leaves the world as it is. *)
Definition ask {O A} (f : W -> A) : M O A :=
  fun st => (Ok (f (world st)), st).

Definition get_self {O} : M O O := fun st => (Ok (self st), st).

Definition set_self {O} (f : O -> O) : M O unit :=
  fun st => (Ok tt, mkState (f (self st)) (world st) (trace st)).

(** [for x in l: acc = body(acc, x)] *)
Fixpoint for_each {O A B} (l : list A) (acc : B) (body : B -> A -> M O B) : M O B :=
  match l with
  | [] => ret acc
  | x :: l' => bind (body acc x) (fun acc' => for_each l' acc' body)
  end.

End Monad.

Arguments state W O : clear implicits.
Arguments M W O A : clear implicits.
Arguments mkState {W O} _ _ _.
Arguments self {W O} _.
Arguments world {W O} _.
Arguments trace {W O} _.

Declare Scope monad_scope.
Delimit Scope monad_scope with monad.
Notation "x <- m ;; k" := (bind m (fun x => k))
  (at level 61, m at next level, right associativity) : monad_scope.
Notation "m ;;; k" := (bind m (fun _ => k))
  (at level 61, right associativity) : monad_scope.
Open Scope monad_scope.

(** ** [os.path] and [datetime] helpers *)

(** [p.rfind(c)] from index [i] on: the index of the last occurrence of
    [c], or -1. *)
Fixpoint rfind_from (c : ascii) (p : string) (i : Z) : Z :=
  match p with
  | EmptyString => (-1)%Z
  | String a p' =>
      let r := rfind_from c p' (i + 1)%Z in
      if (0 <=? r)%Z then r else if Ascii.eqb a c then i else (-1)%Z
  end.

Definition rfind (c : ascii) (p : string) : Z := rfind_from c p 0%Z.

(** [p[i:j]] for non-negative indexes. *)
Definition slice (p : string) (i j : nat) : string := substring i (j - i) p.

(** The loop of [genericpath._splitext] that skips leading dots: is one of
    the [n] characters from [filenameIndex] on different from [extsep]? *)
Fixpoint has_non_dot (extsep : ascii) (p : string) (filenameIndex n : nat) : bool :=
  match n with
  | 0 => false
  | S n' =>
      if negb (String.eqb (slice p filenameIndex (filenameIndex + 1)) (String extsep EmptyString))
      then true
      else has_non_dot extsep p (filenameIndex + 1) n'
  end.

(** [genericpath._splitext(p, sep, altsep, extsep)] *)
Definition _splitext (p : string) (sep : ascii) (altsep : option ascii) (extsep : ascii)
  : string * string :=
  let sepIndex := rfind sep p in
  let sepIndex :=
    match altsep with
    | Some a => Z.max sepIndex (rfind a p)
    | None => sepIndex
    end in
  let dotIndex := rfind extsep p in
  if (sepIndex <? dotIndex)%Z then
    let filenameIndex := Z.to_nat (sepIndex + 1) in
    if has_non_dot extsep p filenameIndex (Z.to_nat dotIndex - filenameIndex)
    then (slice p 0 (Z.to_nat dotIndex), slice p (Z.to_nat dotIndex) (String.length p))
    else (p, "")
  else (p, "").

(** [s.zfill(width)] on a string of digits. *)
Definition zfill (width : nat) (s : string) : string :=
  string_of_list_ascii (repeat "0"%char (width - String.length s)) ++ s.

(** [d.strftime('%d-%m-%Y')] *)
Definition strftime_dmY (d : date) : string :=
  zfill 2 (str_of_nat (day d)) ++ "-" ++ zfill 2 (str_of_nat (month d)) ++ "-"
    ++ zfill 4 (str_of_nat (year d)).

(** ** Floats

    A finite [float] is given by its value, a rational. *)

(** [int(x)]: truncation towards zero. *)
Definition py_int (x : Q) : Z := Z.quot (Qnum x) (Zpos (Qden x)).

(** [round(x)]: to the nearest integer, ties to the even one. *)
Definition py_round (x : Q) : Z :=
  let f := Qfloor x in
  match Qcompare (x - inject_Z f) (1 # 2) with
  | Lt => f
  | Gt => (f + 1)%Z
  | Eq => if Z.even f then f else (f + 1)%Z
  end.

(** The exponent of the binade of a positive number: the integer part of
    its logarithm in base 2. *)
Definition floor_log2 (x : Q) : Z :=
  let e := (Z.log2 (Qnum x) - Z.log2 (Zpos (Qden x)))%Z in
  if Qle_bool (2 ^ e)%Q x then e else (e - 1)%Z.

(** The binary64 number nearest to a positive number, ties to the even
    significand: 53 bits of significand above the exponent -1022, and
    the multiples of 2^-1074 below it. *)
Definition round_pos (x : Q) : Q :=
  let e := Z.max (floor_log2 x) (-1022) in
  let ulp := (2 ^ (e - 52))%Q in
  (inject_Z (py_round (x / ulp)) * ulp)%Q.

Definition round_float (x : Q) : Q :=
  match Qcompare 0 x with
  | Lt => round_pos x
  | Gt => (- round_pos (- x))%Q
  | Eq => 0%Q
  end.

(** [sys.float_info.max] *)
Definition max_float : Q := (inject_Z (2 ^ 53 - 1) * 2 ^ 971)%Q.

(** [x * y] on finite floats: the product rounded, or [None] for an
    infinity when the rounded product is beyond the largest float. *)
Definition float_mul (x y : Q) : option Q :=
  let r := round_float (x * y) in
  if Qle_bool (Qabs r) max_float then Some r else None.

(** [x - y] on finite floats; beyond the largest float the difference is
    an infinity, which compares with a float as the rounded difference
    does. *)
Definition float_sub (x y : Q) : Q := round_float (x - y).

(** [float(a) / float(b)] for integers below 2^53, [b] positive. *)
Definition float_div (a : Z) (b : positive) : Q := round_float (a # b).

(** * GoogleDriveManager *)

Module GoogleDriveManager.

Definition SHARED_FOLDER_ID : string := "1etyTblY2gBnmK5gVG4I-sIqQGwrsyw99".
Definition FOLDER_MIME : string := "application/vnd.google-apps.folder".

(** The [query] string of [get_or_create_folder]. *)
Definition folder_query (folder_name parent_id : string) : string :=
  "name='" ++ folder_name
    ++ "' and mimeType='application/vnd.google-apps.folder' and '"
    ++ parent_id ++ "' in parents and trashed=false".

(** The [query] string of [count_files_in_folder]. *)
Definition files_query (folder_id : string) (file_extension : option string) : string :=
  let query := "'" ++ folder_id ++ "' in parents and trashed=false" in
  match file_extension with
  | Some ext =>
      if truthy ext then query ++ " and name contains '." ++ ext ++ "'" else query
  | None => query
  end.

(** The [folder_query] string of [count_files_in_folder]. *)
Definition subfolders_query (folder_id : string) : string :=
  "'" ++ folder_id
    ++ "' in parents and mimeType='application/vnd.google-apps.folder' and trashed=false".

(** The f-string that names the uploaded file. *)
Definition new_filename (class_name chapter_name subtopic_name : string) (today : date)
    (class_number : nat) (ext : string) : string :=
  class_name ++ "_" ++ chapter_name ++ "_" ++ subtopic_name ++ "_"
    ++ strftime_dmY today ++ "_Class_" ++ str_of_nat class_number ++ ext.

(** A progress callback: a Python callable taking the percentage; it acts
    on the object it closes over. *)
Definition callback (O : Type) : Type := Z -> O -> reply unit * O.

Section Methods.
Context {W : Type} `{DriveService W} `{Host W}.
Context {O : Type}.

Definition get_or_create_folder (folder_name : string) (parent_id : option string)
  : M W O string :=
  try_except
    (let parent_id := py_or parent_id SHARED_FOLDER_ID in
     let query := folder_query folder_name parent_id in
     results <- remote (EvFilesList query) (files_list query) ;;
     let items := get_files results in
     match items with
     | it :: _ => ret (item_id it)
     | [] =>
         let file_metadata := mkBody folder_name (Some FOLDER_MIME) [parent_id] in
         file <- remote (EvFilesCreate file_metadata) (files_create file_metadata) ;;
         ret (resp_id file)
     end)
    (fun e => raise e).

Definition get_or_create_class_year_folder (class_name year : string) : M W O string :=
  let folder_name := class_name ++ "_" ++ year in
  get_or_create_folder folder_name None.

Definition get_or_create_chapter_folder (chapter_name class_year_folder_id : string)
  : M W O string :=
  get_or_create_folder chapter_name (Some class_year_folder_id).

(** [depth] is the number of nested frames of this method the interpreter
    still grants; a call beyond it raises [RecursionError] at the call
    site, inside the caller's [try]. *)
Fixpoint count_files_in_folder (depth : nat) (folder_id : string)
    (file_extension : option string) : M W O nat :=
  match depth with
  | 0 => raise RecursionError
  | S depth' =>
      try_except
        (let total_count := 0 in
         let query := files_query folder_id file_extension in
         results <- remote (EvFilesList query) (files_list query) ;;
         let total_count := total_count + length (get_files results) in
         let folder_query := subfolders_query folder_id in
         folder_results <- remote (EvFilesList folder_query) (files_list folder_query) ;;
         total_count <-
           for_each (get_files folder_results) total_count
             (fun total_count subfolder =>
                n <- count_files_in_folder depth' (item_id subfolder) file_extension ;;
                ret (total_count + n)) ;;
         ret total_count)
        (fun _ => ret 0)
  end.

(** [int(x)] on the float a product gave; an infinity has no integer. *)
Definition int_of_float (x : option Q) : M W O Z :=
  match x with
  | Some v => ret (py_int v)
  | None => raise (OverflowError "cannot convert float infinity to integer")
  end.

(** [progress_callback(progress)] *)
Definition call_callback (cb : callback O) (value : Z) : M W O unit :=
  fun st =>
    let '(r, s) := cb value (self st) in
    (outcome_of_reply r, mkState s (world st) (trace st ++ [EvProgressCallback value])%list).

(** [request.next_chunk()]; the trace keeps the status it answered with. *)
Definition next_chunk (request : upload_request)
  : M W O (option upload_status * option file_resource) :=
  fun st =>
    let '(r, w) := request_next_chunk request (world st) in
    let status := match r with Reply (status, _) => status | Fault _ => None end in
    (outcome_of_reply r, mkState (self st) w (trace st ++ [EvNextChunk request status])%list).

(** The [while response is None] loop of [upload_file]; [fuel] bounds the
    number of iterations, and running out of it is [Diverged]. *)
Fixpoint upload_chunks (fuel : nat) (request : upload_request)
    (progress_callback : option (callback O)) : M W O file_resource :=
  match fuel with
  | 0 => diverge
  | S fuel' =>
      sr <- next_chunk request ;;
      let '(status, response) := sr in
      match status, progress_callback with
      | Some status, Some cb =>
          progress <- int_of_float (float_mul (progress status) 100) ;;
          call_callback cb progress
      | _, _ => ret tt
      end ;;;
      match response with
      | Some response => ret response
      | None => upload_chunks fuel' request progress_callback
      end
  end.

(** [os.path.splitext] of the host's flavour. *)
Definition splitext (p : string) : string * string :=
  _splitext p os_sep os_altsep "."%char.

Definition upload_file (depth fuel : nat) (filepath class_name chapter_name year : string)
    (subtopic_name : string) (progress_callback : option (callback O)) : M W O string :=
  try_except
    (found <- ask (path_exists filepath) ;;
     if negb found then raise (FileNotFoundError ("File not found: " ++ filepath))
     else
       class_year_folder_id <- get_or_create_class_year_folder class_name year ;;
       chapter_folder_id <- get_or_create_chapter_folder chapter_name class_year_folder_id ;;
       subtopic_folder_id <- get_or_create_folder subtopic_name (Some chapter_folder_id) ;;
       file_count <- count_files_in_folder depth chapter_folder_id (Some "mp4") ;;
       let class_number := file_count + 1 in
       let ext := snd (splitext filepath) in
       today <- ask datetime_now ;;
       let new_filename :=
         new_filename class_name chapter_name subtopic_name today class_number ext in
       let file_metadata := mkBody new_filename None [subtopic_folder_id] in
       let request := mkRequest file_metadata filepath (1024 * 1024)%N in
       response <- upload_chunks fuel request progress_callback ;;
       let file_id := resp_id response in
       ret file_id)
    (fun e => raise e).

(** Binding of a call of [upload_file] to its signature: [args] are the
    positional arguments given for the five string parameters [filepath],
    [class_name], [chapter_name], [year] and [subtopic_name]; the four
    leading ones have no default, [subtopic_name] defaults to Main and
    [progress_callback] to None. *)
Definition upload_file_call (depth fuel : nat) (args : list string)
    (progress_callback : option (callback O)) : M W O string :=
  match args with
  | [filepath; class_name; chapter_name; year] =>
      upload_file depth fuel filepath class_name chapter_name year "Main" progress_callback
  | [filepath; class_name; chapter_name; year; subtopic_name] =>
      upload_file depth fuel filepath class_name chapter_name year subtopic_name
        progress_callback
  | [] =>
      raise (TypeError "upload_file() missing 4 required positional arguments: 'filepath', 'class_name', 'chapter_name', and 'year'")
  | [_] =>
      raise (TypeError "upload_file() missing 3 required positional arguments: 'class_name', 'chapter_name', and 'year'")
  | [_; _] =>
      raise (TypeError "upload_file() missing 2 required positional arguments: 'chapter_name' and 'year'")
  | [_; _; _] =>
      raise (TypeError "upload_file() missing 1 required positional argument: 'year'")
  | _ =>
      raise (TypeError "upload_file() got too many positional arguments")
  end.

End Methods.

End GoogleDriveManager.

(** * pathlib paths

    A path is kept as its directory and its final component; the POSIX
    flavour is modelled. *)

Module Path.

Record t : Type := mk {
  parent : string;
  name : string
}.

Definition ends_with_sep (s : string) : bool :=
  match String.length s with
  | 0 => false
  | S n => String.eqb (substring n 1 s) "/"
  end.

(** [str(p)] *)
Definition str (p : t) : string :=
  if String.eqb (parent p) "." then name p
  else if ends_with_sep (parent p) then parent p ++ name p
  else parent p ++ "/" ++ name p.

(** [Path(s)] for a string [s] that does not end with a separator. *)
Definition of_str (s : string) : t :=
  let i := rfind "/"%char s in
  if (i <? 0)%Z then mk "." s
  else if (i =? 0)%Z then mk "/" (slice s 1 (String.length s))
  else mk (slice s 0 (Z.to_nat i)) (slice s (Z.to_nat i + 1) (String.length s)).

(** [target_dir / filename] for a [filename] with no separator. *)
Definition joinpath (target_dir : string) (filename : string) : t :=
  mk target_dir filename.

(** [p.stem] *)
Definition stem (p : t) : string :=
  let i := rfind "."%char (name p) in
  if ((0 <? i)%Z && (i <? Z.of_nat (String.length (name p)) - 1)%Z)%bool
  then slice (name p) 0 (Z.to_nat i)
  else name p.

End Path.

(** [os.path.join(a, b)] of [posixpath], with the host's separator. *)
Definition os_path_join (sep : ascii) (a b : string) : string :=
  let sep := String sep EmptyString in
  if prefix sep b then b
  else if (String.eqb a "" || String.eqb (substring (String.length a - 1) 1 a) sep)%bool
       then a ++ b
       else a ++ sep ++ b.

(** [s.rsplit('.', 1)]: the parts before and after the last dot, or the
    string alone when it has none. *)
Definition rsplit_dot (s : string) : string * option string :=
  let i := rfind "."%char s in
  if (i <? 0)%Z then (s, None)
  else (slice s 0 (Z.to_nat i), Some (slice s (Z.to_nat i + 1) (String.length s))).

(** * OBSManager *)

Module OBSManager.

(** Values stored in the diagnostic dictionaries. *)
Inductive pyval : Type :=
| PyNone
| PyBool (b : bool)
| PyStr (s : string).

Definition dict : Type := list (string * pyval).

(** [d[k] = v] *)
Fixpoint dict_set (k : string) (v : pyval) (d : dict) : dict :=
  match d with
  | [] => [(k, v)]
  | (k', v') :: d' =>
      if String.eqb k k' then (k, v) :: d' else (k', v') :: dict_set k v d'
  end.

Fixpoint dict_get (k : string) (d : dict) : option pyval :=
  match d with
  | [] => None
  | (k', v') :: d' => if String.eqb k k' then Some v' else dict_get k d'
  end.

(** [self.debug_info]: the list-valued keys are fields, the scalar keys
    live in [info]. *)
Record debug_info_t : Type := mkDebug {
  info : dict;
  recording_methods_tried : list dict;
  errors : list string
}.

(** The fields of an [OBSManager].  [client] tells whether [self.client]
    holds a request client (rather than [None]). *)
Record t : Type := mk {
  client : bool;
  is_connected : bool;
  is_recording : bool;
  recording_path : option string;
  recording_filename : option string;
  debug_info : debug_info_t;
  has_scenes : bool;
  last_recording_path : option string
}.

Definition set_client (v : bool) (s : t) : t :=
  mk v (is_connected s) (is_recording s) (recording_path s) (recording_filename s)
    (debug_info s) (has_scenes s) (last_recording_path s).
Definition set_is_connected (v : bool) (s : t) : t :=
  mk (client s) v (is_recording s) (recording_path s) (recording_filename s)
    (debug_info s) (has_scenes s) (last_recording_path s).
Definition set_is_recording (v : bool) (s : t) : t :=
  mk (client s) (is_connected s) v (recording_path s) (recording_filename s)
    (debug_info s) (has_scenes s) (last_recording_path s).
Definition set_recording_path (v : option string) (s : t) : t :=
  mk (client s) (is_connected s) (is_recording s) v (recording_filename s)
    (debug_info s) (has_scenes s) (last_recording_path s).
Definition set_recording_filename (v : option string) (s : t) : t :=
  mk (client s) (is_connected s) (is_recording s) (recording_path s) v
    (debug_info s) (has_scenes s) (last_recording_path s).
Definition set_debug_info (v : debug_info_t) (s : t) : t :=
  mk (client s) (is_connected s) (is_recording s) (recording_path s) (recording_filename s)
    v (has_scenes s) (last_recording_path s).
Definition set_has_scenes (v : bool) (s : t) : t :=
  mk (client s) (is_connected s) (is_recording s) (recording_path s) (recording_filename s)
    (debug_info s) v (last_recording_path s).
Definition set_last_recording_path (v : option string) (s : t) : t :=
  mk (client s) (is_connected s) (is_recording s) (recording_path s) (recording_filename s)
    (debug_info s) (has_scenes s) v.

(** [self.debug_info[k] = v] *)
Definition debug_set (k : string) (v : pyval) (s : t) : t :=
  let d := debug_info s in
  set_debug_info (mkDebug (dict_set k v (info d)) (recording_methods_tried d) (errors d)) s.

(** [self.debug_info['errors'].append(msg)] *)
Definition debug_error (msg : string) (s : t) : t :=
  let d := debug_info s in
  set_debug_info (mkDebug (info d) (recording_methods_tried d) (errors d ++ [msg])%list) s.

(** [self.debug_info['recording_methods_tried'].append(method_info)] *)
Definition methods_tried_append (method_info : dict) (s : t) : t :=
  let d := debug_info s in
  set_debug_info (mkDebug (info d) (recording_methods_tried d ++ [method_info])%list (errors d)) s.

Fixpoint update_last {A} (f : A -> A) (l : list A) : list A :=
  match l with
  | [] => []
  | [x] => [f x]
  | x :: l' => x :: update_last f l'
  end.

(** [method_info[k] = v]: [method_info] is the dictionary appended last,
    and the list holds that very object. *)
Definition method_info_set (k : string) (v : pyval) (s : t) : t :=
  let d := debug_info s in
  set_debug_info
    (mkDebug (info d) (update_last (dict_set k v) (recording_methods_tried d)) (errors d)) s.

(** [str(status)] *)
Definition str_of_status (status : record_status) : string :=
  match output_active status with
  | Some true => "GetRecordStatus(output_active=True)"
  | Some false => "GetRecordStatus(output_active=False)"
  | None => "GetRecordStatus()"
  end.

(** The dictionary [start_recording] resets [self.debug_info] to. *)
Definition fresh_debug_info (output_path : Path.t) : debug_info_t :=
  mkDebug
    [("output_path", PyStr (Path.str output_path));
     ("recording_status_before", PyNone);
     ("recording_status_after", PyNone)]
    [] [].

(** The ['method'] entries of the methods tried so far, in order. *)
Definition method_names (s : t) : list (option pyval) :=
  map (dict_get "method") (recording_methods_tried (debug_info s)).

Definition possible_extensions : list string := [".mp4"; ".mkv"; ".flv"; ".mov"; ".avi"].

Section Methods.
Context {W : Type} `{ObsClient W} `{DriveService W} `{Host W}.

(** A request on [self.client]; on [None] the attribute lookup fails. *)
Definition client_call {A} (ev : event) (op : W -> reply A * W) : M W t A :=
  s <- get_self ;;
  if client s then remote ev op
  else raise (AttributeError "'NoneType' object has no attribute").

Definition disconnect : M W t unit :=
  set_self (set_client false) ;;;
  set_self (set_is_connected false).

Definition _check_recording_status : M W t bool :=
  try_except
    (r <- try_except
            (status <- client_call EvGetRecordStatus get_record_status ;;
             set_self (debug_set "recording_status_after" (PyStr (str_of_status status))) ;;;
             match output_active status with
             | Some recording => ret (Some recording)
             | None => ret None
             end)
            (fun e => ret None) ;;
     match r with
     | Some recording => ret recording
     | None => ret true
     end)
    (fun e => ret true).

(** The part the three methods share once the recording was asked for:
    wait, verify, record the verdict. *)
Definition verify_started : M W t bool :=
  status <- _check_recording_status ;;
  set_self (method_info_set "status_after" (PyBool status)) ;;;
  if status then
    set_self (method_info_set "success" (PyBool true)) ;;;
    set_self (set_is_recording true) ;;;
    ret true
  else ret false.

(** The [try: self.client.start_record() / except: return False] block;
    [Some b] is an early [return b]. *)
Definition try_start_record : M W t (option bool) :=
  try_except
    (client_call EvStartRecord start_record ;;;
     set_self (method_info_set "recording_started" (PyBool true)) ;;;
     ret None)
    (fun start_err =>
       set_self (method_info_set "start_error" (PyStr (str_of_exn start_err))) ;;;
       ret (Some false)).

Definition _try_recording_method_1 (output_path : Path.t) : M W t bool :=
  let method_info := [("method", PyStr "SetOutputDirectory"); ("success", PyBool false)] in
  set_self (methods_tried_append method_info) ;;;
  try_except
    (try_except
       (client_call (EvSetRecordDirectory (Path.parent output_path))
          (set_record_directory (Path.parent output_path)) ;;;
        set_self (method_info_set "directory_set" (PyBool true)))
       (fun dir_err =>
          set_self (method_info_set "directory_error" (PyStr (str_of_exn dir_err)))) ;;;
     r <- try_start_record ;;
     match r with
     | Some b => ret b
     | None => verify_started
     end)
    (fun e =>
       set_self (method_info_set "error" (PyStr (str_of_exn e))) ;;;
       ret false).

Definition _try_recording_method_2 (output_path : Path.t) : M W t bool :=
  let method_info := [("method", PyStr "ProfileParameters"); ("success", PyBool false)] in
  set_self (methods_tried_append method_info) ;;;
  try_except
    (try_except
       (client_call (EvSetProfileParameter "Output" "RecFilePath" (Path.parent output_path))
          (set_profile_parameter "Output" "RecFilePath" (Path.parent output_path)) ;;;
        set_self (method_info_set "path_set" (PyBool true)))
       (fun path_err =>
          set_self (method_info_set "path_error" (PyStr (str_of_exn path_err)))) ;;;
     try_except
       (client_call (EvSetProfileParameter "Output" "RecFormat" "mp4")
          (set_profile_parameter "Output" "RecFormat" "mp4") ;;;
        set_self (method_info_set "format_set" (PyBool true)))
       (fun format_err =>
          set_self (method_info_set "format_error" (PyStr (str_of_exn format_err)))) ;;;
     r <- try_start_record ;;
     match r with
     | Some b => ret b
     | None => verify_started
     end)
    (fun e =>
       set_self (method_info_set "error" (PyStr (str_of_exn e))) ;;;
       ret false).

Definition _try_recording_method_3 (output_path : Path.t) : M W t bool :=
  let method_info := [("method", PyStr "DirectStart"); ("success", PyBool false)] in
  set_self (methods_tried_append method_info) ;;;
  try_except
    (r <- try_start_record ;;
     match r with
     | Some b => ret b
     | None => verify_started
     end)
    (fun e =>
       set_self (method_info_set "error" (PyStr (str_of_exn e))) ;;;
       ret false).

(** The two directory checks that open [start_recording]; [Some b] is an
    early [return b]. *)
Definition ensure_directory (output_path : Path.t) : M W t (option bool) :=
  found <- ask (path_exists (Path.parent output_path)) ;;
  if negb found then
    try_except
      (host (path_mkdir (Path.parent output_path)) ;;;
       set_self (debug_set "directory_created" (PyBool true)) ;;;
       ret None)
      (fun e =>
         let error_msg :=
           "Failed to create directory " ++ Path.parent output_path ++ ": " ++ str_of_exn e in
         set_self (debug_error error_msg) ;;;
         ret (Some false))
  else ret None.

Definition check_writable (output_path : Path.t) : M W t (option bool) :=
  try_except
    (let test_file := Path.joinpath (Path.parent output_path) "test_write.tmp" in
     host (path_write_text (Path.str test_file) "test") ;;;
     host (path_unlink (Path.str test_file)) ;;;
     set_self (debug_set "directory_writable" (PyBool true)) ;;;
     ret None)
    (fun e =>
       let error_msg :=
         "Directory " ++ Path.parent output_path ++ " is not writable: " ++ str_of_exn e in
       set_self (debug_error error_msg) ;;;
       set_self (debug_set "directory_writable" (PyBool false)) ;;;
       ret (Some false)).

(** The status query before the methods: an active recording is stopped
    first. *)
Definition stop_if_already_recording : M W t unit :=
  try_except
    (status <- client_call EvGetRecordStatus get_record_status ;;
     set_self (debug_set "recording_status_before" (PyStr (str_of_status status))) ;;;
     match output_active status with
     | Some true =>
         stop_result <- client_call EvStopRecord stop_record ;;
         set_self (debug_set "stopped_existing_recording" (PyBool true))
     | _ => ret tt
     end)
    (fun e =>
       set_self (debug_error ("Get recording status error: " ++ str_of_exn e))).

Definition start_recording (output_path : Path.t) : M W t bool :=
  s <- get_self ;;
  if negb (is_connected s) then ret false
  else
    set_self (set_has_scenes true) ;;;
    set_self (set_debug_info (fresh_debug_info output_path)) ;;;
    try_except
      (r <- ensure_directory output_path ;;
       match r with
       | Some b => ret b
       | None =>
           r <- check_writable output_path ;;
           match r with
           | Some b => ret b
           | None =>
               set_self (set_recording_filename (Some (Path.stem output_path))) ;;;
               set_self (set_recording_path (Some (Path.parent output_path))) ;;;
               stop_if_already_recording ;;;
               success <- _try_recording_method_1 output_path ;;
               if success then ret true
               else
                 success <- _try_recording_method_2 output_path ;;
                 if success then ret true
                 else
                   success <- _try_recording_method_3 output_path ;;
                   if success then ret true
                   else
                     set_self (set_is_recording true) ;;;
                     ret true
           end
       end)
      (fun e =>
         set_self (debug_error ("Fatal error: " ++ str_of_exn e)) ;;;
         ret false).

(** The [for ext in possible_extensions] loop with its [break]. *)
Fixpoint find_recording_file (w : W) (recording_path recording_filename : string)
    (exts : list string) : option string :=
  match exts with
  | [] => None
  | ext :: exts' =>
      let test_path := os_path_join os_sep recording_path (recording_filename ++ ext) in
      if path_exists test_path w then Some test_path
      else find_recording_file w recording_path recording_filename exts'
  end.

Definition _check_recording_output_exists : M W t unit :=
  try_except
    (s <- get_self ;;
     if (negb (truthy_opt (recording_path s)) || negb (truthy_opt (recording_filename s)))%bool
     then ret tt
     else
       match recording_path s, recording_filename s with
       | Some rp, Some rf =>
           recording_file <- ask (fun w => find_recording_file w rp rf possible_extensions) ;;
           match recording_file with
           | Some f => set_self (set_last_recording_path (Some f))
           | None => ret tt
           end
       | _, _ => ret tt
       end)
    (fun e => ret tt).

Definition stop_recording : M W t bool :=
  s <- get_self ;;
  if negb (is_connected s) then ret false
  else
    try_except
      (try_except
         (status <- client_call EvGetRecordStatus get_record_status ;;
          match output_active status with
          | Some false => set_self (set_is_recording false)
          | _ => ret tt
          end)
         (fun e => ret tt) ;;;
       output_path <-
         try_except
           (result <- client_call EvStopRecord stop_record ;;
            match output_path result with
            | Some p => set_self (set_last_recording_path (Some p))
            | None => ret tt
            end ;;;
            set_self (set_is_recording false) ;;;
            ret (output_path result))
           (fun e =>
              set_self (set_is_recording false) ;;;
              ret None) ;;
       try_except
         (status <- client_call EvGetRecordStatus get_record_status ;;
          ret tt)
         (fun e => ret tt) ;;;
       match output_path with
       | Some p =>
           if truthy p then
             found <- ask (path_exists p) ;;
             if found then
               file_size <- host (path_getsize p) ;;
               s <- get_self ;;
               if negb (truthy_opt (last_recording_path s))
               then set_self (set_last_recording_path (Some p))
               else ret tt
             else _check_recording_output_exists
           else _check_recording_output_exists
       | None => _check_recording_output_exists
       end ;;;
       ret true)
      (fun e =>
         set_self (set_is_recording false) ;;;
         ret false).

(** [depth] and [fuel] bound the interpreter's recursion and the chunk
    loop of the upload, as in [GoogleDriveManager]. *)
Definition upload_last_recording (depth fuel : nat) : M W t (option string) :=
  try_except
    (s <- get_self ;;
     match last_recording_path s with
     | None => ret None
     | Some p =>
         if negb (truthy p) then ret None
         else
           found <- ask (path_exists p) ;;
           if negb found then ret None
           else
             file_id <- GoogleDriveManager.upload_file_call depth fuel [p] None ;;
             ret (Some file_id)
     end)
    (fun upload_error => ret None).

End Methods.

End OBSManager.

(** * MainWindow: renaming the finished recording *)

Module MainWindow.

(** The fields of the window that [rename_recording_file] reads or
    writes; the dialogs it opens are collected in [dialogs].
    [desired_filename] is [None] while the attribute does not exist. *)
Record t : Type := mk {
  desired_filename : option string;
  current_recording_path : option Path.t;
  selected_file : option Path.t;
  is_drive_configured : bool;
  upload_btn_enabled : bool;
  file_label : string;
  dialogs : list string
}.

Definition set_current_recording_path (v : option Path.t) (s : t) : t :=
  mk (desired_filename s) v (selected_file s) (is_drive_configured s)
    (upload_btn_enabled s) (file_label s) (dialogs s).
Definition set_selected_file (v : option Path.t) (s : t) : t :=
  mk (desired_filename s) (current_recording_path s) v (is_drive_configured s)
    (upload_btn_enabled s) (file_label s) (dialogs s).
Definition set_upload_btn_enabled (v : bool) (s : t) : t :=
  mk (desired_filename s) (current_recording_path s) (selected_file s)
    (is_drive_configured s) v (file_label s) (dialogs s).
Definition set_file_label (v : string) (s : t) : t :=
  mk (desired_filename s) (current_recording_path s) (selected_file s)
    (is_drive_configured s) (upload_btn_enabled s) v (dialogs s).
Definition add_dialog (msg : string) (s : t) : t :=
  mk (desired_filename s) (current_recording_path s) (selected_file s)
    (is_drive_configured s) (upload_btn_enabled s) (file_label s) (dialogs s ++ [msg])%list.

(** The candidate built in the body of the collision loop. *)
Definition suffixed (target_dir desired_filename : string) (counter : nat) : Path.t :=
  match rsplit_dot desired_filename with
  | (stem, Some ext) =>
      Path.joinpath target_dir (stem ++ "_" ++ str_of_nat counter ++ "." ++ ext)
  | (_, None) =>
      Path.joinpath target_dir (desired_filename ++ "_" ++ str_of_nat counter)
  end.

Section Methods.
Context {W : Type} `{Host W}.

(** The fallback search, not embedded: any method of the window. *)
Variable search_for_recordings : M W t unit.

Definition show_info (message : string) : M W t unit :=
  set_self (add_dialog message).

(** The [while target_path.exists()] loop; [fuel] bounds the number of
    tests of [exists], and running out of it is [Diverged]. *)
Fixpoint free_target (fuel : nat) (target_dir desired_filename : string)
    (target_path : Path.t) (counter : nat) : M W t Path.t :=
  match fuel with
  | 0 => diverge
  | S fuel' =>
      taken <- ask (path_exists (Path.str target_path)) ;;
      if taken then
        let target_path := suffixed target_dir desired_filename counter in
        free_target fuel' target_dir desired_filename target_path (counter + 1)
      else ret target_path
  end.

Definition rename_recording_file (fuel : nat) (actual_path : string) : M W t unit :=
  try_except
    (let actual_path := Path.of_str actual_path in
     found <- ask (path_exists (Path.str actual_path)) ;;
     if negb found then search_for_recordings
     else
       let target_dir := Path.parent actual_path in
       s <- get_self ;;
       match desired_filename s with
       | None => raise (AttributeError "'MainWindow' object has no attribute 'desired_filename'")
       | Some desired_filename =>
           let target_path := Path.joinpath target_dir desired_filename in
           let counter := 1 in
           target_path <- free_target fuel target_dir desired_filename target_path counter ;;
           host (path_rename (Path.str actual_path) (Path.str target_path)) ;;;
           set_self (set_current_recording_path (Some target_path)) ;;;
           set_self (set_selected_file (Some target_path)) ;;;
           s <- get_self ;;
           (if is_drive_configured s then set_self (set_upload_btn_enabled true) else ret tt) ;;;
           show_info ("Recording saved as: " ++ Path.name target_path) ;;;
           set_self (set_file_label ("Recording: " ++ Path.name target_path))
       end)
    (fun e =>
       show_info ("Recording saved to: " ++ actual_path) ;;;
       search_for_recordings).

End Methods.

End MainWindow.

(** * UploadWorker: the thread that runs an upload for the window *)

Module UploadWorker.

(** What the worker's two signals have emitted so far. *)
Record t : Type := mk {
  progress_emitted : list Z;
  finished_emitted : list (bool * string)
}.

Definition emit_progress (value : Z) (s : t) : t :=
  mk (progress_emitted s ++ [value])%list (finished_emitted s).

Definition emit_finished (success : bool) (message : string) (s : t) : t :=
  mk (progress_emitted s) (finished_emitted s ++ [(success, message)])%list.

(** The closure [progress_callback] of [run]. *)
Definition progress_callback : GoogleDriveManager.callback t :=
  fun progress s => (Reply tt, emit_progress progress s).

Section Methods.
Context {W : Type} `{DriveService W} `{Host W}.

Definition run (depth fuel : nat) (file_path class_name chapter_name current_year : string)
    (subtopic_name : string) : M W t unit :=
  try_except
    (file_id <-
       GoogleDriveManager.upload_file depth fuel file_path class_name chapter_name
         current_year subtopic_name (Some progress_callback) ;;
     if truthy file_id then
       set_self (emit_progress 100) ;;;
       set_self (emit_finished true "Upload completed successfully")
     else set_self (emit_finished false "Upload failed - no file ID returned"))
    (fun e => set_self (emit_finished false (str_of_exn e))).

End Methods.

End UploadWorker.

(** * A simulated world

    One concrete Drive, OBS server and file system on which the embedded
    methods run to completion.  The Drive answers the query strings the
    manager builds, and its listing reflects earlier creations; a
    resumable upload receives [req_chunksize] bytes per chunk and reports
    the fraction received until the last chunk, which answers with the
    created resource (and no status). *)

Module Sim.

Import GoogleDriveManager.

Record entry : Type := mkEntry {
  e_id : string;
  e_name : string;
  e_mime : string;
  e_parents : list string;
  e_trashed : bool
}.

Record world : Type := mkWorld {
  drive : list entry;
  drive_calls_left : option nat;
  next_id : nat;
  received : N;
  files : list (string * N);
  dirs : list string;
  readonly : bool;
  today : date;
  obs_active : bool;
  obs_refuses_start : bool;
  obs_status_field : bool;
  obs_status_stale : bool;
  obs_directory : string
}.

Definition with_drive (d : list entry) (n : nat) (r : N) (w : world) : world :=
  mkWorld d (drive_calls_left w) n r (files w) (dirs w) (readonly w) (today w) (obs_active w)
    (obs_refuses_start w) (obs_status_field w) (obs_status_stale w) (obs_directory w).

Definition with_files (f : list (string * N)) (d : list string) (w : world) : world :=
  mkWorld (drive w) (drive_calls_left w) (next_id w) (received w) f d (readonly w) (today w) (obs_active w)
    (obs_refuses_start w) (obs_status_field w) (obs_status_stale w) (obs_directory w).

Definition with_obs (active : bool) (directory : string) (w : world) : world :=
  mkWorld (drive w) (drive_calls_left w) (next_id w) (received w) (files w) (dirs w) (readonly w) (today w)
    active (obs_refuses_start w) (obs_status_field w) (obs_status_stale w) directory.

Definition with_calls_left (c : option nat) (w : world) : world :=
  mkWorld (drive w) c (next_id w) (received w) (files w) (dirs w) (readonly w) (today w)
    (obs_active w) (obs_refuses_start w) (obs_status_field w) (obs_status_stale w)
    (obs_directory w).

Definition with_today (d : date) (w : world) : world :=
  mkWorld (drive w) (drive_calls_left w) (next_id w) (received w) (files w) (dirs w) (readonly w) d
    (obs_active w) (obs_refuses_start w) (obs_status_field w) (obs_status_stale w)
    (obs_directory w).

(** The Drive serves [drive_calls_left] more calls ([None]: any number)
    and rejects the following ones. *)
Definition metered {A} (op : world -> reply A * world) (w : world) : reply A * world :=
  match drive_calls_left w with
  | None => op w
  | Some 0 => (Fault (ClientError "HttpError 403: rate limit exceeded"), w)
  | Some (S n) => op (with_calls_left (Some n) w)
  end.

(** String helpers of the simulated Drive. *)
Fixpoint strip_prefix (pre s : string) : option string :=
  match pre, s with
  | EmptyString, _ => Some s
  | String a pre', String b s' => if Ascii.eqb a b then strip_prefix pre' s' else None
  | String _ _, EmptyString => None
  end.

Fixpoint contains (needle s : string) : bool :=
  if prefix needle s then true
  else match s with
       | EmptyString => false
       | String _ s' => contains needle s'
       end.

Definition drop_last (s : string) : string := substring 0 (String.length s - 1) s.

(** Does entry [e] answer query [q]?  The four query shapes of the
    manager are recognised, each under one of the entry's parents. *)
Definition answers (q : string) (e : entry) : bool :=
  (negb (e_trashed e) &&
   existsb
     (fun p =>
        (String.eqb q (folder_query (e_name e) p) && String.eqb (e_mime e) FOLDER_MIME)
        || String.eqb q (files_query p None)
        || (String.eqb q (subfolders_query p) && String.eqb (e_mime e) FOLDER_MIME)
        || match strip_prefix (files_query p None ++ " and name contains '") q with
           | Some rest =>
               String.eqb (substring (String.length rest - 1) 1 rest) "'"
               && contains (drop_last rest) (e_name e)
           | None => false
           end)
     (e_parents e))%bool.

Definition to_item (e : entry) : item := mkItem (e_id e) (e_name e).

Definition sim_files_list (q : string) (w : world) : reply list_response * world :=
  (Reply (Some (map to_item (filter (answers q) (drive w)))), w).

Definition new_entry (id : string) (body : file_body) : entry :=
  mkEntry id (name body)
    (match mimeType body with Some m => m | None => "application/octet-stream" end)
    (parents body) false.

Definition new_resource (id : string) (body : file_body) : file_resource :=
  mkResource id (name body) ("https://drive.google.com/file/d/" ++ id ++ "/view").

Definition fresh_id (w : world) : string := "id" ++ str_of_nat (next_id w).

Definition sim_files_create (body : file_body) (w : world) : reply file_resource * world :=
  let id := fresh_id w in
  (Reply (new_resource id body),
   with_drive (drive w ++ [new_entry id body])%list (S (next_id w)) (received w) w).

Fixpoint lookup_size (p : string) (l : list (string * N)) : option N :=
  match l with
  | [] => None
  | (p', n) :: l' => if String.eqb p p' then Some n else lookup_size p l'
  end.

Definition sim_next_chunk (request : upload_request) (w : world)
  : reply (option upload_status * option file_resource) * world :=
  match lookup_size (req_media request) (files w) with
  | None => (Fault (FileNotFoundError ("No such file: " ++ req_media request)), w)
  | Some size =>
      let sent := (received w + req_chunksize request)%N in
      if (size <=? sent)%N then
        let id := fresh_id w in
        (Reply (None, Some (new_resource id (req_body request))),
         with_drive (drive w ++ [new_entry id (req_body request)])%list (S (next_id w)) 0%N w)
      else
        (Reply (Some (mkStatus (float_div (Z.of_N sent) (N.succ_pos (N.pred size)))), None),
         with_drive (drive w) (next_id w) sent w)
  end.

#[global] Instance sim_drive : DriveService world := {
  files_list q := metered (sim_files_list q);
  files_create body := metered (sim_files_create body);
  request_next_chunk request := metered (sim_next_chunk request)
}.

Definition remove_file (p : string) (l : list (string * N)) : list (string * N) :=
  filter (fun f => negb (String.eqb p (fst f))) l.

Definition sim_exists (p : string) (w : world) : bool :=
  (existsb (fun f => String.eqb p (fst f)) (files w) || existsb (String.eqb p) (dirs w))%bool.

Definition sim_getsize (p : string) (w : world) : reply N * world :=
  match lookup_size p (files w) with
  | Some n => (Reply n, w)
  | None => (Fault (FileNotFoundError ("No such file: " ++ p)), w)
  end.

Definition sim_mkdir (p : string) (w : world) : reply unit * world :=
  if readonly w then (Fault (OSError "Permission denied"), w)
  else (Reply tt, with_files (files w) (p :: dirs w) w).

Definition sim_write_text (p text : string) (w : world) : reply unit * world :=
  if readonly w then (Fault (OSError "Permission denied"), w)
  else (Reply tt, with_files ((p, N.of_nat (String.length text)) :: remove_file p (files w)) (dirs w) w).

Definition sim_unlink (p : string) (w : world) : reply unit * world :=
  match lookup_size p (files w) with
  | Some _ => (Reply tt, with_files (remove_file p (files w)) (dirs w) w)
  | None => (Fault (FileNotFoundError ("No such file: " ++ p)), w)
  end.

Definition sim_rename (src dst : string) (w : world) : reply unit * world :=
  match lookup_size src (files w) with
  | Some n =>
      (Reply tt, with_files ((dst, n) :: remove_file dst (remove_file src (files w))) (dirs w) w)
  | None => (Fault (FileNotFoundError ("No such file: " ++ src)), w)
  end.

#[global] Instance sim_host : Host world := {
  path_exists := sim_exists;
  path_getsize := sim_getsize;
  path_mkdir := sim_mkdir;
  path_write_text := sim_write_text;
  path_unlink := sim_unlink;
  path_rename := sim_rename;
  datetime_now := today;
  os_sep := "/"%char;
  os_altsep := None
}.

Definition sim_get_record_status (w : world) : reply record_status * world :=
  (Reply (mkRecordStatus
         (if obs_status_field w
          then Some (if obs_status_stale w then false else obs_active w)
          else None)), w).

Definition sim_start_record (w : world) : reply unit * world :=
  if (obs_refuses_start w || obs_active w)%bool
  then (Fault (ClientError "StartRecord returned code 500"), w)
  else (Reply tt, with_obs true (obs_directory w) w).

Definition sim_output (w : world) : string :=
  os_path_join "/"%char (obs_directory w) "2024-01-01 10-00-00.mp4".

Definition sim_stop_record (w : world) : reply stop_result * world :=
  if obs_active w
  then (Reply (mkStopResult (Some (sim_output w))),
        with_files ((sim_output w, 4096%N) :: remove_file (sim_output w) (files w)) (dirs w)
          (with_obs false (obs_directory w) w))
  else (Fault (ClientError "StopRecord returned code 501"), w).

Definition sim_set_record_directory (d : string) (w : world) : reply unit * world :=
  (Reply tt, with_obs (obs_active w) d w).

Definition sim_set_profile_parameter (category pname value : string) (w : world)
  : reply unit * world :=
  if (String.eqb category "Output" && String.eqb pname "RecFilePath")%bool
  then (Reply tt, with_obs (obs_active w) value w)
  else (Reply tt, w).

#[global] Instance sim_obs : ObsClient world := {
  get_record_status := sim_get_record_status;
  start_record := sim_start_record;
  stop_record := sim_stop_record;
  set_record_directory := sim_set_record_directory;
  set_profile_parameter := sim_set_profile_parameter
}.

(** A class folder with one chapter holding two recordings (one of them
    in a subtopic folder), a finished local recording of 2.5 MiB, and an
    idle OBS. *)
Definition w0 : world :=
  mkWorld
    [ mkEntry "c1" "11th_2024" FOLDER_MIME [SHARED_FOLDER_ID] false;
      mkEntry "ch1" "Thermodynamics" FOLDER_MIME ["c1"] false;
      mkEntry "s1" "Main" FOLDER_MIME ["ch1"] false;
      mkEntry "f1" "11th_Thermodynamics_Main_30-12-2023_Class_1.mp4" "video/mp4" ["s1"] false;
      mkEntry "f2" "11th_Thermodynamics_Carnot_31-12-2023_Class_2.mp4" "video/mp4" ["ch1"] false;
      mkEntry "t1" "Optics" FOLDER_MIME ["c1"] true ]
    None 0 0%N
    [ ("/videos/rec.mp4", 2621440%N); ("/videos/short.mp4", 1887437%N) ]
    [ "/videos" ]
    false
    (mkDate 1 1 2024)
    false false true false "/videos".

Definition init {O : Type} (s : O) (w : world) : state world O := mkState s w [].

End Sim.


(** * Further interfaces

    The calls below are not recorded in the trace, which lists the
    recording and transfer requests. *)

(** The answer to [GetVersion]; either attribute may be missing. *)
Record version_reply : Type := mkVersion {
  obs_version : option string;
  obs_web_socket_version : option string
}.

(** The answer to [GetSceneList]: the [scenes] attribute may be missing;
    a scene is a dictionary whose ['sceneName'] key may be absent. *)
Record scene_list_reply : Type := mkSceneList {
  scenes : option (list (option string))
}.

(** The answer to [GetProfileParameter]: the [parameter_value] attribute
    may be missing, and may be [None]. *)
Record parameter_reply : Type := mkParameter {
  parameter_value : option (option string)
}.

(** The dictionary [files().get] answers with. *)
Record file_meta : Type := mkMeta {
  meta_name : option string;
  meta_parents : option (list string)
}.

(** The handshake [obs.ReqClient(...)] and the queries [connect] makes. *)
Class ObsSession (W : Type) : Type := {
  req_client : W -> reply unit * W;
  get_version : W -> reply version_reply * W;
  get_scene_list : W -> reply scene_list_reply * W;
  get_profile_parameter : string -> string -> W -> reply parameter_reply * W
}.

(** [files().get(fileId, fields)] and [files().delete(fileId)]. *)
Class DriveFiles (W : Type) : Type := {
  files_get : string -> string -> W -> reply file_meta * W;
  files_delete : string -> W -> reply unit * W
}.

(** What the search for recordings reads: [Path.glob("*.mp4")] of a
    directory, the modification time of a file, the current timestamp,
    the home and the working directory.  The clock stands still during
    one search. *)
Class VideoFolders (W : Type) : Type := {
  glob_mp4 : string -> W -> reply (list string);
  stat_mtime : string -> W -> reply Q;
  timestamp_now : W -> Q;
  path_home : W -> string;
  path_cwd : W -> string
}.

(** The taxonomy, a dictionary of dictionaries of lists; insertion order
    is kept, as in Python. *)
Definition chapters_t : Type := list (string * list (string * list string)).

(** [json.dump(chapters, f)] into the configuration file. *)
Class ChaptersFile (W : Type) : Type := {
  dump_chapters : string -> chapters_t -> W -> reply unit * W
}.

(** A method of a component, run on the object that holds it. *)
Definition zoom {W O O' A} (get : O' -> O) (put : O -> O' -> O') (m : M W O A) : M W O' A :=
  fun st =>
    let '(r, st1) := m (mkState (get (self st)) (world st) (trace st)) in
    (r, mkState (put (self st1) (self st)) (world st1) (trace st1)).

(** [s.endswith(suffix)] *)
Definition endswith (s suffix : string) : bool :=
  ((String.length suffix <=? String.length s)%nat
   && String.eqb (substring (String.length s - String.length suffix) (String.length suffix) s)
        suffix)%bool.

(** [sep.join(l)] *)
Fixpoint str_join (sep : string) (l : list string) : string :=
  match l with
  | [] => ""
  | [x] => x
  | x :: l' => x ++ sep ++ str_join sep l'
  end.

(** [p.suffix] of [pathlib]. *)
Definition path_suffix (p : Path.t) : string :=
  let i := rfind "."%char (Path.name p) in
  if ((0 <? i)%Z && (i <? Z.of_nat (String.length (Path.name p)) - 1)%Z)%bool
  then slice (Path.name p) (Z.to_nat i) (String.length (Path.name p))
  else "".

(** * OBSManager: connecting and querying *)

Module OBSConnection.

Import OBSManager.

(** An [OBSManager] with its [version_info] attribute: [None] before the
    first connection, then the two version strings. *)
Record t : Type := mk {
  manager : OBSManager.t;
  version_info : option (string * string)
}.

Definition set_manager (m : OBSManager.t) (s : t) : t := mk m (version_info s).
Definition set_version_info (v : option (string * string)) (s : t) : t := mk (manager s) v.

Section Methods.
Context {W : Type} `{ObsClient W} `{ObsSession W} `{Host W}.

(** A query on [self.client] that the trace does not record. *)
Definition client_query {A} (op : W -> reply A * W) : M W OBSManager.t A :=
  s <- get_self ;;
  if client s then host op
  else raise (AttributeError "'NoneType' object has no attribute").

(** A method that touches only the fields of [OBSManager.t]. *)
Definition on_manager {A} (m : M W OBSManager.t A) : M W t A :=
  zoom manager set_manager m.

Definition _get_obs_version : M W t unit :=
  try_except
    (version <- on_manager (client_query get_version) ;;
     match obs_version version, obs_web_socket_version version with
     | Some v, Some wv => set_self (set_version_info (Some (v, wv)))
     | _, _ => raise (AttributeError "object has no attribute")
     end)
    (fun e => set_self (set_version_info (Some ("unknown", "unknown")))).

Definition _check_obs_recording_setup : M W OBSManager.t unit :=
  let assume_scenes : M W OBSManager.t unit :=
    s <- get_self ;;
    if is_connected s then set_self (set_has_scenes true) else ret tt in
  try_except
    (set_self (set_has_scenes false) ;;;
     try_except
       (scenes_info <- client_query get_scene_list ;;
        match scenes scenes_info with
        | Some (_ :: _) => set_self (set_has_scenes true)
        | _ => ret tt
        end ;;;
        s <- get_self ;;
        if (negb (has_scenes s) && is_connected s)%bool
        then set_self (set_has_scenes true)
        else ret tt)
       (fun scene_ex => assume_scenes))
    (fun e => assume_scenes).

Definition _check_recording_settings : M W OBSManager.t unit :=
  try_except
    (try_except
       (response <- client_query (get_profile_parameter "Output" "RecFilePath") ;;
        match parameter_value response with
        | None => ret tt
        | Some value =>
            set_self (set_recording_path value) ;;;
            match value with
            | None => raise (TypeError "stat: path should be string, bytes, os.PathLike or integer, not NoneType")
            | Some recording_path =>
                found <- ask (path_exists recording_path) ;;
                if found then
                  try_except
                    (let test_file := os_path_join os_sep recording_path "obs_test_write.tmp" in
                     host (path_write_text test_file "test") ;;;
                     host (path_unlink test_file))
                    (fun write_err => ret tt)
                else ret tt
            end
        end)
       (fun e => set_self (set_recording_path None)) ;;;
     try_except
       (format_response <- client_query (get_profile_parameter "Output" "RecFormat") ;;
        ret tt)
       (fun format_err => ret tt))
    (fun e => set_self (set_recording_path (Some "unknown"))).

Definition connect : M W t bool :=
  try_except
    (host req_client ;;;
     on_manager (set_self (set_client true)) ;;;
     on_manager (set_self (set_is_connected true)) ;;;
     _get_obs_version ;;;
     on_manager _check_obs_recording_setup ;;;
     on_manager _check_recording_settings ;;;
     ret true)
    (fun e =>
       on_manager (set_self (set_is_connected false)) ;;;
       ret false).

(** [has_scenes] is set by [__init__], so the [hasattr] test holds. *)
Definition is_ready_for_recording : M W OBSManager.t bool :=
  s <- get_self ;;
  if negb (is_connected s) then ret false
  else ret (is_connected s && has_scenes s)%bool.

Definition get_recording_status : M W OBSManager.t bool :=
  s <- get_self ;;
  if negb (is_connected s) then ret false
  else
    try_except
      (status <- client_call EvGetRecordStatus get_record_status ;;
       match output_active status with
       | Some recording => ret recording
       | None =>
           s <- get_self ;;
           ret (is_recording s)
       end)
      (fun e =>
         s <- get_self ;;
         ret (is_recording s)).

End Methods.

End OBSConnection.

(** * GoogleDriveManager: metadata of uploaded files *)

Module DriveMetadata.

Section Methods.
Context {W : Type} `{DriveFiles W}.
Context {O : Type}.

(** [d.get(key, '')] on an optional string. *)
Definition get_or_empty (x : option string) : string :=
  match x with
  | Some s => s
  | None => ""
  end.

(** [l[0]]; the [IndexError], like the [KeyError] below, is carried with
    its name in the message: no handler of these methods looks at the
    kind of an exception. *)
Definition first_item (l : list string) : M W O string :=
  match l with
  | x :: _ => ret x
  | [] => raise (OSError "IndexError: list index out of range")
  end.

Definition get_file_info (file_id : string) : M W O (option file_meta) :=
  try_except
    (file <- host (files_get file_id "") ;;
     ret (Some file))
    (fun e => ret None).

Definition delete_file (file_id : string) : M W O bool :=
  try_except
    (host (files_delete file_id) ;;;
     ret true)
    (fun e => ret false).

Definition get_file_path (file_id : string) : M W O (option string) :=
  try_except
    (file <- host (files_get file_id "name, parents") ;;
     let path := get_or_empty (meta_name file) in
     match meta_parents file with
     | Some file_parents =>
         parent_id <- first_item file_parents ;;
         try_except
           (parent <- host (files_get parent_id "name, parents") ;;
            let parent_path := get_or_empty (meta_name parent) in
            match meta_parents parent with
            | Some parent_parents =>
                grandparent_id <- first_item parent_parents ;;
                try_except
                  (grandparent <- host (files_get grandparent_id "name") ;;
                   match meta_name grandparent with
                   | Some grandparent_name =>
                       ret (Some (grandparent_name ++ " > " ++ parent_path ++ " > " ++ path))
                   | None => raise (OSError "KeyError: 'name'")
                   end)
                  (fun e => ret (Some (parent_path ++ " > " ++ path)))
            | None => ret (Some (parent_path ++ " > " ++ path))
            end)
           (fun e => ret (Some path))
     | None => ret (Some path)
     end)
    (fun e => ret None).

End Methods.

End DriveMetadata.

(** * Config: the taxonomy and the validation of a file *)

Module Config.

(** Dictionaries that keep insertion order. *)
Fixpoint lookup {V} (k : string) (d : list (string * V)) : option V :=
  match d with
  | [] => None
  | (k', v) :: d' => if String.eqb k k' then Some v else lookup k d'
  end.

(** [k in d] *)
Definition has_key {V} (k : string) (d : list (string * V)) : bool :=
  match lookup k d with
  | Some _ => true
  | None => false
  end.

(** [d[k] = v]: in place for a key of [d], at the end otherwise. *)
Fixpoint store {V} (k : string) (v : V) (d : list (string * V)) : list (string * V) :=
  match d with
  | [] => [(k, v)]
  | (k', v') :: d' =>
      if String.eqb k k' then (k, v) :: d' else (k', v') :: store k v d'
  end.

(** [list(d.keys())] *)
Definition keys {V} (d : list (string * V)) : list string := map fst d.

(** [x in l] on a list of strings. *)
Definition contains_str (x : string) (l : list string) : bool := existsb (String.eqb x) l.

Record t : Type := mk {
  chapters : chapters_t;
  config_file : string;
  max_upload_size : N;
  allowed_file_types : list string
}.

Definition set_chapters (c : chapters_t) (s : t) : t :=
  mk c (config_file s) (max_upload_size s) (allowed_file_types s).

Definition get_classes (s : t) : list string := keys (chapters s).

Definition get_chapters (s : t) (class_name : string) : list string :=
  match lookup class_name (chapters s) with
  | Some class_chapters => keys class_chapters
  | None => []
  end.

Definition get_subtopics (s : t) (class_name chapter_name : string) : list string :=
  match lookup class_name (chapters s) with
  | Some class_chapters =>
      match lookup chapter_name class_chapters with
      | Some subtopics => subtopics
      | None => ["Main"]
      end
  | None => ["Main"]
  end.

Section Methods.
Context {W : Type} `{ChaptersFile W} `{Host W}.

(** [str.lower] and [str.strip], of the Python library. *)
Variable lower : string -> string.
Variable strip : string -> string.

Definition _save_chapters (chapters : chapters_t) : M W t unit :=
  try_except
    (s <- get_self ;;
     host (dump_chapters (config_file s) chapters))
    (fun e => ret tt).

Definition add_class (class_name : string) : M W t bool :=
  s <- get_self ;;
  if has_key class_name (chapters s) then ret false
  else
    set_self (set_chapters (store class_name [] (chapters s))) ;;;
    s <- get_self ;;
    _save_chapters (chapters s) ;;;
    ret true.

Definition add_chapter (class_name chapter_name : string) : M W t bool :=
  s <- get_self ;;
  match lookup class_name (chapters s) with
  | None => ret false
  | Some class_chapters =>
      if has_key chapter_name class_chapters then ret false
      else
        set_self
          (set_chapters
             (store class_name (store chapter_name ["Main"] class_chapters) (chapters s))) ;;;
        s <- get_self ;;
        _save_chapters (chapters s) ;;;
        ret true
  end.

Definition add_subtopic (class_name chapter_name subtopic_name : string) : M W t bool :=
  s <- get_self ;;
  match lookup class_name (chapters s) with
  | None => ret false
  | Some class_chapters =>
      match lookup chapter_name class_chapters with
      | None => ret false
      | Some subtopics =>
          if contains_str subtopic_name subtopics then ret false
          else
            set_self
              (set_chapters
                 (store class_name
                    (store chapter_name (subtopics ++ [subtopic_name])%list class_chapters)
                    (chapters s))) ;;;
            s <- get_self ;;
            _save_chapters (chapters s) ;;;
            ret true
      end
  end.

(** [validate_file]; [file_path.stat().st_size] is the size the host
    reports. *)
Definition validate_file (file_path : Path.t) : M W t (bool * option string) :=
  s <- get_self ;;
  found <- ask (path_exists (Path.str file_path)) ;;
  if negb found then ret (false, Some "File does not exist")
  else
    st_size <- host (path_getsize (Path.str file_path)) ;;
    if (max_upload_size s <? st_size)%N then
      ret (false,
           Some ("File size exceeds maximum allowed size of "
                   ++ str_of_nat (N.to_nat (max_upload_size s / (1024 * 1024))) ++ "MB"))
    else
      if negb (match allowed_file_types s with
               | [only] => String.eqb only "*"
               | _ => false
               end)
      then
        let file_ext := lower (path_suffix file_path) in
        if negb (existsb (fun ext => endswith file_ext (strip ext)) (allowed_file_types s))
        then
          ret (false,
               Some ("File type not allowed. Allowed types: "
                       ++ str_join ", " (allowed_file_types s)))
        else ret (true, None)
      else ret (true, None).

End Methods.

End Config.

(** * MainWindow: the name of a recording, its timer, and the search *)

Module Recordings.

Import MainWindow.

(** [f"{n:02d}"] for a non-negative integer. *)
Definition two_digits (n : nat) : string := zfill 2 (str_of_nat n).

(** The text [_update_recording_status] puts on the timer label, from
    [elapsed.seconds]. *)
Definition recording_time_text (elapsed_seconds : nat) : string :=
  let hours := elapsed_seconds / 3600 in
  let minutes := (elapsed_seconds mod 3600) / 60 in
  let seconds := elapsed_seconds mod 60 in
  two_digits hours ++ ":" ++ two_digits minutes ++ ":" ++ two_digits seconds.

Section FileName.

(** [c.isalnum()], of the Python library; a string is read as its
    sequence of characters. *)
Variable isalnum : ascii -> bool.

(** ["".join(c for c in name if c.isalnum() or c in (' ', '-', '_'))] *)
Fixpoint safe_name (name : string) : string :=
  match name with
  | EmptyString => EmptyString
  | String c name' =>
      if (isalnum c || Ascii.eqb c " " || Ascii.eqb c "-" || Ascii.eqb c "_")%bool
      then String c (safe_name name')
      else safe_name name'
  end.

(** The file name [toggle_recording] asks OBS for, and keeps as
    [desired_filename]. *)
Definition recording_filename (class_name chapter_name subtopic_name : string) (today : date)
  : string :=
  let date_format := strftime_dmY today in
  let safe_chapter_name := safe_name chapter_name in
  let safe_class_name := safe_name class_name in
  let safe_subtopic_name := safe_name subtopic_name in
  safe_class_name ++ "_" ++ safe_chapter_name ++ "_" ++ safe_subtopic_name ++ "_"
    ++ date_format ++ ".mp4".

End FileName.

(** [l.sort(key=..., reverse=True)] on files paired with their keys: a
    stable sort, so files with equal keys keep their order. *)
Fixpoint insert_desc (x : string * Q) (l : list (string * Q)) : list (string * Q) :=
  match l with
  | [] => [x]
  | y :: l' => if Qle_bool (snd y) (snd x) then x :: y :: l' else y :: insert_desc x l'
  end.

Definition sort_desc (l : list (string * Q)) : list (string * Q) :=
  fold_right insert_desc [] l.

Definition show_warning (message : string) {W} : M W MainWindow.t unit :=
  set_self (add_dialog message).

Definition show_error (message : string) {W} : M W MainWindow.t unit :=
  set_self (add_dialog message).

Definition not_found_warning : string :=
  "Could not find the recording file.

Please check:
1. OBS recording settings in Settings → Output → Recording
2. Look in your Videos folder for the recording
3. Try recording again with different settings".

Section Search.
Context {W : Type} `{Host W} `{VideoFolders W}.

(** The directories searched after the data directory. *)
Definition default_obs_paths (w : W) : list string :=
  [ os_path_join "/"%char (path_home w) "Videos";
    os_path_join "/"%char
      (os_path_join "/"%char "C:/Users" (Path.name (Path.of_str (path_home w)))) "Videos";
    os_path_join "/"%char (path_cwd w) "recordings";
    "C:/Program Files/obs-studio";
    "C:/Program Files (x86)/obs-studio" ].

(** [list(path.glob("*.mp4"))] *)
Definition glob_videos (path : string) : M W MainWindow.t (list string) :=
  host (fun w => (glob_mp4 path w, w)).

(** [x.stat().st_mtime] *)
Definition mtime (x : string) : M W MainWindow.t Q :=
  host (fun w => (stat_mtime x w, w)).

(** The files with the key the sort computes for each of them. *)
Definition with_mtimes (files : list string) : M W MainWindow.t (list (string * Q)) :=
  for_each files []
    (fun keyed x => t <- mtime x ;; ret (keyed ++ [(x, t)])%list).

(** The comprehension that keeps the files modified in the last minute. *)
Definition recent_only (files : list string) : M W MainWindow.t (list string) :=
  for_each files []
    (fun kept f =>
       now <- ask timestamp_now ;;
       t <- mtime f ;;
       if Qlt_le_dec (float_sub now t) 60 then ret (kept ++ [f])%list else ret kept).

(** [self.config.data_dir] is given as [data_dir]. *)
Definition search_for_recordings (data_dir : string) : M W MainWindow.t unit :=
  try_except
    (video_files <- glob_videos data_dir ;;
     paths <- ask default_obs_paths ;;
     video_files <-
       for_each paths video_files
         (fun video_files path =>
            found <- ask (path_exists path) ;;
            if found then
              more <- glob_videos path ;;
              ret (video_files ++ more)%list
            else ret video_files) ;;
     match video_files with
     | _ :: _ =>
         keyed <- with_mtimes video_files ;;
         let video_files := map fst (sort_desc keyed) in
         recent_files <- recent_only video_files ;;
         match recent_files with
         | first :: _ =>
             show_info ("Recording saved to: " ++ first) ;;;
             set_self (set_selected_file (Some (Path.of_str first))) ;;;
             set_self (set_file_label ("Recording: " ++ Path.name (Path.of_str first))) ;;;
             set_self (set_upload_btn_enabled true)
         | [] =>
             match video_files with
             | most_recent :: _ =>
                 show_info ("Recording may have been saved to: " ++ most_recent)
             | [] => raise (OSError "IndexError: list index out of range")
             end
         end
     | [] => show_warning not_found_warning
     end)
    (fun e => show_error "Could not locate recording file.").

End Search.

End Recordings.

(** * The simulated world, continued

    The simulated Drive answers metadata queries from its store, and the
    configuration file is written unless the file system is read-only.
    [Sim2] adds what [connect] and the search for recordings read: an
    OBS that may be down, its scenes and recording path, modification
    times and a clock. *)

Module SimFiles.

Fixpoint find_entry (id : string) (d : list Sim.entry) : option Sim.entry :=
  match d with
  | [] => None
  | e :: d' => if String.eqb id (Sim.e_id e) then Some e else find_entry id d'
  end.

Definition sim_files_get (file_id fields : string) (w : Sim.world) : reply file_meta * Sim.world :=
  match find_entry file_id (Sim.drive w) with
  | Some e =>
      (Reply (mkMeta (Some (Sim.e_name e))
                (match Sim.e_parents e with [] => None | l => Some l end)), w)
  | None => (Fault (ClientError "HttpError 404: File not found"), w)
  end.

Definition sim_files_delete (file_id : string) (w : Sim.world) : reply unit * Sim.world :=
  match find_entry file_id (Sim.drive w) with
  | Some _ =>
      (Reply tt,
       Sim.with_drive (filter (fun e => negb (String.eqb file_id (Sim.e_id e))) (Sim.drive w))
         (Sim.next_id w) (Sim.received w) w)
  | None => (Fault (ClientError "HttpError 404: File not found"), w)
  end.

#[global] Instance sim_drive_files : DriveFiles Sim.world := {
  files_get file_id fields := Sim.metered (sim_files_get file_id fields);
  files_delete file_id := Sim.metered (sim_files_delete file_id)
}.

Definition sim_dump_chapters (path : string) (chapters : chapters_t) (w : Sim.world)
  : reply unit * Sim.world :=
  Sim.sim_write_text path "{}" w.

#[global] Instance sim_chapters_file : ChaptersFile Sim.world := {
  dump_chapters := sim_dump_chapters
}.

End SimFiles.

Module Sim2.

Record world : Type := mkWorld {
  base : Sim.world;
  obs_running : bool;
  obs_scenes : reply scene_list_reply;
  obs_rec_file_path : reply parameter_reply;
  mtimes : list (string * Q);
  clock : Q;
  home : string;
  cwd : string
}.

Definition with_base (b : Sim.world) (w : world) : world :=
  mkWorld b (obs_running w) (obs_scenes w) (obs_rec_file_path w) (mtimes w) (clock w)
    (home w) (cwd w).

(** An operation of the base world, on the extended one. *)
Definition lift {A} (op : Sim.world -> reply A * Sim.world) (w : world) : reply A * world :=
  let '(r, b) := op (base w) in (r, with_base b w).

#[global] Instance sim2_host : Host world := {
  path_exists p w := Sim.sim_exists p (base w);
  path_getsize p := lift (Sim.sim_getsize p);
  path_mkdir p := lift (Sim.sim_mkdir p);
  path_write_text p text := lift (Sim.sim_write_text p text);
  path_unlink p := lift (Sim.sim_unlink p);
  path_rename src dst := lift (Sim.sim_rename src dst);
  datetime_now w := Sim.today (base w);
  os_sep := "/"%char;
  os_altsep := None
}.

Definition sim_req_client (w : world) : reply unit * world :=
  if obs_running w then (Reply tt, w)
  else (Fault (ClientError "ConnectionRefusedError"), w).

Definition sim_get_profile_parameter (category pname : string) (w : world)
  : reply parameter_reply * world :=
  if String.eqb pname "RecFilePath" then (obs_rec_file_path w, w)
  else (Reply (mkParameter (Some (Some "mp4"))), w).

#[global] Instance sim2_session : ObsSession world := {
  req_client := sim_req_client;
  get_version w := (Reply (mkVersion (Some "30.0.2") (Some "5.3.3")), w);
  get_scene_list w := (obs_scenes w, w);
  get_profile_parameter := sim_get_profile_parameter
}.

(** The files of a directory whose name ends with [.mp4]. *)
Definition in_directory (dir : string) (p : string) : bool :=
  match Sim.strip_prefix (dir ++ "/") p with
  | Some rest => (negb (Sim.contains "/" rest) && endswith rest ".mp4")%bool
  | None => false
  end.

Fixpoint lookup_mtime (p : string) (l : list (string * Q)) : option Q :=
  match l with
  | [] => None
  | (p', t) :: l' => if String.eqb p p' then Some t else lookup_mtime p l'
  end.

#[global] Instance sim2_folders : VideoFolders world := {
  glob_mp4 dir w := Reply (filter (in_directory dir) (map fst (Sim.files (base w))));
  stat_mtime p w :=
    match lookup_mtime p (mtimes w) with
    | Some t => Reply t
    | None => Fault (FileNotFoundError ("No such file: " ++ p))
    end;
  timestamp_now := clock;
  path_home := home;
  path_cwd := cwd
}.

End Sim2.

(** * Vocabulary of the statements *)

(** ** Observations on a trace *)

(** The values the progress callback was invoked with, in order. *)
Fixpoint callback_values (tr : list event) : list Z :=
  match tr with
  | [] => []
  | EvProgressCallback v :: tr' => v :: callback_values tr'
  | _ :: tr' => callback_values tr'
  end.

(** The statuses the chunks of an upload answered with, in order. *)
Fixpoint reported_statuses (tr : list event) : list upload_status :=
  match tr with
  | [] => []
  | EvNextChunk _ (Some status) :: tr' => status :: reported_statuses tr'
  | _ :: tr' => reported_statuses tr'
  end.

(** [int(progress * 100)] for a reported fraction, when the product is
    finite. *)
Definition percent (p : Q) : option Z := option_map py_int (float_mul p 100).

(** The number of [files().create] calls. *)
Fixpoint count_creates (tr : list event) : nat :=
  match tr with
  | [] => 0
  | EvFilesCreate _ :: tr' => S (count_creates tr')
  | _ :: tr' => count_creates tr'
  end.

(** Is the event a listing or a creation on Drive? *)
Definition is_drive_lookup (ev : event) : bool :=
  match ev with
  | EvFilesList _ | EvFilesCreate _ => true
  | _ => false
  end.

(** ** Observations on a computation *)

Section Observations.
Context {W O : Type}.


(** A computation that always comes back, with a value or an exception. *)
Definition returns {A} (m : M W O A) : Prop :=
  forall st, fst (m st) <> Diverged.

(** A computation that always comes back with a value. *)
Definition total {A} (m : M W O A) : Prop :=
  forall st, exists a st', m st = (Ok a, st').

(** A computation that keeps a property of [self]. *)
Definition preserves (I : O -> Prop) {A} (m : M W O A) : Prop :=
  forall st r st', m st = (r, st') -> I (self st) -> I (self st').

(** A computation that leaves [self] alone and adds only Drive listings
    and creations to the trace. *)
Definition quiet {A} (m : M W O A) : Prop :=
  forall st r st',
    m st = (r, st') ->
    self st' = self st
    /\ exists new, trace st' = (trace st ++ new)%list /\ forallb is_drive_lookup new = true.

End Observations.

(** ** Observations on the controller *)

(** The recording flag is cleared. *)
Definition stopped (s : OBSManager.t) : Prop := OBSManager.is_recording s = false.

(** A method that answers [True] only with the recording flag set. *)
Definition flags_success {W : Type} (m : M W OBSManager.t bool) : Prop :=
  forall st st', m st = (Ok true, st') -> OBSManager.is_recording (self st') = true.

(** The names under which the three start methods enter the diagnostics. *)
Definition method_1_name : option OBSManager.pyval :=
  Some (OBSManager.PyStr "SetOutputDirectory").

(** ** Lists, strings and file names *)

(** A list is non-decreasing for [le] when each element is below the
    next one. *)
Fixpoint nondecreasing {A} (le : A -> A -> Prop) (l : list A) : Prop :=
  match l with
  | [] => True
  | x :: l' =>
      match l' with
      | [] => True
      | y :: _ => le x y /\ nondecreasing le l'
      end
  end.

(** ** The notation DD-MM-YYYY *)

(** The decimal digit of the units of [n]. *)
Definition units_digit (n : nat) : ascii := ascii_of_nat (48 + n mod 10).

(** A date of the calendar, in a year of four digits. *)
Definition calendar_date (d : date) : Prop :=
  1 <= day d <= 31 /\ 1 <= month d <= 12 /\ (1000 <= Z.of_nat (year d) <= 9999)%Z.

(** A date written DD-MM-YYYY: the two digits of the day, the two digits
    of the month and the four digits of the year, in this order, with a
    hyphen between them. *)
Definition DD_MM_YYYY (d : date) : string :=
  String (units_digit (day d / 10)) (String (units_digit (day d))
    (String "-"
       (String (units_digit (month d / 10)) (String (units_digit (month d))
          (String "-"
             (String (units_digit (year d / 1000)) (String (units_digit (year d / 100))
                (String (units_digit (year d / 10)) (String (units_digit (year d))
                   EmptyString))))))))).

(** [c] does not occur in [s]. *)
Fixpoint absent (c : ascii) (s : string) : Prop :=
  match s with
  | EmptyString => True
  | String a s' => a <> c /\ absent c s'
  end.

(** The candidates of the collision loop: the desired name, then the
    name with the suffix _1, _2, ... *)
Definition candidate (target_dir desired_filename : string) (k : nat) : Path.t :=
  match k with
  | 0 => Path.joinpath target_dir desired_filename
  | S _ => MainWindow.suffixed target_dir desired_filename k
  end.

(** ** Observations on what a computation sends *)

Section Sends.
Context {W O : Type}.

(** A computation that only appends to the trace, and only events that
    satisfy [p]. *)
Definition adds_only (p : event -> bool) {A} (m : M W O A) : Prop :=
  forall st r st',
    m st = (r, st') ->
    exists new, trace st' = (trace st ++ new)%list /\ forallb p new = true.

End Sends.

Definition no_event (ev : event) : bool := false.

Definition any_event (ev : event) : bool := true.

Definition is_listing (ev : event) : bool :=
  match ev with
  | EvFilesList _ => true
  | _ => false
  end.

Definition is_transfer (ev : event) : bool :=
  match ev with
  | EvNextChunk _ _ | EvProgressCallback _ => true
  | _ => false
  end.

Definition is_drive_event (ev : event) : bool :=
  (is_drive_lookup ev || is_transfer ev)%bool.

Definition is_obs_request (ev : event) : bool := negb (is_drive_event ev).

(** ** Observations on the controller, continued *)

(** A controller that says it is connected holds a client. *)
Definition connected_has_client (s : OBSManager.t) : Prop :=
  OBSManager.is_connected s = true -> OBSManager.client s = true.

(** ** Observations on the search for a recording *)

Section Found.
Context {W : Type} `{Host W} `{VideoFolders W}.

(** A file modified less than a minute before the clock of [w], the
    difference being that of floats. *)
Definition is_recent (w : W) (f : string) : bool :=
  match stat_mtime f w with
  | Reply t => if Qlt_le_dec (float_sub (timestamp_now w) t) 60 then true else false
  | Fault _ => false
  end.

(** A video of a directory that is searched: the data directory, or a
    default directory that exists. *)
Definition found_video (w : W) (data_dir g : string) : Prop :=
  exists dir files,
    (dir = data_dir
     \/ (In dir (Recordings.default_obs_paths w) /\ path_exists dir w = true))
    /\ glob_mp4 dir w = Reply files
    /\ In g files.

End Found.

(** * Sample states of the simulated world *)

(** A worker that has emitted nothing yet. *)
Definition sample_worker : state Sim.world UploadWorker.t :=
  Sim.init (UploadWorker.mk [] []) Sim.w0.

(** A caller without fields of its own. *)
Definition sample_drive : state Sim.world unit := Sim.init tt Sim.w0.

(** The same caller on the fifth of March. *)
Definition sample_drive_march : state Sim.world unit :=
  Sim.init tt (Sim.with_today (mkDate 5 3 2024) Sim.w0).

(** A Drive that rejects every call, and one that serves a single call. *)
Definition drive_down : state Sim.world unit :=
  Sim.init tt (Sim.with_calls_left (Some 0) Sim.w0).

Definition drive_one_call : state Sim.world unit :=
  Sim.init tt (Sim.with_calls_left (Some 1) Sim.w0).

(** A connected controller that is not recording. *)
Definition idle_controller : OBSManager.t :=
  OBSManager.mk true true false None None (OBSManager.mkDebug [] [] []) false None.

Definition sample_obs : state Sim.world OBSManager.t := Sim.init idle_controller Sim.w0.


Definition sample_output_path : Path.t :=
  Path.mk "/videos" "11th_Thermodynamics_Main_01-01-2024.mp4".

(** A window waiting for a recording whose desired name and first
    suffixed name are both taken in the directory OBS recorded to. *)
Definition crowded_world : Sim.world :=
  Sim.with_files
    [ ("/videos/2024-01-01 10-00-00.mp4", 4096%N);
      ("/videos/11th_Thermodynamics_Main_01-01-2024.mp4", 1%N);
      ("/videos/11th_Thermodynamics_Main_01-01-2024_1.mp4", 1%N) ]
    [ "/videos" ] Sim.w0.

Definition sample_window : state Sim.world MainWindow.t :=
  Sim.init
    (MainWindow.mk (Some "11th_Thermodynamics_Main_01-01-2024.mp4") None None true false "" [])
    crowded_world.

(** * Sample states, continued *)

(** The two sample recordings, modified at 1000 s and at 990 s, seen at
    the time [now]. *)
Definition search_world (now : Q) : Sim2.world :=
  Sim2.mkWorld Sim.w0 true
    (Reply (mkSceneList (Some [Some "Scene"])))
    (Reply (mkParameter (Some (Some "/videos"))))
    [("/videos/rec.mp4", 1000%Q); ("/videos/short.mp4", 990%Q)]
    now "/home/teacher" "/app".

Definition sample_searching (now : Q) : state Sim2.world MainWindow.t :=
  mkState (MainWindow.mk None None None true false "" []) (search_world now) [].

(** A configuration with one class, one chapter and the size of the
    larger sample recording as its limit. *)
Definition sample_config : state Sim.world Config.t :=
  Sim.init
    (Config.mk [("11th", [("Thermodynamics", ["Main"])])] "/videos/chapters.json"
       2621440%N [".mp4"; ".mkv"])
    Sim.w0.

(** * Theorems *)

Ltac unfold_monad :=
  unfold try_except, bind, remote, host, ask, ret, raise, diverge, get_self, set_self,
    outcome_of_reply in *.

(** ** Strings *)

Lemma str_of_nat_inj (a b : nat) : str_of_nat a = str_of_nat b -> a = b.
Proof.
  unfold str_of_nat. intros Heq.
  apply DecimalNat.Unsigned.to_uint_inj.
  assert (Hsome : Some (Nat.to_uint a) = Some (Nat.to_uint b)).
  { rewrite <- !NilEmpty.usu. rewrite Heq. reflexivity. }
  congruence.
Qed.

Lemma length_append (a b : string) :
  String.length (a ++ b) = String.length a + String.length b.
Proof. induction a as [|c a IH]; simpl; [reflexivity|rewrite IH; reflexivity]. Qed.

Lemma append_assoc (a b c : string) : (a ++ b) ++ c = a ++ (b ++ c).
Proof. induction a as [|x a IH]; simpl; [reflexivity|rewrite IH; reflexivity]. Qed.

Lemma append_inj_l (s a b : string) : s ++ a = s ++ b -> a = b.
Proof. induction s as [|c s IH]; simpl; intros Heq; [exact Heq|]. apply IH. congruence. Qed.

Lemma append_inj_r (a b t : string) : a ++ t = b ++ t -> a = b.
Proof.
  revert b. induction a as [|c a IH]; intros [|d b] Heq; simpl in Heq.
  - reflexivity.
  - apply (f_equal String.length) in Heq. simpl in Heq. rewrite length_append in Heq. lia.
  - apply (f_equal String.length) in Heq. simpl in Heq. rewrite length_append in Heq. lia.
  - injection Heq as -> Heq. f_equal. apply IH. exact Heq.
Qed.

Lemma rfind_from_range (c : ascii) (p : string) :
  forall i, rfind_from c p i = (-1)%Z
            \/ (i <= rfind_from c p i < i + Z.of_nat (String.length p))%Z.
Proof.
  induction p as [|a p IH]; intros i; simpl; [left; reflexivity|].
  destruct (IH (i + 1)%Z) as [Hnone|Hin].
  - rewrite Hnone. simpl. destruct (Ascii.eqb a c); [right; lia|left; reflexivity].
  - destruct (Z.leb_spec 0 (rfind_from c p (i + 1))); [right; lia|].
    destruct (Ascii.eqb a c); [right; lia|left; reflexivity].
Qed.

Lemma rfind_from_absent (c : ascii) (p : string) :
  forall i, (0 <= i)%Z -> absent c p -> rfind_from c p i = (-1)%Z.
Proof.
  induction p as [|a p IH]; intros i Hi Habs; simpl; [reflexivity|].
  destruct Habs as [Hne Habs]. rewrite (IH (i + 1)%Z) by (lia || assumption). simpl.
  destruct (Ascii.eqb_spec a c); [contradiction|reflexivity].
Qed.

Lemma rfind_from_none (c : ascii) (p : string) :
  forall i, (0 <= i)%Z -> (rfind_from c p i < 0)%Z -> absent c p.
Proof.
  induction p as [|y p IH]; intros i Hi Hnone; simpl in *; [exact I|].
  destruct (Z.leb_spec 0 (rfind_from c p (i + 1))) as [Hin|Hout]; [lia|].
  destruct (Ascii.eqb_spec y c) as [->|Hne]; [lia|].
  split; [exact Hne|]. apply (IH (i + 1)%Z); lia.
Qed.

(** The last occurrence cuts the string in two, and [c] is absent from
    the second half. *)
Lemma rfind_from_split (c : ascii) (p : string) :
  forall i,
    (0 <= i)%Z ->
    (0 <= rfind_from c p i)%Z ->
    exists a e,
      p = a ++ String c e
      /\ rfind_from c p i = (i + Z.of_nat (String.length a))%Z
      /\ absent c e.
Proof.
  induction p as [|x p IH]; intros i Hi Hfound; simpl in *; [lia|].
  destruct (Z.leb_spec 0 (rfind_from c p (i + 1))) as [Hin|Hout].
  - destruct (IH (i + 1)%Z ltac:(lia) Hin) as (a & e & Hp & Hr & Habs).
    exists (String x a), e. simpl. rewrite Hp at 1. split; [reflexivity|].
    split; [lia|exact Habs].
  - destruct (Ascii.eqb_spec x c) as [->|Hne]; [|lia].
    exists "", p. simpl. split; [reflexivity|]. split; [lia|].
    apply (rfind_from_none c p (i + 1)%Z); lia.
Qed.

Lemma rfind_from_last (c : ascii) (a e : string) :
  forall i,
    (0 <= i)%Z -> absent c e ->
    rfind_from c (a ++ String c e) i = (i + Z.of_nat (String.length a))%Z.
Proof.
  induction a as [|x a IH]; intros i Hi Habs; simpl.
  - rewrite (rfind_from_absent c e (i + 1)%Z) by (lia || assumption). simpl.
    rewrite Ascii.eqb_refl. lia.
  - rewrite (IH (i + 1)%Z) by (lia || assumption).
    destruct (Z.leb_spec 0 (i + 1 + Z.of_nat (String.length a))); lia.
Qed.

Lemma substring_prefix (a b : string) : substring 0 (String.length a) (a ++ b) = a.
Proof. induction a as [|x a IH]; simpl; [destruct b; reflexivity|rewrite IH; reflexivity]. Qed.

Lemma substring_all (s : string) : substring 0 (String.length s) s = s.
Proof. induction s as [|x s IH]; simpl; [reflexivity|rewrite IH; reflexivity]. Qed.

Lemma substring_suffix (a b : string) :
  substring (String.length a) (String.length b) (a ++ b) = b.
Proof. induction a as [|x a IH]; simpl; [apply substring_all|exact IH]. Qed.

(** [rsplit_dot] cuts at the last dot. *)
Lemma rsplit_dot_some (s stem ext : string) :
  rsplit_dot s = (stem, Some ext) -> s = stem ++ "." ++ ext /\ absent "."%char ext.
Proof.
  unfold rsplit_dot, rfind.
  destruct (Z.ltb_spec (rfind_from "." s 0) 0) as [Hnone|Hfound]; [discriminate|].
  destruct (rfind_from_split "."%char s 0%Z ltac:(lia) Hfound) as (a & e & Hs & Hr & Habs).
  rewrite Hr. simpl. rewrite Nat2Z.id. intros Heq. injection Heq as <- <-.
  subst s. unfold slice. rewrite length_append. simpl.
  rewrite Nat.sub_0_r, substring_prefix.
  replace (String.length a + S (String.length e) - (String.length a + 1))
    with (String.length e) by lia.
  replace (String.length a + 1) with (String.length (a ++ ".")) by
    (rewrite length_append; reflexivity).
  change (String "." e) with ("." ++ e). rewrite <- append_assoc, substring_suffix.
  rewrite append_assoc. auto.
Qed.

Lemma rsplit_dot_none (s : string) :
  absent "."%char s <-> rsplit_dot s = (s, None).
Proof.
  unfold rsplit_dot, rfind. split.
  - intros Habs. rewrite rfind_from_absent by (lia || assumption). reflexivity.
  - destruct (Z.ltb_spec (rfind_from "." s 0) 0) as [Hnone|Hfound]; [|discriminate].
    intros _. apply (rfind_from_none _ _ 0%Z); lia.
Qed.

Lemma rsplit_dot_last (a e : string) :
  absent "."%char e -> rsplit_dot (a ++ "." ++ e) = (a, Some e).
Proof.
  intros Habs. unfold rsplit_dot, rfind. simpl.
  rewrite rfind_from_last by (lia || assumption). simpl.
  destruct (Z.ltb_spec (Z.of_nat (String.length a)) 0) as [Hneg|_]; [lia|].
  rewrite Nat2Z.id. unfold slice. rewrite length_append. simpl.
  rewrite Nat.sub_0_r, substring_prefix.
  replace (String.length a + S (String.length e) - (String.length a + 1))
    with (String.length e) by lia.
  replace (String.length a + 1) with (String.length (a ++ ".")) by
    (rewrite length_append; reflexivity).
  change (String "." e) with ("." ++ e). rewrite <- append_assoc, substring_suffix.
  reflexivity.
Qed.

Lemma append_nil_r (s : string) : s ++ "" = s.
Proof. induction s as [|c s IH]; simpl; [reflexivity|rewrite IH; reflexivity]. Qed.

(** The two halves [os.path.splitext] returns make up the path. *)
Lemma _splitext_join (p : string) (sep : ascii) (altsep : option ascii) (extsep : ascii) :
  fst (_splitext p sep altsep extsep) ++ snd (_splitext p sep altsep extsep) = p.
Proof.
  unfold _splitext.
  set (sepIndex := match altsep with
                   | Some a => Z.max (rfind sep p) (rfind a p)
                   | None => rfind sep p
                   end).
  assert (Hsep : (-1 <= sepIndex)%Z).
  { unfold sepIndex, rfind. pose proof (rfind_from_range sep p 0).
    destruct altsep as [a|]; [pose proof (rfind_from_range a p 0)|]; lia. }
  destruct (Z.ltb_spec sepIndex (rfind extsep p)) as [Hdot|_]; [|apply append_nil_r].
  destruct (has_non_dot _ _ _ _); [|apply append_nil_r].
  unfold rfind in *.
  destruct (rfind_from_split extsep p 0%Z ltac:(lia) ltac:(lia)) as (a & e & Hp & Hr & _).
  rewrite Hr. simpl. rewrite Nat2Z.id. unfold slice. rewrite Nat.sub_0_r.
  rewrite Hp at 1 3. rewrite substring_prefix.
  replace (String.length p - String.length a) with (String.length (String extsep e)).
  - rewrite substring_suffix. symmetry. exact Hp.
  - rewrite Hp, length_append. lia.
Qed.

(** ** The extension [os.path.splitext] cuts off *)

Lemma rfind_from_app_absent (c : ascii) (s t : string) :
  forall i, (0 <= i)%Z -> absent c t -> rfind_from c (s ++ t) i = rfind_from c s i.
Proof.
  induction s as [|x s IH]; intros i Hi Habs; simpl.
  - apply rfind_from_absent; assumption.
  - rewrite IH by (lia || assumption). reflexivity.
Qed.

Lemma has_non_dot_found (extsep : ascii) (p : string) (j : nat) :
  slice p j (j + 1) <> String extsep EmptyString ->
  forall n i, i <= j < i + n -> has_non_dot extsep p i n = true.
Proof.
  intros Hchar. induction n as [|n IH]; intros i Hij; [lia|]. simpl.
  destruct (String.eqb_spec (slice p i (i + 1)) (String extsep EmptyString)) as [Heq|Hne];
    [|reflexivity].
  simpl. apply IH. destruct (Nat.eq_dec i j) as [->|Hne]; [contradiction|lia].
Qed.

Lemma slice_char (stem : string) (c : ascii) (rest : string) :
  slice (stem ++ String c rest) (String.length stem) (String.length stem + 1)
  = String c EmptyString.
Proof.
  unfold slice. replace (String.length stem + 1 - String.length stem) with 1 by lia.
  induction stem as [|x stem IH]; simpl; [destruct rest; reflexivity|exact IH].
Qed.

(** A path whose last component has a name before its last dot is cut
    at that dot. *)
Lemma _splitext_extension (stem : string) (c : ascii) (ext : string)
    (sep : ascii) (altsep : option ascii) (extsep : ascii) :
  c <> extsep -> c <> sep -> altsep <> Some c ->
  sep <> extsep -> altsep <> Some extsep ->
  absent extsep ext -> absent sep ext -> (forall a, altsep = Some a -> absent a ext) ->
  _splitext (stem ++ String c (String extsep ext)) sep altsep extsep
  = (stem ++ String c EmptyString, String extsep ext).
Proof.
  intros Hc_ext Hc_sep Hc_alt Hsep_ext Halt_ext Habs_ext Habs_sep Habs_alt.
  set (p := stem ++ String c (String extsep ext)).
  assert (Hp : p = (stem ++ String c EmptyString) ++ String extsep ext).
  { unfold p. rewrite append_assoc. reflexivity. }
  assert (Hlen : String.length (stem ++ String c EmptyString) = String.length stem + 1).
  { rewrite length_append. reflexivity. }
  assert (Hdot : rfind extsep p = Z.of_nat (String.length stem + 1)).
  { unfold rfind. rewrite Hp, rfind_from_last by (lia || assumption). rewrite Hlen. lia. }
  assert (Hbelow : forall a, a <> c -> a <> extsep -> absent a ext ->
            (-1 <= rfind a p < Z.of_nat (String.length stem))%Z).
  { intros a Hac Hae Haext. unfold rfind, p.
    rewrite rfind_from_app_absent; [|lia|].
    - destruct (rfind_from_range a stem 0%Z) as [Hnone|Hin]; lia.
    - simpl. repeat split; auto. }
  assert (Hsep : (-1 <= match altsep with
                        | Some a => Z.max (rfind sep p) (rfind a p)
                        | None => rfind sep p
                        end < Z.of_nat (String.length stem))%Z).
  { pose proof (Hbelow sep (not_eq_sym Hc_sep) Hsep_ext Habs_sep) as Hs.
    destruct altsep as [a|]; [|exact Hs].
    assert (Ha : (-1 <= rfind a p < Z.of_nat (String.length stem))%Z).
    { apply Hbelow; [congruence|congruence|apply Habs_alt; reflexivity]. }
    lia. }
  unfold _splitext. fold p. cbv zeta.
  set (sepIndex := match altsep with
                   | Some a => Z.max (rfind sep p) (rfind a p)
                   | None => rfind sep p
                   end) in *.
  rewrite Hdot.
  destruct (Z.ltb_spec sepIndex (Z.of_nat (String.length stem + 1))) as [_|Hge]; [|lia].
  rewrite (has_non_dot_found extsep p (String.length stem)).
  - rewrite Nat2Z.id. f_equal.
    + unfold slice. rewrite Nat.sub_0_r, <- Hlen, Hp. apply substring_prefix.
    + unfold slice. rewrite Hp, length_append, Hlen.
      replace (String.length stem + 1 + String.length (String extsep ext)
               - (String.length stem + 1))
        with (String.length (String extsep ext)) by lia.
      rewrite <- Hlen. apply substring_suffix.
  - unfold p. rewrite slice_char. congruence.
  - rewrite Nat2Z.id. lia.
Qed.

(** A path without a dot has no extension. *)
Lemma _splitext_no_dot (p : string) (sep : ascii) (altsep : option ascii) (extsep : ascii) :
  absent extsep p -> _splitext p sep altsep extsep = (p, EmptyString).
Proof.
  intros Habs. unfold _splitext.
  assert (Hdot : rfind extsep p = (-1)%Z)
    by (apply rfind_from_absent; [lia|exact Habs]).
  rewrite Hdot.
  assert (Hsep : forall a, (-1 <= rfind a p)%Z).
  { intros a. unfold rfind. destruct (rfind_from_range a p 0%Z); lia. }
  pose proof (Hsep sep) as Hs.
  destruct altsep as [a|].
  - pose proof (Hsep a) as Ha.
    destruct (Z.ltb_spec (Z.max (rfind sep p) (rfind a p)) (-1)); [lia|reflexivity].
  - destruct (Z.ltb_spec (rfind sep p) (-1)); [lia|reflexivity].
Qed.

(** ** The date [strftime] writes *)

Lemma zfill_2_digits (n : nat) :
  n < 100 ->
  zfill 2 (str_of_nat n)
  = String (units_digit (n / 10)) (String (units_digit n) EmptyString).
Proof.
  intros Hn.
  assert (Hall : forallb (fun n => String.eqb (zfill 2 (str_of_nat n))
                                     (String (units_digit (n / 10))
                                        (String (units_digit n) EmptyString)))
                   (seq 0 100) = true) by (vm_compute; reflexivity).
  rewrite forallb_forall in Hall. apply String.eqb_eq, Hall, in_seq. lia.
Qed.

Lemma zfill_4_digits (n : nat) :
  (Z.of_nat n < 10000)%Z ->
  zfill 4 (str_of_nat n)
  = String (units_digit (n / 1000)) (String (units_digit (n / 100))
      (String (units_digit (n / 10)) (String (units_digit n) EmptyString))).
Proof.
  intros Hn.
  assert (Hall : forallb (fun n => String.eqb (zfill 4 (str_of_nat n))
                                     (String (units_digit (n / 1000))
                                        (String (units_digit (n / 100))
                                           (String (units_digit (n / 10))
                                              (String (units_digit n) EmptyString)))))
                   (seq 0 (Z.to_nat 10000)) = true) by (vm_compute; reflexivity).
  rewrite forallb_forall in Hall. apply String.eqb_eq, Hall, in_seq. lia.
Qed.

(** [strftime('%d-%m-%Y')] writes a calendar date as DD-MM-YYYY. *)
Lemma strftime_dmY_DD_MM_YYYY (d : date) :
  calendar_date d -> strftime_dmY d = DD_MM_YYYY d.
Proof.
  intros (Hday & Hmonth & Hyear). unfold strftime_dmY, DD_MM_YYYY.
  rewrite !zfill_2_digits by lia. rewrite zfill_4_digits by lia. reflexivity.
Qed.

(** ** The Drive manager *)

Section DriveTheorems.
Context {W : Type} `{DriveService W} `{Host W} {O : Type}.
Import GoogleDriveManager.

(** C5: [get_or_create_folder] lists the non-trashed folders with the
    given name under the given parent (under the shared root folder when
    no parent is given), which the trace shows as its first call.  When
    the listing is empty it creates the folder under that parent and
    returns the identifier the service assigned; when the listing has one
    entry or more it returns the identifier of the first and issues no
    further call. *)
Theorem get_or_create_folder_contract
    (folder_name : string) (parent_id : option string) (st : state W O)
    (results : list_response) (w1 : W) :
  let parent := match parent_id with Some p => p | None => SHARED_FOLDER_ID end in
  let query :=
    "name='" ++ folder_name ++ "' and mimeType='application/vnd.google-apps.folder' and '"
      ++ parent ++ "' in parents and trashed=false" in
  let body := mkBody folder_name (Some "application/vnd.google-apps.folder") [parent] in
  parent_id <> Some "" ->
  files_list query (world st) = (Reply results, w1) ->
  match get_files results with
  | [] =>
      forall file w2,
        files_create body w1 = (Reply file, w2) ->
        get_or_create_folder folder_name parent_id st
        = (Ok (resp_id file),
           mkState (self st) w2 (trace st ++ [EvFilesList query; EvFilesCreate body])%list)
  | first :: _ =>
      get_or_create_folder folder_name parent_id st
      = (Ok (item_id first), mkState (self st) w1 (trace st ++ [EvFilesList query])%list)
  end.
Proof.
  intros parent query body Hne Hlist.
  assert (Hp : py_or parent_id SHARED_FOLDER_ID = parent).
  { subst parent. destruct parent_id as [p|]; [|reflexivity].
    unfold py_or, truthy. destruct (String.eqb_spec p ""); [congruence|reflexivity]. }
  unfold get_or_create_folder. rewrite Hp.
  change (folder_query folder_name parent) with query.
  change (mkBody folder_name (Some FOLDER_MIME) [parent]) with body.
  unfold_monad. rewrite Hlist.
  destruct (get_files results) as [|first rest]; simpl.
  - intros file w2 Hcreate. rewrite Hcreate. simpl.
    rewrite <- app_assoc. reflexivity.
  - reflexivity.
Qed.

(** C9: when the local file does not exist, [upload_file] raises
    [FileNotFoundError] and leaves the state as it found it: the world is
    untouched and no call was added to the trace. *)
Theorem upload_file_missing_local_file
    (depth fuel : nat) (filepath class_name chapter_name year subtopic_name : string)
    (progress_callback : option (callback O)) (st : state W O) :
  path_exists filepath (world st) = false ->
  upload_file depth fuel filepath class_name chapter_name year subtopic_name
    progress_callback st
  = (Raise (FileNotFoundError ("File not found: " ++ filepath)), st).
Proof.
  intros Hmissing. unfold upload_file. unfold_monad.
  rewrite Hmissing. reflexivity.
Qed.

End DriveTheorems.

Section DriveTheorems2.
Context {W : Type} `{DriveService W} `{Host W} {O : Type}.
Import GoogleDriveManager.

Lemma returns_ret {A} (a : A) : returns (ret a : M W O A).
Proof. intros st. discriminate. Qed.

Lemma returns_raise {A} (e : exn) : returns (raise e : M W O A).
Proof. intros st. discriminate. Qed.

Lemma returns_remote {A} (ev : event) (op : W -> reply A * W) :
  returns (remote ev op : M W O A).
Proof.
  intros st. unfold remote. destruct (op (world st)) as [[a|e] w]; discriminate.
Qed.

Lemma returns_bind {A B} (m : M W O A) (k : A -> M W O B) :
  returns m -> (forall a, returns (k a)) -> returns (bind m k).
Proof.
  intros Hm Hk st. unfold bind. specialize (Hm st).
  destruct (m st) as [[a|e|] st']; simpl in *;
    [apply Hk | discriminate | congruence].
Qed.

Lemma returns_try_except {A} (body : M W O A) (handler : exn -> M W O A) :
  returns body -> (forall e, returns (handler e)) -> returns (try_except body handler).
Proof.
  intros Hb Hh st. unfold try_except. specialize (Hb st).
  destruct (body st) as [[a|e|] st']; simpl in *;
    [discriminate | apply Hh | congruence].
Qed.

Lemma returns_for_each {A B} (l : list A) (body : B -> A -> M W O B) :
  (forall acc x, returns (body acc x)) -> forall acc, returns (for_each l acc body).
Proof.
  intros Hbody. induction l as [|x l IH]; intros acc; simpl.
  - apply returns_ret.
  - apply returns_bind; [apply Hbody | intros a; apply IH].
Qed.

Lemma count_files_in_folder_returns (depth : nat) :
  forall folder_id file_extension,
    returns (O:=O) (count_files_in_folder depth folder_id file_extension).
Proof.
  induction depth as [|depth IH]; intros folder_id file_extension; simpl.
  - apply returns_raise.
  - apply returns_try_except; [|intros e; apply returns_ret].
    apply returns_bind; [apply returns_remote|intros results].
    apply returns_bind; [apply returns_remote|intros folder_results].
    apply returns_bind; [|intros n; apply returns_ret].
    apply returns_for_each. intros acc x.
    apply returns_bind; [apply IH|intros n; apply returns_ret].
Qed.

Lemma try_except_reraise {A} (m : M W O A) (st : state W O) :
  try_except m (fun e => raise e) st = m st.
Proof.
  unfold try_except, raise. destruct (m st) as [[a|e|] st']; reflexivity.
Qed.

(** C10: with at least one frame left for it, [count_files_in_folder]
    always returns a number and never raises; when the listing of the
    files of the folder fails, or the listing of its subfolders does, the
    number returned is 0 and the exception is dropped. *)
Theorem count_files_in_folder_swallows_errors
    (depth : nat) (folder_id : string) (file_extension : option string) (st : state W O) :
  let query := files_query folder_id file_extension in
  let folder_query := subfolders_query folder_id in
  (exists n st',
      count_files_in_folder (S depth) folder_id file_extension st = (Ok n, st'))
  /\ (forall e w1,
         files_list query (world st) = (Fault e, w1) ->
         count_files_in_folder (S depth) folder_id file_extension st
         = (Ok 0, mkState (self st) w1 (trace st ++ [EvFilesList query])%list))
  /\ (forall results w1 e w2,
         files_list query (world st) = (Reply results, w1) ->
         files_list folder_query w1 = (Fault e, w2) ->
         count_files_in_folder (S depth) folder_id file_extension st
         = (Ok 0,
            mkState (self st) w2
              (trace st ++ [EvFilesList query; EvFilesList folder_query])%list)).
Proof.
  intros query folder_query. split; [|split].
  - pose proof (count_files_in_folder_returns (S depth) folder_id file_extension st) as Hret.
    simpl in *. unfold try_except in *.
    match goal with |- context [match ?b st with _ => _ end] => destruct (b st) as [[n|e|] st'] end;
      simpl in *.
    + eauto.
    + eexists _, _. reflexivity.
    + congruence.
  - intros e w1 Hlist. simpl. fold query. unfold_monad. rewrite Hlist. reflexivity.
  - intros results w1 e w2 Hlist Hfolders. simpl. fold query folder_query.
    unfold_monad. rewrite Hlist. simpl. rewrite Hfolders. simpl.
    rewrite <- app_assoc. reflexivity.
Qed.

(** C3: with a clock that shows a date of the calendar, once the local
    file was found, the three folders resolved and the files of the
    chapter folder counted, [upload_file] goes on with the upload of a
    request whose name is class_chapter_subtopic_DD-MM-YYYY_Class_n
    followed by the extension of the local path, where DD-MM-YYYY is the
    date of the clock, day first, and n is one more than the count taken
    on the chapter folder; the parent of the request is the subtopic
    folder.  The extension is the end of the local path: for a path that
    ends with a dot and an extension after the name of the file it is
    that dot and that extension, and for a path without a dot it is
    empty.  The sample of the specification comes out as written, and
    the 25th of December is written 25-12. *)
Theorem upload_file_remote_name
    (depth fuel : nat) (filepath class_name chapter_name year subtopic_name : string)
    (progress_callback : option (callback O)) (st st1 st2 st3 st4 : state W O)
    (class_year_folder_id chapter_folder_id subtopic_folder_id : string) (file_count : nat) :
  path_exists filepath (world st) = true ->
  get_or_create_class_year_folder class_name year st = (Ok class_year_folder_id, st1) ->
  get_or_create_chapter_folder chapter_name class_year_folder_id st1
  = (Ok chapter_folder_id, st2) ->
  get_or_create_folder subtopic_name (Some chapter_folder_id) st2
  = (Ok subtopic_folder_id, st3) ->
  count_files_in_folder depth chapter_folder_id (Some "mp4") st3 = (Ok file_count, st4) ->
  calendar_date (datetime_now (world st4)) ->
  exists ext,
    let remote_name :=
      class_name ++ "_" ++ chapter_name ++ "_" ++ subtopic_name ++ "_"
        ++ DD_MM_YYYY (datetime_now (world st4)) ++ "_Class_"
        ++ str_of_nat (file_count + 1) ++ ext in
    let request :=
      mkRequest (mkBody remote_name None [subtopic_folder_id]) filepath (1024 * 1024)%N in
    upload_file depth fuel filepath class_name chapter_name year subtopic_name
      progress_callback st
    = (response <- upload_chunks fuel request progress_callback ;; ret (resp_id response)) st4
    /\ (exists base, filepath = base ++ ext)
    /\ (forall (stem : string) (c : ascii) (e : string),
          filepath = stem ++ String c ("." ++ e) ->
          c <> "."%char -> c <> os_sep -> os_altsep <> Some c ->
          os_sep <> "."%char -> os_altsep <> Some "."%char ->
          absent "." e -> absent os_sep e -> (forall a, os_altsep = Some a -> absent a e) ->
          ext = "." ++ e)
    /\ (absent "." filepath -> ext = "")
    /\ DD_MM_YYYY (mkDate 1 1 2024) = "01-01-2024"
    /\ DD_MM_YYYY (mkDate 25 12 2023) = "25-12-2023"
    /\ new_filename "11th" "Thermodynamics" "Main" (mkDate 1 1 2024) 3 ".mp4"
       = "11th_Thermodynamics_Main_01-01-2024_Class_3.mp4".
Proof.
  intros Hfound Hclass Hchapter Hsub Hcount Hdate.
  exists (snd (splitext filepath)). cbv zeta.
  split; [|split; [|split; [|split; [|split; [reflexivity|split; reflexivity]]]]].
  - unfold upload_file. rewrite try_except_reraise.
    unfold bind at 1. unfold ask at 1. rewrite Hfound. simpl.
    unfold bind at 1. rewrite Hclass.
    unfold bind at 1. rewrite Hchapter.
    unfold bind at 1. rewrite Hsub.
    unfold bind at 1. rewrite Hcount.
    unfold bind at 1. unfold ask at 1.
    unfold new_filename. rewrite (strftime_dmY_DD_MM_YYYY _ Hdate).
    reflexivity.
  - exists (fst (splitext filepath)). symmetry. apply _splitext_join.
  - intros stem c e -> Hc_dot Hc_sep Hc_alt Hsep_dot Halt_dot He_dot He_sep He_alt.
    unfold splitext. change ("." ++ e) with (String "." e).
    rewrite (_splitext_extension stem c e os_sep os_altsep "."%char) by assumption.
    reflexivity.
  - intros Habs. unfold splitext. rewrite _splitext_no_dot by exact Habs. reflexivity.
Qed.

End DriveTheorems2.

Section ControllerUpload.
Context {W : Type} `{DriveService W} `{Host W}.
Import GoogleDriveManager.

(** C4: [upload_last_recording] returns [None] in every state and leaves
    the state as it found it, so that no call reaches Drive: the call of
    [upload_file] with the path alone raises [TypeError] for the three
    parameters left without a value, and the handler turns it into
    [None]. *)
Theorem upload_last_recording_returns_None
    (depth fuel : nat) (st : state W OBSManager.t) :
  (forall p : string,
      upload_file_call depth fuel [p] None st
      = (Raise (TypeError "upload_file() missing 3 required positional arguments: 'class_name', 'chapter_name', and 'year'"),
         st))
  /\ OBSManager.upload_last_recording depth fuel st = (Ok None, st).
Proof.
  split; [reflexivity|].
  unfold OBSManager.upload_last_recording. unfold_monad.
  destruct (OBSManager.last_recording_path (self st)) as [p|]; [|reflexivity].
  destruct (truthy p); [|reflexivity]. simpl.
  destruct (path_exists p (world st)); reflexivity.
Qed.

End ControllerUpload.
(** ** Floats and truncated percentages *)

Section Floats.
Local Open Scope Q_scope.

(** ** Rounding to an integer *)

Lemma py_round_bounds (x : Q) : (Qfloor x <= py_round x <= Qfloor x + 1)%Z.
Proof.
  unfold py_round. destruct (x - inject_Z (Qfloor x) ?= 1 # 2); [|lia|lia].
  destruct (Z.even (Qfloor x)); lia.
Qed.

Lemma py_round_Z (n : Z) : py_round (inject_Z n) = n.
Proof.
  unfold py_round. rewrite Qfloor_Z.
  assert (Hlt : (inject_Z n - inject_Z n ?= 1 # 2) = Lt).
  { apply Qlt_alt. setoid_replace (inject_Z n - inject_Z n) with 0 by ring. reflexivity. }
  rewrite Hlt. reflexivity.
Qed.

Lemma py_round_le (x y : Q) : x <= y -> (py_round x <= py_round y)%Z.
Proof.
  intros Hxy. pose proof (Qfloor_resp_le _ _ Hxy) as Hfloor.
  pose proof (py_round_bounds x) as Hx. pose proof (py_round_bounds y) as Hy.
  destruct (Z.eq_dec (Qfloor x) (Qfloor y)) as [Heq|Hne]; [|lia].
  unfold py_round. rewrite <- Heq.
  generalize (Z.even (Qfloor x)). generalize (inject_Z (Qfloor x)). intros f even.
  destruct (Qcompare_spec (x - f) (1 # 2)) as [Hcx|Hcx|Hcx];
    destruct (Qcompare_spec (y - f) (1 # 2)) as [Hcy|Hcy|Hcy];
    try (exfalso; lra); try destruct even; lia.
Qed.

(** ** Binades *)

Lemma two_power_pos (e : Z) : 0 < 2 ^ e.
Proof. apply Qpower_0_lt. reflexivity. Qed.

Lemma two_power_plus (a b : Z) : 2 ^ (a + b) == 2 ^ a * 2 ^ b.
Proof. apply Qpower_plus. discriminate. Qed.

Lemma two_power_le (a b : Z) : (a <= b)%Z -> 2 ^ a <= 2 ^ b.
Proof. intros Hab. apply Qpower_le_compat_l; [exact Hab|discriminate]. Qed.

Lemma two_power_lt_inv (a b : Z) : 2 ^ a < 2 ^ b -> (a < b)%Z.
Proof.
  intros Hlt. destruct (Z.lt_ge_cases a b) as [Hab|Hba]; [exact Hab|].
  pose proof (two_power_le _ _ Hba). lra.
Qed.

Lemma two_power_Z (n : Z) : (0 <= n)%Z -> inject_Z (2 ^ n) == 2 ^ n.
Proof. intros Hn. rewrite Zpower_Qpower by exact Hn. reflexivity. Qed.

Lemma floor_log2_spec (x : Q) :
  0 < x -> 2 ^ floor_log2 x <= x /\ x < 2 ^ (floor_log2 x + 1).
Proof.
  intros Hx. destruct x as [a b]. unfold floor_log2. cbn [Qnum Qden].
  assert (Ha : (0 < a)%Z) by (unfold Qlt in Hx; simpl in Hx; lia).
  set (la := Z.log2 a). set (lb := Z.log2 (Z.pos b)).
  destruct (Z.log2_spec a Ha) as [Hla1 Hla2]. fold la in Hla1, Hla2.
  destruct (Z.log2_spec (Z.pos b) (Pos2Z.is_pos b)) as [Hlb1 Hlb2]. fold lb in Hlb1, Hlb2.
  assert (Hla0 : (0 <= la)%Z) by apply Z.log2_nonneg.
  assert (Hlb0 : (0 <= lb)%Z) by apply Z.log2_nonneg.
  assert (HA1 : 2 ^ la <= inject_Z a).
  { rewrite <- two_power_Z by exact Hla0. rewrite <- Zle_Qle. exact Hla1. }
  assert (HA2 : inject_Z a < 2 ^ (la + 1)).
  { rewrite <- two_power_Z by lia. rewrite <- Zlt_Qlt. exact Hla2. }
  assert (HB1 : 2 ^ lb <= inject_Z (Z.pos b)).
  { rewrite <- two_power_Z by exact Hlb0. rewrite <- Zle_Qle. exact Hlb1. }
  assert (HB2 : inject_Z (Z.pos b) < 2 ^ (lb + 1)).
  { rewrite <- two_power_Z by lia. rewrite <- Zlt_Qlt. exact Hlb2. }
  assert (Hx_eq : (a # b) * inject_Z (Z.pos b) == inject_Z a).
  { rewrite (Qmake_Qdiv a b). field. discriminate. }
  pose proof (two_power_pos lb) as Hpb.
  assert (Hupper : a # b < 2 ^ (la - lb + 1)).
  { pose proof (two_power_pos (la - lb + 1)) as Hp.
    assert (Hsplit : 2 ^ (la + 1) == 2 ^ (la - lb + 1) * 2 ^ lb).
    { rewrite <- two_power_plus. replace (la - lb + 1 + lb)%Z with (la + 1)%Z by lia.
      reflexivity. }
    apply Qnot_le_lt. intros Hge.
    assert (2 ^ (la - lb + 1) * 2 ^ lb <= (a # b) * inject_Z (Z.pos b)) by nra.
    lra. }
  assert (Hlower : 2 ^ (la - lb - 1) <= a # b).
  { pose proof (two_power_pos (la - lb - 1)) as Hp.
    assert (Hsplit : 2 ^ la == 2 ^ (la - lb - 1) * 2 ^ (lb + 1)).
    { rewrite <- two_power_plus. replace (la - lb - 1 + (lb + 1))%Z with la by lia.
      reflexivity. }
    apply Qnot_lt_le. intros Hlt.
    assert ((a # b) * inject_Z (Z.pos b) < 2 ^ (la - lb - 1) * 2 ^ (lb + 1)) by nra.
    lra. }
  destruct (Qle_bool (2 ^ (la - lb)) (a # b)) eqn:Htest.
  - apply Qle_bool_iff in Htest. split; assumption.
  - replace (la - lb - 1 + 1)%Z with (la - lb)%Z by lia. split; [exact Hlower|].
    apply Qnot_le_lt. intros Hle. apply Qle_bool_iff in Hle. congruence.
Qed.

Lemma floor_log2_le (x y : Q) : 0 < x -> x <= y -> (floor_log2 x <= floor_log2 y)%Z.
Proof.
  intros Hx Hxy. assert (Hy : 0 < y) by lra.
  destruct (floor_log2_spec x Hx) as [Hx1 _]. destruct (floor_log2_spec y Hy) as [_ Hy2].
  assert (Hlt : 2 ^ floor_log2 x < 2 ^ (floor_log2 y + 1)) by lra.
  apply two_power_lt_inv in Hlt. lia.
Qed.

(** ** Rounding to a float *)

Lemma scaled_round_le (u x : Q) (n : Z) :
  0 < u -> x <= inject_Z n * u -> inject_Z (py_round (x / u)) * u <= inject_Z n * u.
Proof.
  intros Hu Hx. apply Qmult_le_compat_r; [|apply Qlt_le_weak, Hu].
  rewrite <- Zle_Qle. rewrite <- (py_round_Z n) at 1. apply py_round_le.
  apply Qle_shift_div_r; assumption.
Qed.

Lemma scaled_round_ge (u x : Q) (n : Z) :
  0 < u -> inject_Z n * u <= x -> inject_Z n * u <= inject_Z (py_round (x / u)) * u.
Proof.
  intros Hu Hx. apply Qmult_le_compat_r; [|apply Qlt_le_weak, Hu].
  rewrite <- Zle_Qle. rewrite <- (py_round_Z n) at 1. apply py_round_le.
  apply Qle_shift_div_l; assumption.
Qed.

Lemma binade_start (e : Z) : inject_Z (2 ^ 52) * 2 ^ (e - 52) == 2 ^ e.
Proof.
  rewrite two_power_Z by lia. rewrite <- two_power_plus.
  replace (52 + (e - 52))%Z with e by lia. reflexivity.
Qed.

Lemma binade_end (e : Z) : inject_Z (2 ^ 53) * 2 ^ (e - 52) == 2 ^ (e + 1).
Proof.
  rewrite two_power_Z by lia. rewrite <- two_power_plus.
  replace (53 + (e - 52))%Z with (e + 1)%Z by lia. reflexivity.
Qed.

Lemma round_pos_nonneg (x : Q) : 0 < x -> 0 <= round_pos x.
Proof.
  intros Hx. unfold round_pos.
  set (u := 2 ^ (Z.max (floor_log2 x) (-1022) - 52)).
  assert (Hu : 0 < u) by apply two_power_pos.
  setoid_replace 0 with (inject_Z 0 * u) by ring.
  apply scaled_round_ge; [exact Hu|]. setoid_replace (inject_Z 0 * u) with 0 by ring.
  apply Qlt_le_weak, Hx.
Qed.

Lemma round_pos_le (x y : Q) : 0 < x -> x <= y -> round_pos x <= round_pos y.
Proof.
  intros Hx Hxy. assert (Hy : 0 < y) by lra.
  pose proof (floor_log2_le x y Hx Hxy) as Hlog.
  destruct (floor_log2_spec x Hx) as [_ Hx2]. destruct (floor_log2_spec y Hy) as [Hy1 _].
  unfold round_pos.
  set (ex := Z.max (floor_log2 x) (-1022)). set (ey := Z.max (floor_log2 y) (-1022)).
  assert (Hux : 0 < 2 ^ (ex - 52)) by apply two_power_pos.
  assert (Huy : 0 < 2 ^ (ey - 52)) by apply two_power_pos.
  destruct (Z.eq_dec ex ey) as [Heq|Hne].
  - rewrite Heq. apply Qmult_le_compat_r; [|apply Qlt_le_weak, Huy].
    rewrite <- Zle_Qle. apply py_round_le.
    apply Qmult_le_compat_r; [exact Hxy|]. apply Qlt_le_weak, Qinv_lt_0_compat, Huy.
  - assert (Hlt : (ex < ey)%Z) by (unfold ex, ey in *; lia).
    assert (Hey : ey = floor_log2 y) by (unfold ex, ey in *; lia).
    apply Qle_trans with (2 ^ (ex + 1)).
    + rewrite <- binade_end. apply scaled_round_le; [exact Hux|].
      rewrite binade_end. apply Qlt_le_weak. eapply Qlt_le_trans; [exact Hx2|].
      apply two_power_le. unfold ex. lia.
    + apply Qle_trans with (2 ^ ey).
      * apply two_power_le. lia.
      * rewrite <- binade_start. apply scaled_round_ge; [exact Huy|].
        rewrite binade_start, Hey. exact Hy1.
Qed.

Lemma round_float_zero (x : Q) : x == 0 -> round_float x = 0.
Proof.
  intros Hx. unfold round_float.
  destruct (Qcompare_spec 0 x) as [_|Hlt|Hgt]; [reflexivity|lra|lra].
Qed.

Lemma round_float_pos (x : Q) : 0 < x -> round_float x = round_pos x.
Proof.
  intros Hx. unfold round_float.
  destruct (Qcompare_spec 0 x) as [Heq|_|Hgt]; [lra|reflexivity|lra].
Qed.

(** Rounding keeps the order of the numbers that are not negative. *)
Lemma round_float_le (x y : Q) : 0 <= x -> x <= y -> round_float x <= round_float y.
Proof.
  intros Hx Hxy.
  destruct (Qlt_le_dec 0 x) as [Hpos|Hzero].
  - rewrite !round_float_pos by lra. apply round_pos_le; assumption.
  - rewrite (round_float_zero x) by lra.
    destruct (Qlt_le_dec 0 y) as [Hypos|Hyzero].
    + rewrite round_float_pos by exact Hypos. apply round_pos_nonneg, Hypos.
    + rewrite (round_float_zero y) by lra. lra.
Qed.

(** Rounding keeps the order. *)
Lemma round_float_monotone (x y : Q) : x <= y -> round_float x <= round_float y.
Proof.
  intros Hxy. destruct (Qlt_le_dec x 0) as [Hneg|Hpos].
  - assert (Hx : round_float x = - round_pos (- x)).
    { unfold round_float. destruct (Qcompare_spec 0 x) as [Heq|Hlt|Hgt]; [lra|lra|reflexivity]. }
    rewrite Hx. destruct (Qlt_le_dec y 0) as [Hyneg|Hypos].
    + assert (Hy : round_float y = - round_pos (- y)).
      { unfold round_float.
        destruct (Qcompare_spec 0 y) as [Heq|Hlt|Hgt]; [lra|lra|reflexivity]. }
      rewrite Hy. apply Qopp_le_compat. apply round_pos_le; lra.
    + apply Qle_trans with 0.
      * pose proof (round_pos_nonneg (- x)) as Hnonneg. lra.
      * rewrite <- (round_float_zero 0) by reflexivity. apply round_float_le; lra.
  - apply round_float_le; assumption.
Qed.

Lemma round_float_100 : round_float 100 == 100.
Proof. vm_compute. reflexivity. Qed.

(** The percentage of a fraction between 0 and 1 is a float between 0
    and 100. *)
Lemma float_percent (p : Q) :
  0 <= p -> p <= 1 ->
  float_mul p 100 = Some (round_float (p * 100))
  /\ 0 <= round_float (p * 100) /\ round_float (p * 100) <= 100.
Proof.
  intros H0 H1.
  assert (Hlow : 0 <= round_float (p * 100)).
  { rewrite <- (round_float_zero 0) by reflexivity. apply round_float_le; lra. }
  assert (Hhigh : round_float (p * 100) <= 100).
  { apply Qle_trans with (round_float 100); [apply round_float_le; lra|].
    apply Qle_lteq. right. exact round_float_100. }
  split; [|split; assumption].
  unfold float_mul. cbv zeta.
  assert (Hfits : Qle_bool (Qabs (round_float (p * 100))) max_float = true).
  { apply Qle_bool_iff. rewrite Qabs_pos by exact Hlow.
    eapply Qle_trans; [exact Hhigh|]. vm_compute. discriminate. }
  rewrite Hfits. reflexivity.
Qed.

Lemma py_int_floor (x : Q) : 0 <= x -> py_int x = Qfloor x.
Proof.
  destruct x as [n d]. unfold Qle, py_int, Qfloor. simpl. intros Hn.
  apply Z.quot_div_nonneg; lia.
Qed.

Lemma percent_range (p : Q) :
  0 <= p /\ p <= 1 -> exists v, percent p = Some v /\ (0 <= v <= 100)%Z.
Proof.
  intros [H0 H1]. destruct (float_percent p H0 H1) as (Hmul & Hlow & Hhigh).
  exists (py_int (round_float (p * 100))). unfold percent. rewrite Hmul.
  split; [reflexivity|]. rewrite py_int_floor by exact Hlow. split.
  - change 0%Z with (Qfloor 0). apply Qfloor_resp_le, Hlow.
  - change 100%Z with (Qfloor 100). apply Qfloor_resp_le, Hhigh.
Qed.

Lemma percent_monotone (p q : Q) (v w : Z) :
  0 <= p -> p <= q -> percent p = Some v -> percent q = Some w -> (v <= w)%Z.
Proof.
  unfold percent, float_mul. cbv zeta. intros H0 Hpq Hv Hw.
  destruct (Qle_bool (Qabs (round_float (p * 100))) max_float); [|discriminate].
  destruct (Qle_bool (Qabs (round_float (q * 100))) max_float); [|discriminate].
  simpl in Hv, Hw. injection Hv as <-. injection Hw as <-.
  assert (Hle : round_float (p * 100) <= round_float (q * 100))
    by (apply round_float_le; lra).
  assert (Hlow : 0 <= round_float (p * 100)).
  { rewrite <- (round_float_zero 0) by reflexivity. apply round_float_le; lra. }
  rewrite !py_int_floor by lra. apply Qfloor_resp_le, Hle.
Qed.

Lemma percents_range (reported : list Q) :
  forall passed : list Z,
    map Some passed = map percent reported ->
    Forall (fun p => 0 <= p /\ p <= 1) reported ->
    Forall (fun v => (0 <= v <= 100)%Z) passed.
Proof.
  induction reported as [|p reported IH]; intros [|v passed] Heq Hrange;
    simpl in Heq; try discriminate; [constructor|].
  injection Heq as Hv Heq. inversion Hrange as [|? ? Hp Hrest]; subst.
  constructor; [|apply IH; assumption].
  destruct (percent_range p Hp) as (v' & Hv' & Hbounds). congruence.
Qed.

Lemma percents_nondecreasing (reported : list Q) :
  forall passed : list Z,
    map Some passed = map percent reported ->
    Forall (fun p => 0 <= p) reported ->
    nondecreasing Qle reported ->
    nondecreasing Z.le passed.
Proof.
  induction reported as [|p reported IH]; intros passed Heq Hpos Hsorted.
  - destruct passed; [exact I|discriminate].
  - destruct passed as [|v passed]; [discriminate|].
    simpl in Heq. injection Heq as Hv Heq.
    inversion Hpos as [|? ? Hp Hrest]; subst.
    destruct reported as [|q reported].
    + destruct passed; [exact I|discriminate].
    + destruct passed as [|w passed]; [discriminate|].
      change ((v <= w)%Z /\ nondecreasing Z.le (w :: passed)).
      destruct Hsorted as [Hpq Hsorted]. split.
      * simpl in Heq. injection Heq as Hw _. apply (percent_monotone p q); auto.
      * apply IH; assumption.
Qed.

End Floats.

(** ** What the upload adds to the trace *)

Lemma callback_values_app (a b : list event) :
  callback_values (a ++ b) = (callback_values a ++ callback_values b)%list.
Proof.
  induction a as [|ev a IH]; simpl; [reflexivity|].
  destruct ev; simpl; rewrite ?IH; reflexivity.
Qed.

Lemma reported_statuses_app (a b : list event) :
  reported_statuses (a ++ b) = (reported_statuses a ++ reported_statuses b)%list.
Proof.
  induction a as [|ev a IH]; simpl; [reflexivity|].
  destruct ev as [| |? [s|]| | | | | |]; simpl; rewrite ?IH; reflexivity.
Qed.

Lemma drive_lookups_silent (new : list event) :
  forallb is_drive_lookup new = true ->
  callback_values new = [] /\ reported_statuses new = [].
Proof.
  induction new as [|ev new IH]; simpl; [auto|].
  destruct ev; simpl; try discriminate; exact IH.
Qed.

Section Quiet.
Context {W : Type} `{DriveService W} `{Host W} {O : Type}.
Import GoogleDriveManager.

Lemma quiet_ret {A} (a : A) : quiet (ret a : M W O A).
Proof.
  intros st r st' Heq. inversion Heq; subst. split; [reflexivity|].
  exists []. rewrite app_nil_r. auto.
Qed.

Lemma quiet_raise {A} (e : exn) : quiet (raise e : M W O A).
Proof.
  intros st r st' Heq. inversion Heq; subst. split; [reflexivity|].
  exists []. rewrite app_nil_r. auto.
Qed.

Lemma quiet_ask {A} (f : W -> A) : quiet (ask f : M W O A).
Proof.
  intros st r st' Heq. inversion Heq; subst. split; [reflexivity|].
  exists []. rewrite app_nil_r. auto.
Qed.

Lemma quiet_remote {A} (ev : event) (op : W -> reply A * W) :
  is_drive_lookup ev = true -> quiet (remote ev op : M W O A).
Proof.
  intros Hev st r st' Heq. unfold remote in Heq.
  destruct (op (world st)) as [a w]. inversion Heq; subst. simpl.
  split; [reflexivity|]. exists [ev]. simpl. rewrite Hev. auto.
Qed.

Lemma quiet_bind {A B} (m : M W O A) (k : A -> M W O B) :
  quiet m -> (forall a, quiet (k a)) -> quiet (bind m k).
Proof.
  intros Hm Hk st r st' Heq. unfold bind in Heq.
  destruct (m st) as [[a|e|] st1] eqn:Hrun;
    destruct (Hm _ _ _ Hrun) as (Hself & new & Htrace & Hnew).
  - destruct (Hk a _ _ _ Heq) as (Hself' & new' & Htrace' & Hnew').
    split; [congruence|]. exists (new ++ new')%list.
    rewrite Htrace', Htrace, app_assoc, forallb_app, Hnew, Hnew'. auto.
  - inversion Heq; subst. eauto.
  - inversion Heq; subst. eauto.
Qed.

Lemma quiet_try_except {A} (body : M W O A) (handler : exn -> M W O A) :
  quiet body -> (forall e, quiet (handler e)) -> quiet (try_except body handler).
Proof.
  intros Hb Hh st r st' Heq. unfold try_except in Heq.
  destruct (body st) as [[a|e|] st1] eqn:Hrun;
    destruct (Hb _ _ _ Hrun) as (Hself & new & Htrace & Hnew).
  - inversion Heq; subst. eauto.
  - destruct (Hh e _ _ _ Heq) as (Hself' & new' & Htrace' & Hnew').
    split; [congruence|]. exists (new ++ new')%list.
    rewrite Htrace', Htrace, app_assoc, forallb_app, Hnew, Hnew'. auto.
  - inversion Heq; subst. eauto.
Qed.

Lemma quiet_for_each {A B} (l : list A) (body : B -> A -> M W O B) :
  (forall acc x, quiet (body acc x)) -> forall acc, quiet (for_each l acc body).
Proof.
  intros Hbody. induction l as [|x l IH]; intros acc; simpl.
  - apply quiet_ret.
  - apply quiet_bind; [apply Hbody | intros a; apply IH].
Qed.

Lemma quiet_get_or_create_folder (folder_name : string) (parent_id : option string) :
  quiet (O:=O) (get_or_create_folder folder_name parent_id).
Proof.
  unfold get_or_create_folder.
  apply quiet_try_except; [|intros e; apply quiet_raise].
  apply quiet_bind; [apply quiet_remote; reflexivity|intros results].
  destruct (get_files results); [|apply quiet_ret].
  apply quiet_bind; [apply quiet_remote; reflexivity|intros file; apply quiet_ret].
Qed.

Lemma quiet_count_files_in_folder (depth : nat) :
  forall folder_id file_extension,
    quiet (O:=O) (count_files_in_folder depth folder_id file_extension).
Proof.
  induction depth as [|depth IH]; intros folder_id file_extension; simpl.
  - apply quiet_raise.
  - apply quiet_try_except; [|intros e; apply quiet_ret].
    apply quiet_bind; [apply quiet_remote; reflexivity|intros results].
    apply quiet_bind; [apply quiet_remote; reflexivity|intros folder_results].
    apply quiet_bind; [|intros n; apply quiet_ret].
    apply quiet_for_each. intros acc x.
    apply quiet_bind; [apply IH|intros n; apply quiet_ret].
Qed.

(** The chunk loop: the callback is invoked once for each status a chunk
    answered with, with the truncated percentage, and [self] is what the
    callbacks made of it. *)
Lemma upload_chunks_trace (cb : callback O) (request : upload_request) (fuel : nat) :
  forall (st st' : state W O) (response : file_resource),
    upload_chunks fuel request (Some cb) st = (Ok response, st') ->
    exists new,
      trace st' = (trace st ++ new)%list
      /\ map Some (callback_values new)
         = map (fun s => percent (progress s)) (reported_statuses new)
      /\ self st' = fold_left (fun s v => snd (cb v s)) (callback_values new) (self st).
Proof.
  induction fuel as [|fuel IH]; intros st st' response Hrun; simpl in Hrun.
  - discriminate.
  - unfold bind at 1 in Hrun. unfold next_chunk in Hrun.
    destruct (request_next_chunk request (world st)) as [[[status resp]|e] w] eqn:Hchunk;
      simpl in Hrun; [|discriminate].
    unfold bind at 1 in Hrun.
    destruct status as [status|].
    + unfold bind at 1 in Hrun. unfold int_of_float in Hrun.
      assert (Hpercent : percent (progress status)
                         = option_map py_int (float_mul (progress status) 100))
        by reflexivity.
      destruct (float_mul (progress status) 100) as [x|]; [|discriminate].
      simpl in Hpercent. unfold ret at 1 in Hrun.
      unfold call_callback in Hrun. simpl in Hrun.
      destruct (cb (py_int x) (self st)) as [[[]|e] s1] eqn:Hcb;
        simpl in Hrun; [|discriminate].
      destruct resp as [resp|].
      * inversion Hrun; subst. simpl.
        exists [EvNextChunk request (Some status); EvProgressCallback (py_int x)].
        rewrite <- app_assoc. simpl. rewrite Hcb, Hpercent. auto.
      * apply IH in Hrun. destruct Hrun as (new & Htrace & Hvalues & Hself).
        simpl in Htrace, Hself.
        exists (EvNextChunk request (Some status) :: EvProgressCallback (py_int x) :: new).
        rewrite Htrace, <- !app_assoc. simpl. rewrite Hcb, Hpercent. simpl.
        split; [reflexivity|split; [f_equal; exact Hvalues|exact Hself]].
    + unfold ret at 1 in Hrun.
      destruct resp as [resp|].
      * inversion Hrun; subst. simpl.
        exists [EvNextChunk request None]. simpl. auto.
      * apply IH in Hrun. destruct Hrun as (new & Htrace & Hvalues & Hself).
        simpl in Htrace, Hself.
        exists (EvNextChunk request None :: new).
        rewrite Htrace, <- !app_assoc. simpl. auto.
Qed.

Lemma upload_file_trace (cb : callback O) (depth fuel : nat)
    (filepath class_name chapter_name year subtopic_name : string)
    (st st' : state W O) (file_id : string) :
  upload_file depth fuel filepath class_name chapter_name year subtopic_name (Some cb) st
  = (Ok file_id, st') ->
  exists new,
    trace st' = (trace st ++ new)%list
    /\ map Some (callback_values new)
       = map (fun s => percent (progress s)) (reported_statuses new)
    /\ self st' = fold_left (fun s v => snd (cb v s)) (callback_values new) (self st).
Proof.
  unfold upload_file. rewrite try_except_reraise. intros Hrun.
  unfold bind at 1 in Hrun. unfold ask at 1 in Hrun.
  destruct (path_exists filepath (world st)); simpl in Hrun; [|discriminate].
  unfold bind at 1 in Hrun.
  destruct (get_or_create_class_year_folder class_name year st) as [[cy|e|] st1] eqn:H1;
    try discriminate.
  apply quiet_get_or_create_folder in H1. destruct H1 as (Hs1 & n1 & Ht1 & Hn1).
  unfold bind at 1 in Hrun.
  destruct (get_or_create_chapter_folder chapter_name cy st1) as [[ch|e|] st2] eqn:H2;
    try discriminate.
  apply quiet_get_or_create_folder in H2. destruct H2 as (Hs2 & n2 & Ht2 & Hn2).
  unfold bind at 1 in Hrun.
  destruct (get_or_create_folder subtopic_name (Some ch) st2) as [[sub|e|] st3] eqn:H3;
    try discriminate.
  apply quiet_get_or_create_folder in H3. destruct H3 as (Hs3 & n3 & Ht3 & Hn3).
  unfold bind at 1 in Hrun.
  destruct (count_files_in_folder depth ch (Some "mp4") st3) as [[cnt|e|] st4] eqn:H4;
    try discriminate.
  apply quiet_count_files_in_folder in H4. destruct H4 as (Hs4 & n4 & Ht4 & Hn4).
  unfold bind at 1 in Hrun. unfold ask at 1 in Hrun.
  unfold bind at 1 in Hrun.
  match type of Hrun with
  | context [upload_chunks ?f ?r ?c ?s] =>
      destruct (upload_chunks f r c s) as [[response|e|] st5] eqn:H5; try discriminate
  end.
  apply upload_chunks_trace in H5. destruct H5 as (n5 & Ht5 & Hv5 & Hs5).
  inversion Hrun; subst st' file_id.
  exists (n1 ++ n2 ++ n3 ++ n4 ++ n5)%list.
  destruct (drive_lookups_silent _ Hn1) as [Hc1 Hr1].
  destruct (drive_lookups_silent _ Hn2) as [Hc2 Hr2].
  destruct (drive_lookups_silent _ Hn3) as [Hc3 Hr3].
  destruct (drive_lookups_silent _ Hn4) as [Hc4 Hr4].
  rewrite !callback_values_app, !reported_statuses_app.
  rewrite Hc1, Hc2, Hc3, Hc4, Hr1, Hr2, Hr3, Hr4. simpl.
  split; [|split].
  - rewrite Ht5, Ht4, Ht3, Ht2, Ht1, <- !app_assoc. reflexivity.
  - exact Hv5.
  - rewrite Hs5. congruence.
Qed.

End Quiet.

Section WorkerTheorems.
Context {W : Type} `{DriveService W} `{Host W}.
Import GoogleDriveManager.

Lemma worker_callbacks_emit (values : list Z) :
  forall s : UploadWorker.t,
    fold_left (fun s v => snd (UploadWorker.progress_callback v s)) values s
    = UploadWorker.mk (UploadWorker.progress_emitted s ++ values)%list
        (UploadWorker.finished_emitted s).
Proof.
  induction values as [|v values IH]; intros s; simpl.
  - rewrite app_nil_r. destruct s; reflexivity.
  - rewrite IH. simpl. rewrite <- app_assoc. reflexivity.
Qed.

(** C7, as the code has it: during an upload that succeeds, whatever the
    progress callback is, it is invoked once for each chunk that answered
    with a status, in order, with [int(progress * 100)]: the product is
    the one of floats, rounded to the nearest float, and the percentage
    is truncated; the callbacks are all that acts on the object behind
    the callback.  When the fractions reported lie between 0 and 1 every
    value passed lies between 0 and 100, and when they are moreover
    non-decreasing so are the values passed.  [upload_file] invokes the
    callback for no other reason, so the last value it passes is the one
    of the last status; the value 100 is emitted after it by the worker
    that runs the upload, once [upload_file] has returned an
    identifier. *)
Theorem upload_progress_sequence
    {O : Type} (cb : callback O) (depth fuel : nat)
    (file_path class_name chapter_name current_year subtopic_name : string)
    (st st1 : state W O) (file_id : string) :
  upload_file depth fuel file_path class_name chapter_name current_year subtopic_name
    (Some cb) st
  = (Ok file_id, st1) ->
  (exists new,
     trace st1 = (trace st ++ new)%list
     /\ let reported := map progress (reported_statuses new) in
        let passed := callback_values new in
        map Some passed = map percent reported
        /\ self st1 = fold_left (fun s v => snd (cb v s)) passed (self st)
        /\ (Forall (fun p => (0 <= p)%Q /\ (p <= 1)%Q) reported ->
            Forall (fun v => (0 <= v <= 100)%Z) passed
            /\ (nondecreasing Qle reported -> nondecreasing Z.le passed)))
  /\ forall (ws ws1 : state W UploadWorker.t) (id : string),
       upload_file depth fuel file_path class_name chapter_name current_year subtopic_name
         (Some UploadWorker.progress_callback) ws
       = (Ok id, ws1) ->
       id <> "" ->
       exists new,
         trace ws1 = (trace ws ++ new)%list
         /\ UploadWorker.run depth fuel file_path class_name chapter_name current_year
              subtopic_name ws
            = (Ok tt,
               mkState
                 (UploadWorker.mk
                    (UploadWorker.progress_emitted (self ws) ++ callback_values new
                       ++ [100%Z])%list
                    (UploadWorker.finished_emitted (self ws)
                       ++ [(true, "Upload completed successfully")])%list)
                 (world ws1) (trace ws1)).
Proof.
  intros Hrun. split.
  - destruct (upload_file_trace _ _ _ _ _ _ _ _ _ _ _ Hrun)
      as (new & Htrace & Hvalues & Hself).
    exists new. split; [exact Htrace|]. cbv zeta.
    assert (Hpassed : map Some (callback_values new)
                      = map percent (map progress (reported_statuses new))).
    { rewrite map_map. exact Hvalues. }
    split; [exact Hpassed|]. split; [exact Hself|].
    intros Hrange. split.
    + apply (percents_range _ _ Hpassed Hrange).
    + apply (percents_nondecreasing _ _ Hpassed).
      eapply Forall_impl; [|exact Hrange]. intros p Hp. apply Hp.
  - intros ws ws1 id Hworker Hid.
    destruct (upload_file_trace _ _ _ _ _ _ _ _ _ _ _ Hworker)
      as (new & Htrace & _ & Hself).
    exists new. split; [exact Htrace|].
    unfold UploadWorker.run. unfold try_except, bind at 1. rewrite Hworker.
    assert (Htruthy : truthy id = true).
    { unfold truthy. destruct (String.eqb_spec id ""); [contradiction|reflexivity]. }
    rewrite Htruthy. unfold_monad. simpl.
    rewrite Hself, worker_callbacks_emit. unfold UploadWorker.emit_progress. simpl.
    rewrite <- app_assoc. reflexivity.
Qed.

End WorkerTheorems.

(** ** Runs on the simulated world *)

(** The product is that of floats: for the 29th of the hundred chunks of
    a file of 100 MiB the callback receives 28, where the exact product
    is 29. *)
Lemma percent_of_floats :
  percent (float_div 30408704 104857600) = Some 28%Z
  /\ py_int ((30408704 # 104857600) * 100) = 29%Z.
Proof. split; vm_compute; reflexivity. Qed.

(** An upload of the 2.5 MiB recording: two chunks report 40% and 80%,
    the third completes the file. *)
Lemma upload_progress_sequence_witness :
  exists new,
    callback_values new = [40; 80]%Z
    /\ Forall (fun v => (0 <= v <= 100)%Z) (callback_values new)
    /\ nondecreasing Z.le (callback_values new)
    /\ exists st2,
         UploadWorker.run 10 10 "/videos/rec.mp4" "11th" "Thermodynamics" "2024" "Main"
           sample_worker = (Ok tt, st2)
         /\ UploadWorker.progress_emitted (self st2) = [40; 80; 100]%Z.
Proof.
  destruct (upload_progress_sequence UploadWorker.progress_callback 10 10 "/videos/rec.mp4"
              "11th" "Thermodynamics" "2024" "Main" sample_worker
              (snd (GoogleDriveManager.upload_file 10 10 "/videos/rec.mp4" "11th"
                      "Thermodynamics" "2024" "Main" (Some UploadWorker.progress_callback)
                      sample_worker))
              "id0")
    as ((new & Htrace & Hpassed & _ & Hrange) & Hworker).
  - vm_compute. reflexivity.
  - vm_compute in Htrace. inversion Htrace as [Hnew]. clear Htrace.
    exists new. subst new. cbn [reported_statuses map progress] in Hrange.
    destruct Hrange as [Hall Hmono].
    { repeat constructor; vm_compute; discriminate. }
    split; [vm_compute; reflexivity|].
    split; [exact Hall|].
    split; [apply Hmono; repeat split; vm_compute; discriminate|].
    destruct (Hworker sample_worker
                (snd (GoogleDriveManager.upload_file 10 10 "/videos/rec.mp4" "11th"
                        "Thermodynamics" "2024" "Main"
                        (Some UploadWorker.progress_callback) sample_worker))
                "id0")
      as (wnew & Hwtrace & Hrun).
    + vm_compute. reflexivity.
    + discriminate.
    + eexists. split; [exact Hrun|].
      vm_compute in Hwtrace. inversion Hwtrace as [Hwnew]. subst wnew.
      vm_compute. reflexivity.
Defined.

(** C7, against the claim as written: the 1.8 MiB recording is uploaded
    in two chunks; the first reports the float nearest to
    1048576/1887437, for which the callback receives 55 where rounding
    gives 56, and the second completes the upload without a status, so
    that the last, and only, value passed is 55 and not 100. *)
Lemma upload_progress_not_rounded_no_final_100 :
  exists st1,
    GoogleDriveManager.upload_file 10 10 "/videos/short.mp4" "11th" "Thermodynamics" "2024"
      "Main" (Some UploadWorker.progress_callback) sample_worker
    = (Ok "id0", st1)
    /\ map progress (reported_statuses (trace st1)) = [float_div 1048576 1887437]
    /\ callback_values (trace st1) = [55%Z]
    /\ map (fun p => option_map py_round (float_mul p 100)) [float_div 1048576 1887437]
       = [Some 56%Z]
    /\ last (callback_values (trace st1)) 100%Z <> 100%Z.
Proof.
  eexists. split; [vm_compute; reflexivity|].
  vm_compute. repeat split; discriminate.
Qed.

(** ** The simulated Drive *)

Section SimDrive.
Context {O : Type}.
Import GoogleDriveManager.

Lemma metered_reply {A} (op : Sim.world -> reply A * Sim.world) (w w' : Sim.world) (a : A) :
  Sim.metered op w = (Reply a, w') ->
  exists wm,
    op wm = (Reply a, w') /\ Sim.drive wm = Sim.drive w /\ Sim.next_id wm = Sim.next_id w.
Proof.
  unfold Sim.metered. destruct (Sim.drive_calls_left w) as [[|n]|]; intros Hop.
  - discriminate.
  - eexists. split; [exact Hop|]. split; reflexivity.
  - eexists. split; [exact Hop|]. split; reflexivity.
Qed.

Lemma new_folder_answers (id folder_name parent : string) :
  Sim.answers (folder_query folder_name parent)
    (Sim.new_entry id (mkBody folder_name (Some FOLDER_MIME) [parent])) = true.
Proof.
  unfold Sim.answers, Sim.new_entry.
  cbn [Sim.e_trashed Sim.e_parents Sim.e_name Sim.e_mime name mimeType parents negb existsb andb].
  rewrite !String.eqb_refl. reflexivity.
Qed.

(** What a call that returns has done on the simulated Drive: either it
    found the folder, or it found none and appended the one it returns. *)
Lemma sim_get_or_create_folder
    (folder_name : string) (parent_id : option string)
    (st st1 : state Sim.world O) (id : string) :
  get_or_create_folder folder_name parent_id st = (Ok id, st1) ->
  let parent := py_or parent_id SHARED_FOLDER_ID in
  let query := folder_query folder_name parent in
  let body := mkBody folder_name (Some FOLDER_MIME) [parent] in
  (exists first rest,
      filter (Sim.answers query) (Sim.drive (world st)) = first :: rest
      /\ id = Sim.e_id first
      /\ Sim.drive (world st1) = Sim.drive (world st)
      /\ trace st1 = (trace st ++ [EvFilesList query])%list)
  \/ (filter (Sim.answers query) (Sim.drive (world st)) = []
      /\ Sim.drive (world st1) = (Sim.drive (world st) ++ [Sim.new_entry id body])%list
      /\ trace st1 = (trace st ++ [EvFilesList query; EvFilesCreate body])%list).
Proof.
  intros Hrun parent query body. unfold get_or_create_folder in Hrun.
  rewrite try_except_reraise in Hrun.
  fold parent in Hrun. fold query in Hrun. fold body in Hrun.
  unfold bind at 1 in Hrun. unfold remote at 1 in Hrun.
  cbn [files_list Sim.sim_drive] in Hrun.
  destruct (Sim.metered (Sim.sim_files_list query) (world st)) as [[results|e] w1] eqn:Hlist;
    cbn [outcome_of_reply] in Hrun; [|discriminate].
  apply metered_reply in Hlist. destruct Hlist as (wm & Hlist & Hdrive & _).
  unfold Sim.sim_files_list in Hlist. inversion Hlist; subst results w1. clear Hlist.
  cbn [get_files] in Hrun. rewrite Hdrive in Hrun.
  destruct (filter (Sim.answers query) (Sim.drive (world st))) as [|first rest] eqn:Hfilter;
    cbn [map] in Hrun.
  - right. unfold bind at 1 in Hrun. unfold remote at 1 in Hrun.
    cbn [files_create Sim.sim_drive world] in Hrun.
    destruct (Sim.metered (Sim.sim_files_create body) wm) as [[file|e] w2] eqn:Hcreate;
      cbn [outcome_of_reply] in Hrun; [|discriminate].
    apply metered_reply in Hcreate. destruct Hcreate as (wc & Hcreate & Hdrive' & _).
    unfold Sim.sim_files_create in Hcreate. inversion Hcreate; subst file w2. clear Hcreate.
    unfold ret in Hrun. inversion Hrun; subst id st1. clear Hrun.
    cbn [world trace Sim.with_drive Sim.drive Sim.new_resource resp_id].
    split; [reflexivity|]. split.
    + rewrite Hdrive', Hdrive. reflexivity.
    + rewrite <- app_assoc. reflexivity.
  - left. unfold ret in Hrun. inversion Hrun; subst id st1. clear Hrun.
    exists first, rest. cbn [world trace]. auto.
Qed.

Lemma sim_get_or_create_folder_available
    (folder_name : string) (parent_id : option string) (st : state Sim.world O) :
  Sim.drive_calls_left (world st) = None ->
  exists id st1,
    get_or_create_folder folder_name parent_id st = (Ok id, st1)
    /\ Sim.drive_calls_left (world st1) = None.
Proof.
  intros Hleft. unfold get_or_create_folder. rewrite try_except_reraise.
  unfold bind at 1. unfold remote at 1. cbn [files_list Sim.sim_drive].
  unfold Sim.metered at 1. rewrite Hleft. unfold Sim.sim_files_list.
  cbn [outcome_of_reply get_files].
  destruct (map Sim.to_item _) as [|first rest].
  - unfold bind, remote, ret. cbn [files_create Sim.sim_drive world].
    unfold Sim.metered. rewrite Hleft. unfold Sim.sim_files_create.
    cbn [outcome_of_reply]. eexists _, _. split; [reflexivity|]. exact Hleft.
  - unfold ret. eexists _, _. split; [reflexivity|]. exact Hleft.
Qed.

(** C6: on the simulated Drive, whose listing reflects the folders
    created before, two calls of [get_or_create_folder] in a row with the
    same name and parent that both return give the same identifier, with
    at most one creation between them; and they both return as long as
    the Drive serves its calls. *)
Theorem get_or_create_folder_idempotent
    (folder_name : string) (parent_id : option string) (st : state Sim.world O) :
  (forall id1 st1 id2 st2,
      get_or_create_folder folder_name parent_id st = (Ok id1, st1) ->
      get_or_create_folder folder_name parent_id st1 = (Ok id2, st2) ->
      id1 = id2
      /\ length (Sim.drive (world st2)) <= S (length (Sim.drive (world st)))
      /\ exists new,
           trace st2 = (trace st ++ new)%list /\ count_creates new <= 1)
  /\ (Sim.drive_calls_left (world st) = None ->
      exists id st1 st2,
        get_or_create_folder folder_name parent_id st = (Ok id, st1)
        /\ get_or_create_folder folder_name parent_id st1 = (Ok id, st2)).
Proof.
  assert (Hsame :
    forall id1 st1 id2 st2,
      get_or_create_folder folder_name parent_id st = (Ok id1, st1) ->
      get_or_create_folder folder_name parent_id st1 = (Ok id2, st2) ->
      id1 = id2
      /\ length (Sim.drive (world st2)) <= S (length (Sim.drive (world st)))
      /\ exists new,
           trace st2 = (trace st ++ new)%list /\ count_creates new <= 1).
  { intros id1 st1 id2 st2 Hfirst Hsecond.
    apply sim_get_or_create_folder in Hfirst.
    apply sim_get_or_create_folder in Hsecond.
    cbv zeta in Hfirst, Hsecond.
    set (query := folder_query folder_name (py_or parent_id SHARED_FOLDER_ID)) in *.
    set (body := mkBody folder_name (Some FOLDER_MIME) [py_or parent_id SHARED_FOLDER_ID]) in *.
    destruct Hfirst as [(f1 & r1 & Hf1 & Hid1 & Hd1 & Ht1) | (Hf1 & Hd1 & Ht1)].
    - rewrite Hd1 in Hsecond.
      destruct Hsecond as [(f2 & r2 & Hf2 & Hid2 & Hd2 & Ht2) | (Hf2 & _)];
        [|congruence].
      split; [congruence|]. split; [rewrite Hd2; lia|].
      exists [EvFilesList query; EvFilesList query].
      rewrite Ht2, Ht1, <- app_assoc. split; [reflexivity|simpl; lia].
    - rewrite Hd1, filter_app, Hf1 in Hsecond. cbn [filter app] in Hsecond.
      pose proof (new_folder_answers id1 folder_name (py_or parent_id SHARED_FOLDER_ID))
        as Hanswers.
      change (Sim.answers query (Sim.new_entry id1 body) = true) in Hanswers.
      rewrite Hanswers in Hsecond.
      destruct Hsecond as [(f2 & r2 & Hf2 & Hid2 & Hd2 & Ht2) | (Hf2 & _)];
        [|discriminate].
      inversion Hf2; subst f2 r2.
      split; [exact (eq_sym Hid2)|]. split.
      + rewrite Hd2, length_app. simpl. lia.
      + exists [EvFilesList query; EvFilesCreate body; EvFilesList query].
        rewrite Ht2, Ht1, <- app_assoc. split; [reflexivity|simpl; lia]. }
  split; [exact Hsame|].
  intros Hleft.
  destruct (sim_get_or_create_folder_available folder_name parent_id st Hleft)
    as (id1 & st1 & Hfirst & Hleft1).
  destruct (sim_get_or_create_folder_available folder_name parent_id st1 Hleft1)
    as (id2 & st2 & Hsecond & _).
  destruct (Hsame _ _ _ _ Hfirst Hsecond) as [Heq _]. subst id2.
  exists id1, st1, st2. auto.
Qed.

End SimDrive.

(** ** Runs of the Drive manager on the simulated world *)

(** The chapter folder exists and is found; the folder Optics exists only
    in the bin, so a new one is created. *)
Lemma get_or_create_folder_contract_witness :
  GoogleDriveManager.get_or_create_folder "Thermodynamics" (Some "c1") sample_drive
  = (Ok "ch1",
     mkState tt Sim.w0
       [EvFilesList "name='Thermodynamics' and mimeType='application/vnd.google-apps.folder' and 'c1' in parents and trashed=false"])
  /\ exists w2,
       GoogleDriveManager.get_or_create_folder "Optics" (Some "c1") sample_drive
       = (Ok "id0",
          mkState tt w2
            [EvFilesList "name='Optics' and mimeType='application/vnd.google-apps.folder' and 'c1' in parents and trashed=false";
             EvFilesCreate
               (mkBody "Optics" (Some "application/vnd.google-apps.folder") ["c1"])]).
Proof.
  split.
  - refine (get_or_create_folder_contract "Thermodynamics" (Some "c1") sample_drive
              (Some [mkItem "ch1" "Thermodynamics"]) Sim.w0 _ _).
    + discriminate.
    + vm_compute. reflexivity.
  - eexists.
    refine (get_or_create_folder_contract "Optics" (Some "c1") sample_drive
              (Some []) Sim.w0 _ _
              (Sim.new_resource "id0"
                 (mkBody "Optics" (Some "application/vnd.google-apps.folder") ["c1"]))
              _ _).
    + discriminate.
    + vm_compute. reflexivity.
    + vm_compute. reflexivity.
Defined.

(** Asked twice for Optics, the Drive gains one folder, returned both
    times. *)
Lemma get_or_create_folder_idempotent_witness :
  exists id st1 st2,
    GoogleDriveManager.get_or_create_folder "Optics" (Some "c1") sample_drive = (Ok id, st1)
    /\ GoogleDriveManager.get_or_create_folder "Optics" (Some "c1") st1 = (Ok id, st2)
    /\ length (Sim.drive (world st2)) <= S (length (Sim.drive Sim.w0)).
Proof.
  destruct (get_or_create_folder_idempotent "Optics" (Some "c1") sample_drive)
    as [Hsame Havailable].
  destruct (Havailable eq_refl) as (id & st1 & st2 & Hfirst & Hsecond).
  exists id, st1, st2.
  destruct (Hsame _ _ _ _ Hfirst Hsecond) as (_ & Hlength & _).
  auto.
Defined.


(** The first listing is rejected, or the second one: the count is 0. *)
Lemma count_files_in_folder_swallows_errors_witness :
  fst (GoogleDriveManager.count_files_in_folder 5 "ch1" (Some "mp4") drive_down) = Ok 0
  /\ fst (GoogleDriveManager.count_files_in_folder 5 "ch1" (Some "mp4") drive_one_call) = Ok 0.
Proof.
  split.
  - destruct (count_files_in_folder_swallows_errors 4 "ch1" (Some "mp4") drive_down)
      as (_ & Hfirst & _).
    rewrite (Hfirst (ClientError "HttpError 403: rate limit exceeded")
               (Sim.with_calls_left (Some 0) Sim.w0)); reflexivity.
  - destruct (count_files_in_folder_swallows_errors 4 "ch1" (Some "mp4") drive_one_call)
      as (_ & _ & Hsecond).
    rewrite (Hsecond
               (Some [mkItem "f2" "11th_Thermodynamics_Carnot_31-12-2023_Class_2.mp4"])
               (Sim.with_calls_left (Some 0) Sim.w0)
               (ClientError "HttpError 403: rate limit exceeded")
               (Sim.with_calls_left (Some 0) Sim.w0)); reflexivity.
Defined.

(** With every call served the chapter counts two recordings; when the
    Drive gives up inside the subtopic folder, that folder counts for 0
    and the chapter for the one recording it holds itself. *)
Example count_files_in_folder_degrades :
  fst (GoogleDriveManager.count_files_in_folder 5 "ch1" (Some "mp4") sample_drive) = Ok 2
  /\ fst (GoogleDriveManager.count_files_in_folder 5 "ch1" (Some "mp4")
            (Sim.init tt (Sim.with_calls_left (Some 3) Sim.w0))) = Ok 1.
Proof. split; vm_compute; reflexivity. Qed.

(** The upload of the sample recording on the fifth of March: the
    chapter holds two recordings, one of them in the subtopic folder, so
    the new file is number 3. *)
Lemma upload_file_remote_name_witness :
  exists st4,
    GoogleDriveManager.upload_file 5 5 "/videos/rec.mp4" "11th" "Thermodynamics" "2024"
      "Main" None sample_drive_march
    = (response <-
         GoogleDriveManager.upload_chunks 5
           (mkRequest
              (mkBody "11th_Thermodynamics_Main_05-03-2024_Class_3.mp4" None ["s1"])
              "/videos/rec.mp4" (1024 * 1024)%N)
           None ;;
       ret (resp_id response)) st4.
Proof.
  pose (st1 := snd (GoogleDriveManager.get_or_create_class_year_folder "11th" "2024"
                      sample_drive_march)).
  pose (st2 := snd (GoogleDriveManager.get_or_create_chapter_folder "Thermodynamics" "c1" st1)).
  pose (st3 := snd (GoogleDriveManager.get_or_create_folder "Main" (Some "ch1") st2)).
  pose (st4 := snd (GoogleDriveManager.count_files_in_folder 5 "ch1" (Some "mp4") st3)).
  exists st4.
  destruct (upload_file_remote_name 5 5 "/videos/rec.mp4" "11th" "Thermodynamics" "2024"
              "Main" None sample_drive_march st1 st2 st3 st4 "c1" "ch1" "s1" 2)
    as (ext & Hupload & _ & Hext & _).
  - reflexivity.
  - vm_compute. reflexivity.
  - vm_compute. reflexivity.
  - vm_compute. reflexivity.
  - vm_compute. reflexivity.
  - change (calendar_date (mkDate 5 3 2024)). unfold calendar_date. simpl. lia.
  - rewrite (Hext "/videos/re" "c"%char "mp4") in Hupload.
    + exact Hupload.
    + reflexivity.
    + discriminate.
    + discriminate.
    + discriminate.
    + discriminate.
    + discriminate.
    + simpl. repeat split; discriminate.
    + simpl. repeat split; discriminate.
    + intros a Ha. discriminate.
Defined.

(** A path that names no local file. *)
Lemma upload_file_missing_local_file_witness :
  GoogleDriveManager.upload_file 5 5 "/videos/lost.mp4" "11th" "Thermodynamics" "2024"
    "Main" None sample_drive
  = (Raise (FileNotFoundError "File not found: /videos/lost.mp4"), sample_drive).
Proof.
  apply (upload_file_missing_local_file 5 5 "/videos/lost.mp4"). reflexivity.
Defined.

(** ** Rules for [returns], [total] and [preserves] *)

Section Rules.
Context {W O : Type}.

Lemma returns_host {A} (op : W -> reply A * W) : returns (host op : M W O A).
Proof.
  intros st. unfold host. destruct (op (world st)) as [[a|e] w]; discriminate.
Qed.

Lemma returns_ask {A} (f : W -> A) : returns (ask f : M W O A).
Proof. intros st. discriminate. Qed.

Lemma returns_get_self : returns (get_self : M W O O).
Proof. intros st. discriminate. Qed.

Lemma returns_set_self (f : O -> O) : returns (set_self f : M W O unit).
Proof. intros st. discriminate. Qed.

Lemma total_ret {A} (a : A) : total (ret a : M W O A).
Proof. intros st. eexists _, _. reflexivity. Qed.

Lemma total_set_self (f : O -> O) : total (set_self f : M W O unit).
Proof. intros st. eexists _, _. reflexivity. Qed.

Lemma total_bind {A B} (m : M W O A) (k : A -> M W O B) :
  total m -> (forall a, total (k a)) -> total (bind m k).
Proof.
  intros Hm Hk st. destruct (Hm st) as (a & st1 & Hrun).
  destruct (Hk a st1) as (b & st2 & Hrun').
  exists b, st2. unfold bind. rewrite Hrun. exact Hrun'.
Qed.

Lemma total_try_except {A} (body : M W O A) (handler : exn -> M W O A) :
  returns body -> (forall e, total (handler e)) -> total (try_except body handler).
Proof.
  intros Hb Hh st. unfold try_except. specialize (Hb st).
  destruct (body st) as [[a|e|] st1]; simpl in Hb.
  - eexists _, _. reflexivity.
  - apply Hh.
  - congruence.
Qed.

Lemma total_returns {A} (m : M W O A) : total m -> returns m.
Proof.
  intros Hm st. destruct (Hm st) as (a & st' & Hrun). rewrite Hrun. discriminate.
Qed.

Variable I : O -> Prop.

Lemma preserves_ret {A} (a : A) : preserves I (ret a : M W O A).
Proof. intros st r st' Hrun HI. inversion Hrun; subst. exact HI. Qed.

Lemma preserves_raise {A} (e : exn) : preserves I (raise e : M W O A).
Proof. intros st r st' Hrun HI. inversion Hrun; subst. exact HI. Qed.

Lemma preserves_ask {A} (f : W -> A) : preserves I (ask f : M W O A).
Proof. intros st r st' Hrun HI. inversion Hrun; subst. exact HI. Qed.

Lemma preserves_get_self : preserves I (get_self : M W O O).
Proof. intros st r st' Hrun HI. inversion Hrun; subst. exact HI. Qed.

Lemma preserves_remote {A} (ev : event) (op : W -> reply A * W) :
  preserves I (remote ev op : M W O A).
Proof.
  intros st r st' Hrun HI. unfold remote in Hrun.
  destruct (op (world st)) as [a w]. inversion Hrun; subst. exact HI.
Qed.

Lemma preserves_host {A} (op : W -> reply A * W) : preserves I (host op : M W O A).
Proof.
  intros st r st' Hrun HI. unfold host in Hrun.
  destruct (op (world st)) as [a w]. inversion Hrun; subst. exact HI.
Qed.

Lemma preserves_set_self (f : O -> O) :
  (forall s, I s -> I (f s)) -> preserves I (set_self f : M W O unit).
Proof. intros Hf st r st' Hrun HI. inversion Hrun; subst. apply Hf, HI. Qed.

Lemma preserves_bind {A B} (m : M W O A) (k : A -> M W O B) :
  preserves I m -> (forall a, preserves I (k a)) -> preserves I (bind m k).
Proof.
  intros Hm Hk st r st' Hrun HI. unfold bind in Hrun.
  destruct (m st) as [[a|e|] st1] eqn:Hfirst; pose proof (Hm _ _ _ Hfirst HI) as HI1.
  - exact (Hk a _ _ _ Hrun HI1).
  - inversion Hrun; subst. exact HI1.
  - inversion Hrun; subst. exact HI1.
Qed.

Lemma preserves_try_except {A} (body : M W O A) (handler : exn -> M W O A) :
  preserves I body -> (forall e, preserves I (handler e)) ->
  preserves I (try_except body handler).
Proof.
  intros Hb Hh st r st' Hrun HI. unfold try_except in Hrun.
  destruct (body st) as [[a|e|] st1] eqn:Hfirst; pose proof (Hb _ _ _ Hfirst HI) as HI1.
  - inversion Hrun; subst. exact HI1.
  - exact (Hh e _ _ _ Hrun HI1).
  - inversion Hrun; subst. exact HI1.
Qed.

End Rules.

Create HintDb returns_db.
Create HintDb preserves_db.

(** Structural proofs of the three properties: the rules are applied
    along the shape of the computation, and a [match] or [if] on a value
    is split. *)
Ltac split_scrutinee :=
  match goal with
  | |- context [match ?x with _ => _ end] =>
      match type of x with
      | outcome _ * _ => fail 1
      | _ => destruct x
      end
  end.

Ltac returns_step :=
  first
    [ apply returns_ret | apply returns_raise | apply returns_remote | apply returns_host
    | apply returns_ask | apply returns_get_self | apply returns_set_self
    | apply returns_bind | apply returns_try_except
    | solve [auto with returns_db] ].

Ltac prove_returns := repeat (intros; first [returns_step | split_scrutinee]).

Ltac preserves_step :=
  first
    [ apply preserves_ret | apply preserves_raise | apply preserves_remote
    | apply preserves_host | apply preserves_ask | apply preserves_get_self
    | apply preserves_bind | apply preserves_try_except
    | solve [auto with preserves_db]
    | apply preserves_set_self ].

Ltac prove_preserves := repeat (intros; first [preserves_step | split_scrutinee]).

Section ControllerRules.
Context {W : Type} `{ObsClient W} `{DriveService W} `{Host W}.
Import OBSManager.

Lemma returns_client_call {A} (ev : event) (op : W -> reply A * W) :
  returns (client_call ev op).
Proof. unfold client_call. prove_returns. Qed.

Lemma preserves_client_call (I : OBSManager.t -> Prop) {A} (ev : event)
    (op : W -> reply A * W) :
  preserves I (client_call ev op).
Proof. unfold client_call. prove_preserves. Qed.

End ControllerRules.

#[global] Hint Resolve returns_client_call : returns_db.
#[global] Hint Resolve preserves_client_call : preserves_db.

(** ** Stopping a recording *)

Section StopRecording.
Context {W : Type} `{ObsClient W} `{DriveService W} `{Host W}.
Import OBSManager.

Lemma returns__check_recording_output_exists : returns _check_recording_output_exists.
Proof. unfold _check_recording_output_exists. prove_returns. Qed.

Lemma stopped__check_recording_output_exists :
  preserves stopped _check_recording_output_exists.
Proof.
  unfold _check_recording_output_exists. prove_preserves; intros s Hs; exact Hs.
Qed.

(** The block around [stop_record] leaves the flag cleared whether the
    request was served or failed. *)
Lemma stop_block_clears_flag (st st' : state W OBSManager.t) (r : outcome (option string)) :
  try_except
    (result <- client_call EvStopRecord stop_record ;;
     match output_path result with
     | Some p => set_self (set_last_recording_path (Some p))
     | None => ret tt
     end ;;;
     set_self (set_is_recording false) ;;;
     ret (output_path result))
    (fun e => set_self (set_is_recording false) ;;; ret None) st = (r, st') ->
  (exists p, r = Ok p) /\ stopped (self st').
Proof.
  unfold client_call. unfold_monad. unfold stopped.
  destruct (client (self st)); simpl.
  - destruct (stop_record (world st)) as [[[[p|]]|e] w]; simpl;
      intros Hrun; inversion Hrun; subst; simpl; eauto.
  - intros Hrun; inversion Hrun; subst; simpl; eauto.
Qed.

(** C2, as the code has it: on a connected controller [stop_recording]
    returns with the recording flag cleared, whatever the state and
    whatever the server answers to the status queries and to the stop
    request; on a controller that is not connected it returns [False]
    at once and changes nothing, the flag included. *)
Theorem stop_recording_clears_flag (st : state W OBSManager.t) :
  (is_connected (self st) = true ->
   exists b st', stop_recording st = (Ok b, st') /\ is_recording (self st') = false)
  /\ (is_connected (self st) = false -> stop_recording st = (Ok false, st)).
Proof.
  split; intros Hconnected; unfold stop_recording;
    unfold bind at 1; unfold get_self at 1; rewrite Hconnected; cbn [negb];
    [|reflexivity].
  unfold try_except at 1. unfold bind at 1.
  match goal with
  | |- context [match ?first st with _ => _ end] =>
      assert (Hfirst : returns first) by prove_returns;
      specialize (Hfirst st); destruct (first st) as [[[]|e|] st1] eqn:Hstatus
  end; simpl in Hfirst; try congruence.
  - unfold bind at 1.
    match goal with
    | |- context [match ?block st1 with _ => _ end] =>
        destruct (block st1) as [r st2] eqn:Hblock
    end.
    apply stop_block_clears_flag in Hblock. destruct Hblock as [[p ->] Hstopped].
    match goal with
    | |- context [match ?rest st2 with _ => _ end] =>
        assert (Hreturns : returns rest) by
          (prove_returns; apply returns__check_recording_output_exists);
        assert (Hkeeps : preserves stopped rest) by
          (prove_preserves;
           first [apply stopped__check_recording_output_exists | intros s Hs; exact Hs]);
        specialize (Hreturns st2); specialize (Hkeeps st2);
        destruct (rest st2) as [[b|e|] st3]
    end; simpl in Hreturns; try congruence.
    + eexists _, _. split; [reflexivity|]. eapply Hkeeps; [reflexivity|exact Hstopped].
    + eexists _, _. split; reflexivity.
  - unfold_monad. eexists _, _. split; reflexivity.
Qed.

End StopRecording.

(** A recording is started and stopped: the flag is cleared.  A
    controller that is not connected answers [False]. *)
Lemma stop_recording_clears_flag_witness :
  (exists b st',
      OBSManager.stop_recording
        (snd (OBSManager.start_recording sample_output_path sample_obs))
      = (Ok b, st')
      /\ OBSManager.is_recording (self st') = false)
  /\ OBSManager.stop_recording (snd (OBSManager.disconnect sample_obs))
     = (Ok false, snd (OBSManager.disconnect sample_obs)).
Proof.
  split.
  - apply (proj1 (stop_recording_clears_flag
                    (snd (OBSManager.start_recording sample_output_path sample_obs)))).
    vm_compute. reflexivity.
  - apply (proj2 (stop_recording_clears_flag (snd (OBSManager.disconnect sample_obs)))).
    reflexivity.
Defined.

(** C2, against the claim as written: a recording is started, the
    controller is disconnected, and [stop_recording] is called; it
    returns [False] and the flag still says that a recording is active. *)
Lemma stop_recording_not_connected_keeps_flag :
  exists st1 st2,
    (OBSManager.start_recording sample_output_path ;;; OBSManager.disconnect) sample_obs
    = (Ok tt, st1)
    /\ OBSManager.is_connected (self st1) = false
    /\ OBSManager.is_recording (self st1) = true
    /\ OBSManager.stop_recording st1 = (Ok false, st2)
    /\ OBSManager.is_recording (self st2) = true.
Proof.
  eexists _, _. split; [vm_compute; reflexivity|].
  split; [reflexivity|]. split; [reflexivity|]. split; reflexivity.
Qed.

(** ** Starting a recording *)






Section StartRecording.
Context {W : Type} `{ObsClient W} `{DriveService W} `{Host W}.
Import OBSManager.

Lemma returns__check_recording_status : returns _check_recording_status.
Proof. unfold _check_recording_status. prove_returns. Qed.

(** The verification answers what [output_active] says, and [True] when
    the status lacks the attribute or the query fails. *)
Lemma _check_recording_status_verdict (st : state W OBSManager.t) :
  client (self st) = true ->
  _check_recording_status st
  = match get_record_status (world st) with
    | (Reply status, w) =>
        (Ok (match output_active status with Some recording => recording | None => true end),
         mkState (debug_set "recording_status_after" (PyStr (str_of_status status)) (self st))
           w (trace st ++ [EvGetRecordStatus])%list)
    | (Fault e, w) => (Ok true, mkState (self st) w (trace st ++ [EvGetRecordStatus])%list)
    end.
Proof.
  intros Hclient. unfold _check_recording_status, client_call. unfold_monad.
  rewrite Hclient. simpl.
  destruct (get_record_status (world st)) as [[[[recording|]]|e] w]; reflexivity.
Qed.

Lemma returns_verify_started : returns verify_started.
Proof.
  unfold verify_started. prove_returns.
Qed.

Lemma returns_try_start_record : returns try_start_record.
Proof. unfold try_start_record. prove_returns. Qed.

Lemma total__try_recording_method_1 (output_path : Path.t) :
  total (_try_recording_method_1 output_path).
Proof.
  unfold _try_recording_method_1.
  apply total_bind; [apply total_set_self|intros _].
  apply total_try_except.
  - prove_returns.
  - intros e. apply total_bind; [apply total_set_self|intros _; apply total_ret].
Qed.

Lemma total__try_recording_method_2 (output_path : Path.t) :
  total (_try_recording_method_2 output_path).
Proof.
  unfold _try_recording_method_2.
  apply total_bind; [apply total_set_self|intros _].
  apply total_try_except.
  - prove_returns.
  - intros e. apply total_bind; [apply total_set_self|intros _; apply total_ret].
Qed.

Lemma total__try_recording_method_3 (output_path : Path.t) :
  total (_try_recording_method_3 output_path).
Proof.
  unfold _try_recording_method_3.
  apply total_bind; [apply total_set_self|intros _].
  apply total_try_except.
  - prove_returns.
  - intros e. apply total_bind; [apply total_set_self|intros _; apply total_ret].
Qed.

Lemma total_stop_if_already_recording : total stop_if_already_recording.
Proof.
  unfold stop_if_already_recording. apply total_try_except.
  - prove_returns.
  - intros e. apply total_set_self.
Qed.

Lemma verify_started_flags : flags_success verify_started.
Proof.
  intros st st'. unfold verify_started. unfold bind at 1.
  destruct (_check_recording_status st) as [[[|]|e|] st1]; try discriminate.
  unfold_monad. intros Hrun. inversion Hrun; subst. reflexivity.
Qed.

Lemma try_start_record_early (st st' : state W OBSManager.t) (b : bool) :
  try_start_record st = (Ok (Some b), st') -> b = false.
Proof.
  unfold try_start_record, client_call. unfold_monad.
  destruct (client (self st)); simpl.
  - destruct (start_record (world st)) as [[[]|e] w]; simpl; congruence.
  - congruence.
Qed.

Lemma flags_bind {A} (m : M W OBSManager.t A) (k : A -> M W OBSManager.t bool) :
  (forall a, flags_success (k a)) -> flags_success (bind m k).
Proof.
  intros Hk st st'. unfold bind.
  destruct (m st) as [[a|e|] st1]; try discriminate. apply Hk.
Qed.

Lemma flags_try_except (body : M W OBSManager.t bool) (handler : exn -> M W OBSManager.t bool) :
  flags_success body -> (forall e, flags_success (handler e)) ->
  flags_success (try_except body handler).
Proof.
  intros Hb Hh st st'. unfold try_except.
  destruct (body st) as [[a|e|] st1] eqn:Hrun; try discriminate.
  - intros Heq. inversion Heq; subst. apply (Hb _ _ Hrun).
  - apply Hh.
Qed.

Lemma flags_ret_false : flags_success (ret false : M W OBSManager.t bool).
Proof. intros st st'. discriminate. Qed.

Lemma start_then_verify_flags :
  flags_success
    (r <- try_start_record ;;
     match r with
     | Some b => ret b
     | None => verify_started
     end).
Proof.
  intros st st'. unfold bind at 1.
  destruct (try_start_record st) as [[[b|]|e|] st2] eqn:Hstart; try discriminate.
  - apply try_start_record_early in Hstart. subst b. discriminate.
  - apply verify_started_flags.
Qed.

Ltac prove_flags :=
  repeat (intros;
          first [ apply start_then_verify_flags | apply flags_ret_false
                | apply flags_bind | apply flags_try_except ]).

Lemma _try_recording_method_1_flags (output_path : Path.t) :
  flags_success (_try_recording_method_1 output_path).
Proof. unfold _try_recording_method_1. prove_flags. Qed.

Lemma _try_recording_method_2_flags (output_path : Path.t) :
  flags_success (_try_recording_method_2 output_path).
Proof. unfold _try_recording_method_2. prove_flags. Qed.

Lemma _try_recording_method_3_flags (output_path : Path.t) :
  flags_success (_try_recording_method_3 output_path).
Proof. unfold _try_recording_method_3. prove_flags. Qed.







End StartRecording.


(** In front of a willing OBS the first method verifies and the others
    are not tried. *)
Example start_recording_first_method :
  exists st',
    OBSManager.start_recording sample_output_path sample_obs = (Ok true, st')
    /\ OBSManager.is_recording (self st') = true
    /\ OBSManager.method_names (self st') = [method_1_name]
    /\ trace st'
       = [EvGetRecordStatus; EvSetRecordDirectory "/videos"; EvStartRecord;
          EvGetRecordStatus].
Proof. eexists. split; [vm_compute; reflexivity|]. repeat split. Qed.

(** ** Renaming the recording *)

Lemma digits_without_dot (d : Decimal.uint) :
  absent "."%char (NilEmpty.string_of_uint d).
Proof. induction d; simpl; auto; split; (discriminate || assumption). Qed.

Lemma path_str_inj (target_dir n1 n2 : string) :
  Path.str (Path.mk target_dir n1) = Path.str (Path.mk target_dir n2) -> n1 = n2.
Proof.
  unfold Path.str. simpl.
  destruct (String.eqb target_dir "."); [auto|].
  destruct (Path.ends_with_sep target_dir); intros Heq.
  - apply append_inj_l in Heq. exact Heq.
  - apply append_inj_l in Heq. apply (append_inj_l "/") in Heq. exact Heq.
Qed.

Lemma suffixed_inj (target_dir desired_filename : string) (i j : nat) :
  Path.str (MainWindow.suffixed target_dir desired_filename i)
  = Path.str (MainWindow.suffixed target_dir desired_filename j) ->
  i = j.
Proof.
  unfold MainWindow.suffixed, Path.joinpath.
  destruct (rsplit_dot desired_filename) as [stem [ext|]]; intros Heq;
    apply path_str_inj in Heq; apply append_inj_l in Heq; apply (append_inj_l "_") in Heq.
  - apply append_inj_r in Heq. apply str_of_nat_inj. exact Heq.
  - apply str_of_nat_inj. exact Heq.
Qed.

(** Among more candidates than there are files, one is free. *)
Lemma some_candidate_free (taken : string -> bool) (existing : list string)
    (target_dir desired_filename : string) :
  (forall p, taken p = true -> In p existing) ->
  exists k,
    1 <= k <= S (length existing)
    /\ taken (Path.str (MainWindow.suffixed target_dir desired_filename k)) = false.
Proof.
  intros Hfinite.
  set (names := map (fun k => Path.str (MainWindow.suffixed target_dir desired_filename k))
                  (seq 1 (S (length existing)))).
  destruct (forallb taken names) eqn:Hall.
  - exfalso.
    assert (Hnodup : NoDup names).
    { apply Injective_map_NoDup; [|apply seq_NoDup].
      intros i j. apply suffixed_inj. }
    assert (Hincl : incl names existing).
    { intros p Hp. apply Hfinite. rewrite forallb_forall in Hall. apply Hall, Hp. }
    pose proof (NoDup_incl_length Hnodup Hincl) as Hlen.
    unfold names in Hlen. rewrite length_map, length_seq in Hlen. lia.
  - apply Bool.not_true_iff_false in Hall. rewrite forallb_forall in Hall.
    destruct (existsb (fun p => negb (taken p)) names) eqn:Hex.
    + apply existsb_exists in Hex. destruct Hex as (p & Hp & Hfree).
      unfold names in Hp. apply in_map_iff in Hp. destruct Hp as (k & <- & Hk).
      apply in_seq in Hk. exists k. split; [lia|].
      destruct (taken _); [discriminate|reflexivity].
    + exfalso. apply Hall. intros p Hp.
      assert (Hnot : negb (taken p) = false).
      { destruct (negb (taken p)) eqn:Hn; [|reflexivity].
        assert (existsb (fun p => negb (taken p)) names = true)
          by (apply existsb_exists; eauto).
        congruence. }
      destruct (taken p); [reflexivity|discriminate].
Qed.

(** The least index from [a] on at which a decidable property fails. *)
Lemma least_failure (P : nat -> bool) (a : nat) :
  forall n,
    P (a + n) = false ->
    exists k, a <= k <= a + n /\ P k = false /\ forall j, a <= j < k -> P j = true.
Proof.
  intros n. revert a. induction n as [|n IH]; intros a Hfail.
  - exists a. rewrite Nat.add_0_r in Hfail. split; [lia|]. split; [exact Hfail|]. lia.
  - destruct (P a) eqn:Ha.
    + destruct (IH (S a)) as (k & Hk & Hfree & Hbelow).
      { replace (S a + n) with (a + S n) by lia. exact Hfail. }
      exists k. split; [lia|]. split; [exact Hfree|].
      intros j Hj. destruct (Nat.eq_dec j a) as [->|Hne]; [exact Ha|].
      apply Hbelow. lia.
    + exists a. split; [lia|]. split; [exact Ha|]. lia.
Qed.

Lemma absent_append (c : ascii) (a b : string) :
  absent c a -> absent c b -> absent c (a ++ b).
Proof.
  induction a as [|x a IH]; simpl; [auto|]. intros [Hne Ha] Hb. split; [exact Hne|auto].
Qed.

(** Every candidate keeps the extension of the desired name. *)
Lemma candidate_extension (target_dir desired : string) (k : nat) :
  snd (rsplit_dot (Path.name (candidate target_dir desired k))) = snd (rsplit_dot desired).
Proof.
  destruct k as [|k]; [reflexivity|].
  unfold candidate, MainWindow.suffixed.
  destruct (rsplit_dot desired) as [stem [ext|]] eqn:Hsplit;
    cbn [Path.name Path.joinpath snd].
  - destruct (rsplit_dot_some _ _ _ Hsplit) as [_ Habs].
    replace (stem ++ "_" ++ str_of_nat (S k) ++ "." ++ ext)
      with ((stem ++ "_" ++ str_of_nat (S k)) ++ "." ++ ext)
      by (rewrite !append_assoc; reflexivity).
    rewrite rsplit_dot_last by exact Habs. reflexivity.
  - assert (Hdesired : absent "."%char desired).
    { apply rsplit_dot_none. unfold rsplit_dot in *.
      destruct (rfind "." desired <? 0)%Z; [reflexivity|discriminate]. }
    assert (Hname : absent "."%char (desired ++ "_" ++ str_of_nat (S k))).
    { apply absent_append; [exact Hdesired|].
      split; [discriminate|]. apply digits_without_dot. }
    apply rsplit_dot_none in Hname. rewrite Hname. reflexivity.
Qed.

Section Rename.
Context {W : Type} `{Host W}.
Variable search_for_recordings : M W MainWindow.t unit.
Import MainWindow.

(** The loop stops at the first free candidate, as soon as it has fuel
    for the tests up to it. *)
Lemma free_target_first_free (target_dir desired : string) (st : state W MainWindow.t)
    (k : nat) :
  path_exists (Path.str (candidate target_dir desired k)) (world st) = false ->
  (forall j, j < k -> path_exists (Path.str (candidate target_dir desired j)) (world st) = true) ->
  forall fuel i,
    i <= k ->
    k - i < fuel ->
    free_target fuel target_dir desired (candidate target_dir desired i) (S i) st
    = (Ok (candidate target_dir desired k), st).
Proof.
  intros Hfree Htaken fuel. induction fuel as [|fuel IH]; intros i Hik Hfuel; [lia|].
  cbn [free_target]. unfold bind at 1. unfold ask at 1.
  destruct (Nat.eq_dec i k) as [->|Hne].
  - rewrite Hfree. reflexivity.
  - rewrite Htaken by lia.
    replace (S i + 1) with (S (S i)) by lia.
    change (suffixed target_dir desired (S i)) with (candidate target_dir desired (S i)).
    apply IH; lia.
Qed.

(** C8: when the file OBS reported exists, the loop of
    [rename_recording_file] settles on the first free name among the
    desired name and the names with the suffix _1, _2, ... put before
    the extension: every earlier candidate is taken, the chosen one is
    free, it lies in the directory of the reported file and ends with the
    extension of the desired name; a directory with finitely many entries
    always has such a name, found within as many tests as it has entries
    plus two.  The file is then renamed to it and the window records the
    new path. *)
Theorem rename_recording_file_collision
    (fuel : nat) (actual_path desired : string) (existing : list string)
    (st : state W MainWindow.t) :
  let source := Path.of_str actual_path in
  let target_dir := Path.parent source in
  path_exists (Path.str source) (world st) = true ->
  desired_filename (self st) = Some desired ->
  (forall p, path_exists p (world st) = true -> In p existing) ->
  length existing + 2 <= fuel ->
  exists k,
    k <= S (length existing)
    /\ let target := candidate target_dir desired k in
       (forall j,
           j < k ->
           path_exists (Path.str (candidate target_dir desired j)) (world st) = true)
       /\ path_exists (Path.str target) (world st) = false
       /\ free_target fuel target_dir desired (Path.joinpath target_dir desired) 1 st
          = (Ok target, st)
       /\ Path.parent target = target_dir
       /\ Path.name target
          = match k, rsplit_dot desired with
            | 0, _ => desired
            | S _, (stem, Some ext) => stem ++ "_" ++ str_of_nat k ++ "." ++ ext
            | S _, (_, None) => desired ++ "_" ++ str_of_nat k
            end
       /\ snd (rsplit_dot (Path.name target)) = snd (rsplit_dot desired)
       /\ forall w',
            path_rename (Path.str source) (Path.str target) (world st) = (Reply tt, w') ->
            exists st',
              rename_recording_file search_for_recordings fuel actual_path st = (Ok tt, st')
              /\ world st' = w'
              /\ current_recording_path (self st') = Some target
              /\ selected_file (self st') = Some target.
Proof.
  intros source target_dir Hsource Hdesired Hfinite Hfuel.
  destruct (some_candidate_free (fun p => path_exists p (world st)) existing
              target_dir desired Hfinite) as (k0 & Hk0 & Hfree0).
  destruct (least_failure
              (fun k => path_exists (Path.str (candidate target_dir desired k)) (world st))
              0 k0) as (k & Hk & Hfree & Hbelow).
  { destruct k0 as [|k0]; [lia|]. exact Hfree0. }
  exists k. split; [lia|]. cbv zeta.
  assert (Hloop :
    free_target fuel target_dir desired (Path.joinpath target_dir desired) 1 st
    = (Ok (candidate target_dir desired k), st)).
  { change (Path.joinpath target_dir desired) with (candidate target_dir desired 0).
    apply (free_target_first_free target_dir desired st k Hfree); [|lia|lia].
    intros j Hj. apply Hbelow. lia. }
  split; [intros j Hj; apply Hbelow; lia|].
  split; [exact Hfree|]. split; [exact Hloop|].
  split.
  { destruct k; [reflexivity|]. unfold candidate, suffixed.
    destruct (rsplit_dot desired) as [stem [ext|]]; reflexivity. }
  split.
  { destruct k; [reflexivity|]. unfold candidate, suffixed.
    destruct (rsplit_dot desired) as [stem [ext|]]; reflexivity. }
  split; [apply candidate_extension|].
  intros w' Hrename.
  unfold rename_recording_file. fold source. fold target_dir.
  unfold try_except. unfold bind at 1. unfold ask at 1. rewrite Hsource. cbn [negb].
  unfold bind at 1. unfold get_self at 1. rewrite Hdesired.
  unfold bind at 1. rewrite Hloop.
  unfold bind at 1. unfold host at 1. rewrite Hrename. cbn [outcome_of_reply].
  unfold show_info. unfold_monad. simpl.
  destruct (is_drive_configured (self st)); simpl; eexists; repeat split.
Qed.

End Rename.

Lemma sim_exists_finite (w : Sim.world) (p : string) :
  Sim.sim_exists p w = true -> In p (map fst (Sim.files w) ++ Sim.dirs w)%list.
Proof.
  unfold Sim.sim_exists. intros Hexists. apply in_or_app.
  apply Bool.orb_true_iff in Hexists. destruct Hexists as [Hfile|Hdir].
  - left. apply existsb_exists in Hfile. destruct Hfile as (f & Hf & Heq).
    apply String.eqb_eq in Heq. subst p. apply in_map. exact Hf.
  - right. apply existsb_exists in Hdir. destruct Hdir as (d & Hd & Heq).
    apply String.eqb_eq in Heq. subst p. exact Hd.
Qed.

(** The desired name and the name with _1 are taken: the recording is
    renamed to the name with _2, in the directory it was written to. *)
Lemma rename_recording_file_collision_witness :
  exists st',
    MainWindow.rename_recording_file (ret tt) 10 "/videos/2024-01-01 10-00-00.mp4"
      sample_window
    = (Ok tt, st')
    /\ MainWindow.current_recording_path (self st')
       = Some (Path.mk "/videos" "11th_Thermodynamics_Main_01-01-2024_2.mp4")
    /\ Sim.sim_exists "/videos/11th_Thermodynamics_Main_01-01-2024_2.mp4" (world st') = true
    /\ Sim.sim_exists "/videos/2024-01-01 10-00-00.mp4" (world st') = false.
Proof.
  destruct (rename_recording_file_collision (ret tt) 10
              "/videos/2024-01-01 10-00-00.mp4" "11th_Thermodynamics_Main_01-01-2024.mp4"
              (map fst (Sim.files crowded_world) ++ Sim.dirs crowded_world)%list
              sample_window)
    as (k & Hk & Hbelow & Hfree & Hloop & Hparent & Hname & Hext & Hrename).
  - reflexivity.
  - reflexivity.
  - intros p. apply sim_exists_finite.
  - simpl. lia.
  - vm_compute in Hloop. injection Hloop as Htarget.
    change (Path.mk "/videos" "11th_Thermodynamics_Main_01-01-2024_2.mp4"
            = candidate "/videos" "11th_Thermodynamics_Main_01-01-2024.mp4" k) in Htarget.
    change (Path.parent (Path.of_str "/videos/2024-01-01 10-00-00.mp4")) with "/videos"
      in Hrename.
    rewrite <- Htarget in Hrename.
    destruct (Hrename
                (snd (Sim.sim_rename "/videos/2024-01-01 10-00-00.mp4"
                        "/videos/11th_Thermodynamics_Main_01-01-2024_2.mp4" crowded_world)))
      as (st' & Hrun & Hworld & Hcurrent & _).
    + vm_compute. reflexivity.
    + exists st'. split; [exact Hrun|]. split; [exact Hcurrent|].
      rewrite Hworld. split; vm_compute; reflexivity.
Defined.

(** * Further properties of the embedded code *)

(** ** Rules for [adds_only] *)

Section AddsOnly.
Context {W O : Type}.
Variable p : event -> bool.

Lemma adds_nothing (st : state W O) :
  exists new, trace st = (trace st ++ new)%list /\ forallb p new = true.
Proof. exists []. rewrite app_nil_r. split; reflexivity. Qed.

Lemma adds_ret {A} (a : A) : adds_only p (ret a : M W O A).
Proof. intros st r st' Hrun. inversion Hrun; subst. apply adds_nothing. Qed.

Lemma adds_raise {A} (e : exn) : adds_only p (raise e : M W O A).
Proof. intros st r st' Hrun. inversion Hrun; subst. apply adds_nothing. Qed.

Lemma adds_diverge {A} : adds_only p (diverge : M W O A).
Proof. intros st r st' Hrun. inversion Hrun; subst. apply adds_nothing. Qed.

Lemma adds_ask {A} (f : W -> A) : adds_only p (ask f : M W O A).
Proof. intros st r st' Hrun. inversion Hrun; subst. apply adds_nothing. Qed.

Lemma adds_get_self : adds_only p (get_self : M W O O).
Proof. intros st r st' Hrun. inversion Hrun; subst. apply adds_nothing. Qed.

Lemma adds_set_self (f : O -> O) : adds_only p (set_self f : M W O unit).
Proof.
  intros st r st' Hrun. inversion Hrun; subst. simpl.
  exists []. rewrite app_nil_r. split; reflexivity.
Qed.

Lemma adds_host {A} (op : W -> reply A * W) : adds_only p (host op : M W O A).
Proof.
  intros st r st' Hrun. unfold host in Hrun.
  destruct (op (world st)) as [a w]. inversion Hrun; subst. simpl.
  exists []. rewrite app_nil_r. split; reflexivity.
Qed.

Lemma adds_remote {A} (ev : event) (op : W -> reply A * W) :
  p ev = true -> adds_only p (remote ev op : M W O A).
Proof.
  intros Hev st r st' Hrun. unfold remote in Hrun.
  destruct (op (world st)) as [a w]. inversion Hrun; subst. simpl.
  exists [ev]. split; [reflexivity|]. simpl. rewrite Hev. reflexivity.
Qed.

Lemma adds_bind {A B} (m : M W O A) (k : A -> M W O B) :
  adds_only p m -> (forall a, adds_only p (k a)) -> adds_only p (bind m k).
Proof.
  intros Hm Hk st r st' Hrun. unfold bind in Hrun.
  destruct (m st) as [[a|e|] st1] eqn:Hfirst;
    destruct (Hm _ _ _ Hfirst) as (new1 & Htrace1 & Hp1).
  - destruct (Hk a _ _ _ Hrun) as (new2 & Htrace2 & Hp2).
    exists (new1 ++ new2)%list. rewrite Htrace2, Htrace1, app_assoc.
    split; [reflexivity|]. rewrite forallb_app, Hp1, Hp2. reflexivity.
  - inversion Hrun; subst. exists new1. split; assumption.
  - inversion Hrun; subst. exists new1. split; assumption.
Qed.

Lemma adds_try_except {A} (body : M W O A) (handler : exn -> M W O A) :
  adds_only p body -> (forall e, adds_only p (handler e)) ->
  adds_only p (try_except body handler).
Proof.
  intros Hb Hh st r st' Hrun. unfold try_except in Hrun.
  destruct (body st) as [[a|e|] st1] eqn:Hfirst;
    destruct (Hb _ _ _ Hfirst) as (new1 & Htrace1 & Hp1).
  - inversion Hrun; subst. exists new1. split; assumption.
  - destruct (Hh e _ _ _ Hrun) as (new2 & Htrace2 & Hp2).
    exists (new1 ++ new2)%list. rewrite Htrace2, Htrace1, app_assoc.
    split; [reflexivity|]. rewrite forallb_app, Hp1, Hp2. reflexivity.
  - inversion Hrun; subst. exists new1. split; assumption.
Qed.

Lemma adds_for_each {A B} (l : list A) (body : B -> A -> M W O B) :
  (forall acc x, adds_only p (body acc x)) -> forall acc, adds_only p (for_each l acc body).
Proof.
  intros Hbody. induction l as [|x l IH]; intros acc; simpl.
  - apply adds_ret.
  - apply adds_bind; [apply Hbody | intros a; apply IH].
Qed.

End AddsOnly.

Lemma adds_weaken {W O A} (p q : event -> bool) (m : M W O A) :
  (forall ev, p ev = true -> q ev = true) -> adds_only p m -> adds_only q m.
Proof.
  intros Hpq Hm st r st' Hrun. destruct (Hm _ _ _ Hrun) as (new & Htrace & Hp).
  exists new. split; [exact Htrace|].
  rewrite forallb_forall in *. intros ev Hin. apply Hpq, Hp, Hin.
Qed.

(** A computation that adds no event leaves the trace as it is. *)
Lemma adds_no_event {W O A} (m : M W O A) (st st' : state W O) (r : outcome A) :
  adds_only no_event m -> m st = (r, st') -> trace st' = trace st.
Proof.
  intros Hm Hrun. destruct (Hm _ _ _ Hrun) as ([|ev new] & Htrace & Hp).
  - rewrite Htrace. apply app_nil_r.
  - discriminate.
Qed.

Create HintDb adds_db.

Ltac adds_step :=
  first
    [ apply adds_ret | apply adds_raise | apply adds_diverge | apply adds_ask
    | apply adds_get_self | apply adds_set_self | apply adds_host
    | apply adds_bind | apply adds_try_except | apply adds_for_each
    | solve [auto with adds_db]
    | apply adds_remote; reflexivity ].

Ltac prove_adds := repeat (intros; first [adds_step | split_scrutinee]).

(** ** The recording controller: what [start_recording] sends *)

Section ControllerSends.
Context {W : Type} `{ObsClient W} `{DriveService W} `{Host W}.
Import OBSManager.

Lemma adds_client_call (p : event -> bool) {A} (ev : event) (op : W -> reply A * W) :
  p ev = true -> adds_only p (client_call ev op).
Proof. intros Hev. unfold client_call. prove_adds. apply adds_remote. exact Hev. Qed.

Lemma returns_prechecks (output_path : Path.t) :
  returns (ensure_directory output_path) /\ returns (check_writable output_path).
Proof. unfold ensure_directory, check_writable. split; prove_returns. Qed.

Lemma offline_prechecks (output_path : Path.t) :
  adds_only no_event (ensure_directory output_path)
  /\ adds_only no_event (check_writable output_path).
Proof. unfold ensure_directory, check_writable. split; prove_adds. Qed.

(** The prechecks write to the diagnostics only. *)
Lemma prechecks_keep (I : OBSManager.t -> Prop) (output_path : Path.t) :
  (forall d s, I s -> I (set_debug_info d s)) ->
  preserves I (ensure_directory output_path)
  /\ preserves I (check_writable output_path).
Proof.
  intros HI. unfold ensure_directory, check_writable.
  split; prove_preserves; intros s Hs; apply HI; exact Hs.
Qed.

(** An early answer of a precheck is [False]. *)
Lemma prechecks_refuse (output_path : Path.t) (st st' : state W OBSManager.t) (b : bool) :
  (ensure_directory output_path st = (Ok (Some b), st') -> b = false)
  /\ (check_writable output_path st = (Ok (Some b), st') -> b = false).
Proof.
  unfold ensure_directory, check_writable. unfold_monad. split.
  - destruct (path_exists (Path.parent output_path) (world st)); simpl; [congruence|].
    destruct (path_mkdir (Path.parent output_path) (world st)) as [[[]|e] w]; simpl; congruence.
  - destruct (path_write_text _ _ (world st)) as [[[]|e] w]; simpl; [|congruence].
    destruct (path_unlink _ w) as [[[]|e] w']; simpl; congruence.
Qed.

Lemma stop_if_already_recording_asks (st st' : state W OBSManager.t) (r : outcome unit) :
  client (self st) = true ->
  stop_if_already_recording st = (r, st') ->
  client (self st') = true
  /\ exists more, trace st' = (trace st ++ EvGetRecordStatus :: more)%list.
Proof.
  intros Hclient. unfold stop_if_already_recording, client_call. unfold_monad.
  rewrite Hclient. simpl.
  destruct (get_record_status (world st)) as [[[[[|]|]]|e] w]; simpl.
  - rewrite Hclient. simpl.
    destruct (stop_record w) as [[result|e] w']; simpl;
      intros Hrun; inversion Hrun; subst; simpl; (split; [exact Hclient|]);
      exists [EvStopRecord]; rewrite <- app_assoc; reflexivity.
  - intros Hrun; inversion Hrun; subst; simpl. split; [exact Hclient|]. exists []. reflexivity.
  - intros Hrun; inversion Hrun; subst; simpl. split; [exact Hclient|]. exists []. reflexivity.
  - intros Hrun; inversion Hrun; subst; simpl. split; [exact Hclient|]. exists []. reflexivity.
Qed.

Lemma try_start_record_sends (st st' : state W OBSManager.t) (r : outcome (option bool)) :
  client (self st) = true ->
  try_start_record st = (r, st') ->
  trace st' = (trace st ++ [EvStartRecord])%list.
Proof.
  intros Hclient. unfold try_start_record, client_call. unfold_monad.
  rewrite Hclient. simpl.
  destruct (start_record (world st)) as [[[]|e] w]; simpl;
    intros Hrun; inversion Hrun; subst; reflexivity.
Qed.

Lemma adds_verify_started : adds_only any_event verify_started.
Proof.
  unfold verify_started, _check_recording_status. prove_adds.
Qed.

Lemma adds_try_start_record : adds_only any_event try_start_record.
Proof. unfold try_start_record. prove_adds. Qed.

Lemma adds_methods (output_path : Path.t) :
  adds_only any_event (_try_recording_method_1 output_path)
  /\ adds_only any_event (_try_recording_method_2 output_path)
  /\ adds_only any_event (_try_recording_method_3 output_path).
Proof.
  unfold _try_recording_method_1, _try_recording_method_2, _try_recording_method_3.
  split; [|split]; prove_adds.
Qed.

(** The first method sends [StartRecord] whatever OBS answers to the
    request for the directory. *)
Lemma method_1_sends_start (output_path : Path.t) (st st' : state W OBSManager.t)
    (r : outcome bool) :
  client (self st) = true ->
  _try_recording_method_1 output_path st = (r, st') ->
  exists new, trace st' = (trace st ++ new)%list /\ In EvStartRecord new.
Proof.
  intros Hclient. unfold _try_recording_method_1.
  unfold bind at 1. unfold set_self at 1. unfold try_except at 1. unfold bind at 1.
  match goal with
  | |- context [match ?block ?s with _ => _ end] =>
      assert (Hblock : forall r1 s1, block s = (r1, s1) ->
                (exists u, r1 = Ok u) /\ client (self s1) = true
                /\ exists ev, trace s1 = (trace st ++ [ev])%list);
      [|destruct (block s) as [r1 s1] eqn:Hdir;
        destruct (Hblock _ _ eq_refl) as ((u & ->) & Hclient1 & ev & Htrace1); clear Hblock]
  end.
  { intros r1 s1. unfold client_call. unfold_monad. simpl. rewrite Hclient. simpl.
    destruct (set_record_directory (Path.parent output_path) (world st)) as [[[]|e] w];
      simpl; intros Hrun; inversion Hrun; subst; simpl;
      (split; [eexists; reflexivity|]); (split; [exact Hclient|]);
      eexists; reflexivity. }
  unfold bind at 1.
  destruct (try_start_record s1) as [[[b|]|e|] s2] eqn:Hstart;
    pose proof (try_start_record_sends _ _ _ Hclient1 Hstart) as Htrace2.
  - intros Hrun. inversion Hrun; subst.
    exists [ev; EvStartRecord]. rewrite Htrace2, Htrace1, <- app_assoc.
    split; [reflexivity|]. simpl. auto.
  - intros Hrun.
    destruct (verify_started s2) as [[b|e|] s3] eqn:Hverify;
      destruct (adds_verify_started _ _ _ Hverify) as (more & Htrace3 & _).
    + inversion Hrun; subst.
      exists ([ev; EvStartRecord] ++ more)%list.
      rewrite Htrace3, Htrace2, Htrace1, <- !app_assoc.
      split; [reflexivity|]. simpl. auto.
    + unfold_monad. inversion Hrun; subst. simpl.
      exists ([ev; EvStartRecord] ++ more)%list.
      rewrite Htrace3, Htrace2, Htrace1, <- !app_assoc.
      split; [reflexivity|]. simpl. auto.
    + inversion Hrun; subst.
      exists ([ev; EvStartRecord] ++ more)%list.
      rewrite Htrace3, Htrace2, Htrace1, <- !app_assoc.
      split; [reflexivity|]. simpl. auto.
  - unfold_monad. intros Hrun. inversion Hrun; subst. simpl.
    exists [ev; EvStartRecord]. rewrite Htrace2, Htrace1, <- app_assoc.
    split; [reflexivity|]. simpl. auto.
  - intros Hrun. inversion Hrun; subst.
    exists [ev; EvStartRecord]. rewrite Htrace2, Htrace1, <- app_assoc.
    split; [reflexivity|]. simpl. auto.
Qed.

(** Once the prechecks have passed, [start_recording] answers [True]
    with the recording flag set; with a client, the status was asked for
    first and [StartRecord] was sent. *)
Lemma start_methods_run (output_path : Path.t) (st : state W OBSManager.t) :
  exists st',
    (set_self (set_recording_filename (Some (Path.stem output_path))) ;;;
     set_self (set_recording_path (Some (Path.parent output_path))) ;;;
     stop_if_already_recording ;;;
     success <- _try_recording_method_1 output_path ;;
     if success then ret true
     else
       success <- _try_recording_method_2 output_path ;;
       if success then ret true
       else
         success <- _try_recording_method_3 output_path ;;
         if success then ret true
         else
           set_self (set_is_recording true) ;;;
           ret true) st
    = (Ok true, st')
    /\ is_recording (self st') = true
    /\ (client (self st) = true ->
        exists rest,
          trace st' = (trace st ++ EvGetRecordStatus :: rest)%list /\ In EvStartRecord rest).
Proof.
  unfold bind at 1. unfold set_self at 1. unfold bind at 1. unfold set_self at 1.
  unfold bind at 1. cbn [self world trace].
  match goal with
  | |- context [stop_if_already_recording ?s] =>
      destruct (total_stop_if_already_recording s) as ([] & st3 & Hstop);
      assert (Hasks : client (self st) = true ->
                client (self st3) = true
                /\ exists more, trace st3 = (trace st ++ EvGetRecordStatus :: more)%list)
        by (intros Hclient; apply (stop_if_already_recording_asks s _ _ Hclient Hstop))
  end.
  rewrite Hstop. unfold bind at 1.
  destruct (total__try_recording_method_1 output_path st3) as (b1 & s1 & Hm1).
  assert (Hsent : client (self st) = true ->
            exists rest,
              trace s1 = (trace st ++ EvGetRecordStatus :: rest)%list /\ In EvStartRecord rest).
  { intros Hclient. destruct (Hasks Hclient) as (Hclient3 & more & Htrace3).
    destruct (method_1_sends_start _ _ _ _ Hclient3 Hm1) as (new & Htrace1 & Hin).
    exists (more ++ new)%list. rewrite Htrace1, Htrace3, <- app_assoc.
    split; [reflexivity|]. apply in_or_app. right. exact Hin. }
  assert (Hlater : forall (s' : state W OBSManager.t) more,
            trace s' = (trace s1 ++ more)%list ->
            client (self st) = true ->
            exists rest,
              trace s' = (trace st ++ EvGetRecordStatus :: rest)%list /\ In EvStartRecord rest).
  { intros s' more Htrace Hclient. destruct (Hsent Hclient) as (rest & Htrace1 & Hin).
    exists (rest ++ more)%list. rewrite Htrace, Htrace1, <- app_assoc.
    split; [reflexivity|]. apply in_or_app. left. exact Hin. }
  rewrite Hm1.
  destruct (adds_methods output_path) as (_ & Hadds2 & Hadds3).
  destruct b1.
  - exists s1. split; [reflexivity|].
    split; [apply (_try_recording_method_1_flags _ _ _ Hm1)|exact Hsent].
  - unfold bind at 1.
    destruct (total__try_recording_method_2 output_path s1) as (b2 & s2 & Hm2).
    destruct (Hadds2 _ _ _ Hm2) as (more2 & Htrace2 & _).
    rewrite Hm2. destruct b2.
    + exists s2. split; [reflexivity|].
      split; [apply (_try_recording_method_2_flags _ _ _ Hm2)|].
      apply (Hlater _ _ Htrace2).
    + unfold bind at 1.
      destruct (total__try_recording_method_3 output_path s2) as (b3 & s3 & Hm3).
      destruct (Hadds3 _ _ _ Hm3) as (more3 & Htrace3 & _).
      rewrite Hm3. destruct b3.
      * exists s3. split; [reflexivity|].
        split; [apply (_try_recording_method_3_flags _ _ _ Hm3)|].
        apply (Hlater _ (more2 ++ more3)%list).
        rewrite Htrace3, Htrace2, app_assoc. reflexivity.
      * eexists. split; [reflexivity|]. split; [reflexivity|]. simpl.
        apply (Hlater s3 (more2 ++ more3)%list).
        rewrite Htrace3, Htrace2, app_assoc. reflexivity.
Qed.

(** What [start_recording] comes to, through its prechecks: the early
    answers are [False] and were given offline; otherwise the methods
    ran. *)
Lemma start_recording_cases (output_path : Path.t) (st : state W OBSManager.t) :
  exists b st',
    start_recording output_path st = (Ok b, st')
    /\ if b then
         is_recording (self st') = true
         /\ (client (self st) = true ->
             exists rest,
               trace st' = (trace st ++ EvGetRecordStatus :: rest)%list
               /\ In EvStartRecord rest)
       else
         trace st' = trace st
         /\ is_recording (self st') = is_recording (self st)
         /\ client (self st') = client (self st)
         /\ is_connected (self st') = is_connected (self st).
Proof.
  unfold start_recording. unfold bind at 1. unfold get_self at 1.
  destruct (is_connected (self st)) eqn:Hconnected; cbn [negb].
  2:{ exists false, st. split; [reflexivity|].
      repeat split; first [reflexivity | exact Hconnected]. }
  unfold bind at 1. unfold set_self at 1. unfold bind at 1. unfold set_self at 1.
  cbn [self world trace].
  destruct (returns_prechecks output_path) as (Hret1 & Hret2).
  destruct (offline_prechecks output_path) as (Hoff1 & Hoff2).
  assert (Hkeep : forall I : OBSManager.t -> Prop,
            (forall d s, I s -> I (set_debug_info d s)) ->
            preserves I (ensure_directory output_path)
            /\ preserves I (check_writable output_path))
    by (intros I HI; apply prechecks_keep; exact HI).
  destruct (Hkeep (fun s => is_recording s = is_recording (self st)
                            /\ client s = client (self st)
                            /\ is_connected s = true))
    as (Hkeep1 & Hkeep2); [intros d s Hs; exact Hs|].
  unfold try_except at 1. unfold bind at 1.
  match goal with
  | |- context [ensure_directory output_path ?s] => set (st0 := s)
  end.
  assert (HI0 : is_recording (self st0) = is_recording (self st)
                /\ client (self st0) = client (self st)
                /\ is_connected (self st0) = true)
    by (split; [reflexivity|split; [reflexivity|exact Hconnected]]).
  specialize (Hret1 st0).
  destruct (ensure_directory output_path st0) as [[[b|]|e|] st1] eqn:Hdir;
    simpl in Hret1; try congruence;
    pose proof (adds_no_event _ _ _ _ Hoff1 Hdir) as Htrace1;
    destruct (Hkeep1 _ _ _ Hdir HI0) as (Hrec1 & Hcl1 & Hcon1);
    change (trace st0) with (trace st) in Htrace1.
  - destruct (prechecks_refuse output_path st0 st1 b) as (Hb & _).
    rewrite (Hb Hdir). exists false, st1. split; [reflexivity|].
    repeat split; assumption.
  - unfold bind at 1.
    specialize (Hret2 st1).
    destruct (check_writable output_path st1) as [[[b|]|e|] st2] eqn:Hwrite;
      simpl in Hret2; try congruence;
      pose proof (adds_no_event _ _ _ _ Hoff2 Hwrite) as Htrace2;
      destruct (Hkeep2 _ _ _ Hwrite (conj Hrec1 (conj Hcl1 Hcon1))) as (Hrec2 & Hcl2 & Hcon2).
    + destruct (prechecks_refuse output_path st1 st2 b) as (_ & Hb).
      rewrite (Hb Hwrite). exists false, st2. split; [reflexivity|].
      repeat split; congruence.
    + destruct (start_methods_run output_path st2) as (st' & Hrun & Hflag & Hsent).
      rewrite Hrun. exists true, st'. split; [reflexivity|].
      split; [exact Hflag|]. intros Hclient.
      rewrite Htrace2, Htrace1 in Hsent. apply Hsent. congruence.
    + unfold_monad. eexists false, _. split; [reflexivity|]. simpl.
      repeat split; congruence.
  - unfold_monad. eexists false, _. split; [reflexivity|]. simpl.
    repeat split; congruence.
Qed.

(** X1: [start_recording] always comes back with an answer, and it
    answers [False] only before anything was sent to OBS: the trace of
    requests and the recording flag are then as they were.  Once a
    request has gone out the answer is [True]. *)
Theorem start_recording_refusal_is_silent
    (output_path : Path.t) (st : state W OBSManager.t) :
  exists b st',
    start_recording output_path st = (Ok b, st')
    /\ (b = false ->
        trace st' = trace st /\ is_recording (self st') = is_recording (self st)).
Proof.
  destruct (start_recording_cases output_path st) as (b & st' & Hrun & Hcases).
  exists b, st'. split; [exact Hrun|]. intros ->.
  destruct Hcases as (Htrace & Hflag & _). split; assumption.
Qed.

(** X2: on a controller that holds a client whenever it is connected, an
    answer [True] of [start_recording] comes with the recording flag set,
    after the recording status was asked for and at least one
    [StartRecord] request was sent. *)
Theorem start_recording_success_follows_request
    (output_path : Path.t) (st st' : state W OBSManager.t) :
  connected_has_client (self st) ->
  start_recording output_path st = (Ok true, st') ->
  is_recording (self st') = true
  /\ exists rest,
       trace st' = (trace st ++ EvGetRecordStatus :: rest)%list /\ In EvStartRecord rest.
Proof.
  intros Hinv Hrun.
  destruct (start_recording_cases output_path st) as (b & st2 & Hrun2 & Hcases).
  rewrite Hrun in Hrun2. inversion Hrun2; subst b st2. clear Hrun2.
  destruct Hcases as (Hflag & Hsent). split; [exact Hflag|].
  apply Hsent, Hinv.
  unfold start_recording in Hrun. unfold bind at 1 in Hrun. unfold get_self at 1 in Hrun.
  destruct (is_connected (self st)); [reflexivity|]. discriminate.
Qed.

End ControllerSends.

(** The idle controller starts a recording on the simulated OBS. *)
Lemma start_recording_success_follows_request_witness :
  exists st',
    OBSManager.start_recording sample_output_path sample_obs = (Ok true, st')
    /\ OBSManager.is_recording (self st') = true
    /\ exists rest,
         trace st' = (trace sample_obs ++ EvGetRecordStatus :: rest)%list
         /\ In EvStartRecord rest.
Proof.
  eexists. split; [vm_compute; reflexivity|].
  apply (start_recording_success_follows_request sample_output_path sample_obs).
  - intros _. reflexivity.
  - vm_compute. reflexivity.
Defined.

(** ** The recording controller: what [stop_recording] sends and keeps *)

Section StopRequests.
Context {W : Type} `{ObsClient W} `{DriveService W} `{Host W}.
Import OBSManager.

(** The candidates of the search by name, in the order they are tried. *)
Lemma find_recording_file_first (w : W) (recording_path recording_filename : string)
    (exts : list string) :
  match find_recording_file w recording_path recording_filename exts with
  | Some found =>
      exists before ext after,
        exts = (before ++ ext :: after)%list
        /\ found = os_path_join os_sep recording_path (recording_filename ++ ext)
        /\ path_exists found w = true
        /\ Forall
             (fun e =>
                path_exists (os_path_join os_sep recording_path (recording_filename ++ e)) w
                = false)
             before
  | None =>
      Forall
        (fun e =>
           path_exists (os_path_join os_sep recording_path (recording_filename ++ e)) w = false)
        exts
  end.
Proof.
  induction exts as [|ext exts IH]; simpl; [constructor|].
  destruct (path_exists (os_path_join os_sep recording_path (recording_filename ++ ext)) w)
    eqn:Hfound.
  - exists [], ext, exts. repeat split; [exact Hfound|constructor].
  - destruct (find_recording_file w recording_path recording_filename exts) as [found|].
    + destruct IH as (before & ext' & after & -> & Hpath & Hexists & Habsent).
      exists (ext :: before), ext', after. repeat split; try assumption.
      constructor; assumption.
    + constructor; assumption.
Qed.

Lemma adds__check_recording_output_exists :
  adds_only no_event _check_recording_output_exists.
Proof. unfold _check_recording_output_exists. prove_adds. Qed.

Lemma total__check_recording_output_exists : total _check_recording_output_exists.
Proof.
  unfold _check_recording_output_exists. apply total_try_except.
  - prove_returns.
  - intros e. apply total_ret.
Qed.

(** The status queries around the stop request: each is sent, and its
    failure is swallowed. *)
Lemma status_before_is_sent (st : state W OBSManager.t) :
  client (self st) = true ->
  exists st',
    try_except
      (status <- client_call EvGetRecordStatus get_record_status ;;
       match output_active status with
       | Some false => set_self (set_is_recording false)
       | _ => ret tt
       end)
      (fun e => ret tt) st = (Ok tt, st')
    /\ trace st' = (trace st ++ [EvGetRecordStatus])%list
    /\ world st' = snd (get_record_status (world st))
    /\ client (self st') = true
    /\ last_recording_path (self st') = last_recording_path (self st)
    /\ recording_path (self st') = recording_path (self st)
    /\ recording_filename (self st') = recording_filename (self st).
Proof.
  intros Hclient. unfold client_call. unfold_monad. rewrite Hclient. simpl.
  destruct (get_record_status (world st)) as [[[[[|]|]]|e] w]; simpl;
    eexists; (split; [reflexivity|]); simpl; repeat split; assumption.
Qed.

Lemma status_after_is_sent (st : state W OBSManager.t) :
  client (self st) = true ->
  exists st',
    try_except
      (status <- client_call EvGetRecordStatus get_record_status ;;
       ret tt)
      (fun e => ret tt) st = (Ok tt, st')
    /\ trace st' = (trace st ++ [EvGetRecordStatus])%list
    /\ world st' = snd (get_record_status (world st))
    /\ self st' = self st.
Proof.
  intros Hclient. unfold client_call. unfold_monad. rewrite Hclient. simpl.
  destruct (get_record_status (world st)) as [[status|e] w]; simpl;
    eexists; (split; [reflexivity|]); simpl; repeat split.
Qed.

Lemma stop_request_is_sent (st : state W OBSManager.t) :
  client (self st) = true ->
  exists output st',
    try_except
      (result <- client_call EvStopRecord stop_record ;;
       match output_path result with
       | Some p => set_self (set_last_recording_path (Some p))
       | None => ret tt
       end ;;;
       set_self (set_is_recording false) ;;;
       ret (output_path result))
      (fun e => set_self (set_is_recording false) ;;; ret None) st = (Ok output, st')
    /\ trace st' = (trace st ++ [EvStopRecord])%list
    /\ world st' = snd (stop_record (world st))
    /\ client (self st') = true
    /\ is_recording (self st') = false
    /\ recording_path (self st') = recording_path (self st)
    /\ recording_filename (self st') = recording_filename (self st)
    /\ match fst (stop_record (world st)) with
       | Reply result =>
           output = output_path result
           /\ match output_path result with
              | Some p => last_recording_path (self st') = Some p
              | None => last_recording_path (self st') = last_recording_path (self st)
              end
       | Fault _ =>
           output = None /\ last_recording_path (self st') = last_recording_path (self st)
       end.
Proof.
  intros Hclient. unfold client_call. unfold_monad. rewrite Hclient. simpl.
  destruct (stop_record (world st)) as [[[[p|]]|e] w]; simpl;
    eexists _, _; (split; [reflexivity|]); simpl; repeat split; assumption.
Qed.

(** X3: on a connected controller that holds a client, [stop_recording]
    comes back after exactly three requests, whatever OBS answers to
    each: the recording status, the stop request, and the status again.
    The stop request is sent even when OBS has just said that it is not
    recording. *)
Theorem stop_recording_sends_three_requests (st : state W OBSManager.t) :
  is_connected (self st) = true ->
  client (self st) = true ->
  exists b st',
    stop_recording st = (Ok b, st')
    /\ trace st' = (trace st ++ [EvGetRecordStatus; EvStopRecord; EvGetRecordStatus])%list.
Proof.
  intros Hconnected Hclient. unfold stop_recording.
  unfold bind at 1. unfold get_self at 1. rewrite Hconnected. cbn [negb].
  unfold try_except at 1. unfold bind at 1.
  destruct (status_before_is_sent st Hclient) as (st1 & -> & Htrace1 & _ & Hclient1 & _).
  unfold bind at 1.
  destruct (stop_request_is_sent st1 Hclient1)
    as (output & st2 & -> & Htrace2 & _ & Hclient2 & _).
  unfold bind at 1.
  destruct (status_after_is_sent st2 Hclient2) as (st3 & -> & Htrace3 & _ & _).
  assert (Htrace : trace st3
                   = (trace st ++ [EvGetRecordStatus; EvStopRecord; EvGetRecordStatus])%list).
  { rewrite Htrace3, Htrace2, Htrace1, <- !app_assoc. reflexivity. }
  unfold bind at 1.
  match goal with
  | |- context [match ?tail st3 with _ => _ end] =>
      assert (Hreturns : returns tail) by
        (prove_returns; apply returns__check_recording_output_exists);
      assert (Hadds : adds_only no_event tail) by
        (prove_adds; apply adds__check_recording_output_exists);
      specialize (Hreturns st3);
      pose proof (adds_no_event tail st3) as Hquiet;
      destruct (tail st3) as [[[]|e|] st4] eqn:Htail
  end; simpl in Hreturns; try congruence; specialize (Hquiet _ _ Hadds eq_refl).
  - eexists _, _. split; [reflexivity|]. simpl. rewrite Hquiet. exact Htrace.
  - unfold_monad. eexists _, _. split; [reflexivity|]. simpl. rewrite Hquiet. exact Htrace.
Qed.

(** X4: when OBS answers the stop request with the path of the file it
    wrote, and that file is there, [stop_recording] leaves that very
    path in [last_recording_path], for the upload that follows, and the
    recording flag cleared; a search by file name does not replace
    it. *)
Theorem stop_recording_keeps_reported_path
    (st : state W OBSManager.t) (p : string) (w2 : W) :
  is_connected (self st) = true ->
  client (self st) = true ->
  stop_record (snd (get_record_status (world st))) = (Reply (mkStopResult (Some p)), w2) ->
  p <> "" ->
  path_exists p (snd (get_record_status w2)) = true ->
  exists b st',
    stop_recording st = (Ok b, st')
    /\ last_recording_path (self st') = Some p
    /\ is_recording (self st') = false.
Proof.
  intros Hconnected Hclient Hstop Hp Hexists. unfold stop_recording.
  unfold bind at 1. unfold get_self at 1. rewrite Hconnected. cbn [negb].
  unfold try_except at 1. unfold bind at 1.
  destruct (status_before_is_sent st Hclient) as (st1 & -> & _ & Hworld1 & Hclient1 & _).
  unfold bind at 1.
  destruct (stop_request_is_sent st1 Hclient1)
    as (output & st2 & -> & _ & Hworld2 & Hclient2 & Hflag2 & _ & _ & Hreply).
  rewrite Hworld1, Hstop in Hreply, Hworld2. simpl in Hreply, Hworld2.
  destruct Hreply as (-> & Hlast2).
  unfold bind at 1.
  destruct (status_after_is_sent st2 Hclient2) as (st3 & -> & _ & Hworld3 & Hself3).
  rewrite Hworld2 in Hworld3.
  assert (Htruthy : truthy p = true).
  { unfold truthy. destruct (String.eqb_spec p ""); [contradiction|reflexivity]. }
  rewrite Htruthy. unfold_monad. rewrite Hworld3, Hexists.
  unfold host.
  destruct (path_getsize p _) as [[size|e] w4]; simpl;
    rewrite ?Hself3, ?Hlast2; simpl; rewrite ?Htruthy; simpl;
    eexists _, _; (split; [reflexivity|]); simpl; rewrite ?Hself3;
    split; first [assumption | reflexivity].
Qed.

(** X5: the search by file name never fails and touches nothing but
    [last_recording_path].  When it changes it, the new value is the
    first of [name.mp4], [name.mkv], [name.flv], [name.mov], [name.avi]
    in the recording directory that exists. *)
Theorem _check_recording_output_exists_first_match (st : state W OBSManager.t) :
  exists st',
    _check_recording_output_exists st = (Ok tt, st')
    /\ world st' = world st
    /\ trace st' = trace st
    /\ (self st' = self st
        \/ exists directory file_name before ext after,
             recording_path (self st) = Some directory
             /\ recording_filename (self st) = Some file_name
             /\ possible_extensions = (before ++ ext :: after)%list
             /\ self st'
                = set_last_recording_path
                    (Some (os_path_join os_sep directory (file_name ++ ext))) (self st)
             /\ path_exists (os_path_join os_sep directory (file_name ++ ext)) (world st)
                = true
             /\ Forall
                  (fun e =>
                     path_exists (os_path_join os_sep directory (file_name ++ e)) (world st)
                     = false)
                  before).
Proof.
  unfold _check_recording_output_exists.
  remember possible_extensions as exts eqn:Hexts0. clear Hexts0. unfold_monad.
  destruct (recording_path (self st)) as [directory|] eqn:Hdirectory; simpl;
    [|exists st; destruct st; simpl; auto].
  destruct (recording_filename (self st)) as [file_name|] eqn:Hname; simpl;
    [|destruct (negb (truthy directory)); exists st; destruct st; simpl; auto].
  destruct (negb (truthy directory) || negb (truthy file_name))%bool; simpl;
    [exists st; destruct st; simpl; auto|].
  pose proof (find_recording_file_first (world st) directory file_name exts) as Hfirst.
  destruct (find_recording_file (world st) directory file_name exts) as [found|]; simpl.
  - destruct Hfirst as (before & ext & after & Hexts & -> & Hexists & Habsent).
    eexists. split; [reflexivity|]. simpl. split; [reflexivity|]. split; [reflexivity|].
    right. exists directory, file_name, before, ext, after. repeat split; assumption.
  - exists st. destruct st; simpl; auto.
Qed.

End StopRequests.

(** A recording is started on the simulated OBS and stopped: three
    requests follow those of the start. *)
Lemma stop_recording_sends_three_requests_witness :
  exists b st',
    OBSManager.stop_recording
      (snd (OBSManager.start_recording sample_output_path sample_obs))
    = (Ok b, st')
    /\ trace st'
       = (trace (snd (OBSManager.start_recording sample_output_path sample_obs))
            ++ [EvGetRecordStatus; EvStopRecord; EvGetRecordStatus])%list.
Proof.
  apply (stop_recording_sends_three_requests
           (snd (OBSManager.start_recording sample_output_path sample_obs)));
    vm_compute; reflexivity.
Defined.

(** The simulated OBS reports the file it wrote, and the controller
    keeps its path. *)
Lemma stop_recording_keeps_reported_path_witness :
  exists b st',
    OBSManager.stop_recording
      (snd (OBSManager.start_recording sample_output_path sample_obs))
    = (Ok b, st')
    /\ OBSManager.last_recording_path (self st') = Some "/videos/2024-01-01 10-00-00.mp4"
    /\ OBSManager.is_recording (self st') = false.
Proof.
  eapply (stop_recording_keeps_reported_path
            (snd (OBSManager.start_recording sample_output_path sample_obs))
            "/videos/2024-01-01 10-00-00.mp4");
    try (vm_compute; reflexivity).
  discriminate.
Defined.

(** ** The recording controller: connecting *)

Section Zoom.
Context {W O O' : Type}.
Variable get : O' -> O.
Variable put : O -> O' -> O'.

Lemma zoom_run {A} (m : M W O A) (st : state W O') (r : outcome A) (s1 : state W O) :
  m (mkState (get (self st)) (world st) (trace st)) = (r, s1) ->
  zoom get put m st = (r, mkState (put (self s1) (self st)) (world s1) (trace s1)).
Proof. intros Hrun. unfold zoom. rewrite Hrun. reflexivity. Qed.

Lemma preserves_zoom (I : O -> Prop) (J : O' -> Prop) {A} (m : M W O A) :
  preserves I m ->
  (forall s', J s' -> I (get s')) ->
  (forall s s', I s -> J s' -> J (put s s')) ->
  preserves J (zoom get put m).
Proof.
  intros Hm Hget Hput st r st' Hrun HJ. unfold zoom in Hrun.
  destruct (m (mkState (get (self st)) (world st) (trace st))) as [r1 s1] eqn:Hinner.
  inversion Hrun; subst. simpl. apply Hput; [|exact HJ].
  apply (Hm _ _ _ Hinner). simpl. apply Hget, HJ.
Qed.

End Zoom.

Section Connect.
Context {W : Type} `{ObsClient W} `{ObsSession W} `{Host W}.
Import OBSManager OBSConnection.

(** The version query ends with the version known, or marked unknown. *)
Lemma _get_obs_version_run (st : state W OBSConnection.t) :
  exists v st',
    _get_obs_version st = (Ok tt, st')
    /\ self st' = set_version_info (Some v) (self st)
    /\ trace st' = trace st.
Proof.
  unfold _get_obs_version, on_manager, zoom, client_query. unfold_monad. simpl.
  destruct (client (manager (self st))); simpl.
  - destruct (get_version (world st)) as [[[[v|] [wv|]]|e] w]; simpl;
      eexists _, _; split; reflexivity || (split; reflexivity).
  - eexists _, _. split; [reflexivity|]. split; reflexivity.
Qed.

(** The scene check of a connected controller ends with [has_scenes]
    set, whatever the scene list says. *)
Lemma _check_obs_recording_setup_run (st : state W OBSManager.t) :
  is_connected (self st) = true ->
  exists st',
    _check_obs_recording_setup st = (Ok tt, st')
    /\ self st' = set_has_scenes true (self st)
    /\ trace st' = trace st.
Proof.
  intros Hconnected.
  unfold _check_obs_recording_setup, client_query. unfold_monad. simpl.
  destruct (client (self st)); simpl.
  - destruct (get_scene_list (world st)) as [[[[[|scene scenes]|]]|e] w]; simpl;
      rewrite ?Hconnected; simpl;
      eexists; (split; [reflexivity|]); split; reflexivity.
  - rewrite Hconnected. simpl. eexists. split; [reflexivity|]. split; reflexivity.
Qed.

Lemma returns__check_recording_settings : returns _check_recording_settings.
Proof. unfold _check_recording_settings, client_query. prove_returns. Qed.

Lemma total__check_recording_settings : total _check_recording_settings.
Proof.
  unfold _check_recording_settings. apply total_try_except.
  - unfold client_query. prove_returns.
  - intros e. apply total_set_self.
Qed.

Lemma adds__check_recording_settings : adds_only no_event _check_recording_settings.
Proof. unfold _check_recording_settings, client_query. prove_adds. Qed.

(** The settings check writes to [recording_path] only. *)
Lemma _check_recording_settings_keeps (I : OBSManager.t -> Prop) :
  (forall v s, I s -> I (set_recording_path v s)) ->
  preserves I _check_recording_settings.
Proof.
  intros HI. unfold _check_recording_settings, client_query.
  prove_preserves; intros s Hs; apply HI; exact Hs.
Qed.

(** X6: [connect] never raises, and its answer is that of the
    handshake.  After [True] the controller holds a client, is connected,
    knows a version (possibly "unknown") and has [has_scenes] set, so
    that [is_ready_for_recording] answers [True], whatever the version,
    scene and settings queries answered.  After [False] only
    [is_connected] was written, to [False]. *)
Theorem connect_outcome (st : state W OBSConnection.t) :
  exists b st',
    connect st = (Ok b, st')
    /\ trace st' = trace st
    /\ match fst (req_client (world st)) with
       | Reply _ =>
           b = true
           /\ client (manager (self st')) = true
           /\ is_connected (manager (self st')) = true
           /\ has_scenes (manager (self st')) = true
           /\ version_info (self st') <> None
           /\ fst (on_manager is_ready_for_recording st') = Ok true
       | Fault _ =>
           b = false
           /\ self st' = set_manager (set_is_connected false (manager (self st))) (self st)
       end.
Proof.
  unfold connect. unfold try_except at 1. unfold bind at 1. unfold host at 1.
  destruct (req_client (world st)) as [[[]|e] w]; cbn [outcome_of_reply fst].
  2:{ unfold_monad. unfold on_manager, zoom. simpl.
      eexists _, _. split; [reflexivity|]. split; [reflexivity|]. split; reflexivity. }
  unfold bind at 1. unfold on_manager at 1. unfold zoom at 1. unfold set_self at 1.
  cbn [self world trace].
  unfold bind at 1. unfold on_manager at 1. unfold zoom at 1. unfold set_self at 1.
  cbn [self world trace].
  unfold bind at 1.
  match goal with
  | |- context [_get_obs_version ?s] =>
      destruct (_get_obs_version_run s) as (v & st1 & -> & Hself1 & Htrace1)
  end.
  cbn [self world trace] in Hself1, Htrace1.
  unfold bind at 1.
  assert (Hconnected1 : is_connected (manager (self st1)) = true)
    by (rewrite Hself1; reflexivity).
  destruct (_check_obs_recording_setup_run
              (mkState (manager (self st1)) (world st1) (trace st1)) Hconnected1)
    as (st2 & Hsetup & Hself2 & Htrace2).
  unfold on_manager at 1. rewrite (zoom_run _ _ _ _ _ _ Hsetup). cbn [self world trace] in Hself2, Htrace2.
  unfold bind at 1.
  unfold on_manager at 1.
  match goal with
  | |- context [zoom manager set_manager _check_recording_settings ?s] =>
      destruct (total__check_recording_settings
                  (mkState (manager (self s)) (world s) (trace s)))
        as ([] & st3 & Hsettings);
      rewrite (zoom_run manager set_manager _ s _ _ Hsettings)
  end.
  pose proof (adds_no_event _ _ _ _ adds__check_recording_settings Hsettings) as Htrace3.
  pose proof (_check_recording_settings_keeps
                (fun s => client s = true /\ is_connected s = true /\ has_scenes s = true)
                (fun v s Hs => Hs) _ _ _ Hsettings) as Hkeep.
  cbn [self world trace manager set_manager] in Htrace3, Hkeep. cbn [self world trace].
  destruct Hkeep as (Hclient3 & Hconnected3 & Hscenes3).
  { rewrite Hself2, Hself1. simpl. repeat split. }
  eexists _, _. split; [reflexivity|]. cbn [self world trace].
  split; [rewrite Htrace3, Htrace2, Htrace1; reflexivity|].
  split; [reflexivity|]. simpl.
  split; [exact Hclient3|]. split; [exact Hconnected3|]. split; [exact Hscenes3|].
  split; [rewrite Hself1; discriminate|].
  unfold is_ready_for_recording, on_manager, zoom. unfold_monad. simpl.
  rewrite Hconnected3, Hscenes3. reflexivity.
Qed.

(** The methods of the controller, on the record that holds the
    version as well. *)
Lemma connect_keeps_client : preserves (fun c => connected_has_client (manager c)) connect.
Proof.
  unfold connect, _get_obs_version, on_manager.
  assert (Hzoom : forall A (m : M W OBSManager.t A),
            preserves connected_has_client m ->
            preserves (fun c => connected_has_client (manager c)) (zoom manager set_manager m)).
  { intros A m Hm.
    apply (preserves_zoom manager set_manager connected_has_client); [exact Hm| |];
      intros; assumption. }
  assert (Hsetup : preserves connected_has_client _check_obs_recording_setup).
  { unfold _check_obs_recording_setup, client_query.
    prove_preserves; intros s Hs; exact Hs. }
  assert (Hsettings : preserves connected_has_client _check_recording_settings).
  { apply _check_recording_settings_keeps. intros v s Hs. exact Hs. }
  assert (Hopen : forall A (k : M W OBSConnection.t A),
            preserves (fun c => connected_has_client (manager c)) k ->
            preserves (fun c => connected_has_client (manager c))
              (zoom manager set_manager (set_self (set_client true)) ;;;
               zoom manager set_manager (set_self (set_is_connected true)) ;;;
               k)).
  { intros A k Hk st r st' Hrun _. unfold bind, zoom, set_self in Hrun. simpl in Hrun.
    apply (Hk _ _ _ Hrun). intros _. reflexivity. }
  apply preserves_try_except.
  - apply preserves_bind; [apply preserves_host|intros _].
    apply Hopen. apply preserves_bind.
    { apply preserves_try_except.
      - apply preserves_bind.
        + apply Hzoom. unfold client_query. prove_preserves.
        + intros version.
          destruct (obs_version version), (obs_web_socket_version version); cbv iota;
            first [ apply preserves_set_self; intros c Hc; exact Hc
                  | apply preserves_raise ].
      - intros e. apply preserves_set_self. intros s Hs. exact Hs. }
    intros _. apply preserves_bind; [apply Hzoom, Hsetup|intros _].
    apply preserves_bind; [apply Hzoom, Hsettings|intros _].
    apply preserves_ret.
  - intros e. apply preserves_bind; [|intros _; apply preserves_ret].
    apply Hzoom. apply preserves_set_self. intros s _ Hfalse. discriminate.
Qed.

End Connect.

Section ControllerInvariant.
Context {W : Type} `{ObsClient W} `{DriveService W} `{Host W} `{ObsSession W}.
Import OBSManager.

(** X7: every method of the controller keeps the pairing of its two
    connection fields: a controller that says it is connected holds a
    client.  It holds of a new controller, which is not connected, so
    the requests of a connected controller never fail for want of a
    client. *)
Theorem connected_controller_holds_client :
  (forall output_path, preserves connected_has_client (start_recording output_path))
  /\ preserves connected_has_client stop_recording
  /\ preserves (W:=W) connected_has_client disconnect
  /\ (forall depth fuel, preserves connected_has_client (upload_last_recording depth fuel))
  /\ preserves connected_has_client OBSConnection.get_recording_status
  /\ preserves (fun c => connected_has_client (OBSConnection.manager c)) OBSConnection.connect.
Proof.
  split; [|split; [|split; [|split; [|split]]]].
  - intros output_path.
    unfold start_recording, ensure_directory, check_writable, stop_if_already_recording,
      _try_recording_method_1, _try_recording_method_2, _try_recording_method_3,
      try_start_record, verify_started, _check_recording_status.
    prove_preserves; intros s Hs; exact Hs.
  - unfold stop_recording, _check_recording_output_exists.
    prove_preserves; intros s Hs; exact Hs.
  - intros st r st' Hrun _. unfold disconnect in Hrun. unfold_monad.
    inversion Hrun; subst. intros Hfalse. discriminate.
  - intros depth fuel. unfold upload_last_recording. cbn [GoogleDriveManager.upload_file_call].
    prove_preserves.
  - unfold OBSConnection.get_recording_status. prove_preserves.
  - apply connect_keeps_client.
Qed.

End ControllerInvariant.

(** ** GoogleDriveManager: the path of an uploaded file *)

Section FilePath.
Context {W : Type} `{DriveFiles W} {O : Type}.
Import DriveMetadata.

(** X8: [get_file_path] never raises and writes to no field.  It
    answers [None] exactly when the lookup of the file itself fails or
    the file comes with an empty list of parents; in every other case,
    also when the lookup of the parent or of the grandparent fails, the
    answer is a path that ends in the name of the file. *)
Theorem get_file_path_outcome (file_id : string) (st : state W O) :
  exists r st',
    get_file_path file_id st = (Ok r, st')
    /\ self st' = self st
    /\ trace st' = trace st
    /\ match fst (files_get file_id "name, parents" (world st)) with
       | Fault _ => r = None
       | Reply file =>
           match meta_parents file with
           | Some [] => r = None
           | _ => exists names, r = Some (names ++ get_or_empty (meta_name file))
           end
       end.
Proof.
  unfold get_file_path, first_item. unfold_monad. simpl.
  destruct (files_get file_id "name, parents" (world st)) as [[file|e] w1]; simpl.
  2:{ eexists _, _. repeat split. }
  destruct (meta_parents file) as [[|parent_id file_parents]|]; simpl.
  - eexists _, _. repeat split.
  - destruct (files_get parent_id "name, parents" w1) as [[parent|e] w2]; simpl.
    2:{ eexists _, _. split; [reflexivity|]. split; [reflexivity|]. split; [reflexivity|].
        exists "". reflexivity. }
    destruct (meta_parents parent) as [[|grandparent_id parent_parents]|]; simpl.
    + eexists _, _. split; [reflexivity|]. split; [reflexivity|]. split; [reflexivity|].
      exists "". reflexivity.
    + destruct (files_get grandparent_id "name" w2) as [[grandparent|e] w3]; simpl.
      * destruct (meta_name grandparent) as [grandparent_name|]; simpl;
          eexists _, _; (split; [reflexivity|]); (split; [reflexivity|]);
            (split; [reflexivity|]).
        -- exists (grandparent_name ++ " > " ++ get_or_empty (meta_name parent) ++ " > ").
           rewrite !append_assoc. reflexivity.
        -- exists (get_or_empty (meta_name parent) ++ " > "). 
           rewrite !append_assoc. reflexivity.
      * eexists _, _. split; [reflexivity|]. split; [reflexivity|]. split; [reflexivity|].
        exists (get_or_empty (meta_name parent) ++ " > ").
        rewrite !append_assoc. reflexivity.
    + eexists _, _. split; [reflexivity|]. split; [reflexivity|]. split; [reflexivity|].
      exists (get_or_empty (meta_name parent) ++ " > ").
      rewrite !append_assoc. reflexivity.
  - eexists _, _. split; [reflexivity|]. split; [reflexivity|]. split; [reflexivity|].
    exists "". reflexivity.
Qed.

End FilePath.

(** ** Config: classes, chapters and subtopics *)

Section Dictionaries.
Import Config.
Context {V : Type}.

Lemma has_key_keys (k : string) (d : list (string * V)) :
  has_key k d = contains_str k (keys d).
Proof.
  unfold has_key, contains_str, keys.
  induction d as [|[k' v] d IH]; simpl; [reflexivity|].
  destruct (String.eqb k k'); [reflexivity|exact IH].
Qed.

Lemma lookup_store_same (k : string) (v : V) (d : list (string * V)) :
  lookup k (store k v d) = Some v.
Proof.
  induction d as [|[k' v'] d IH]; simpl.
  - rewrite String.eqb_refl. reflexivity.
  - destruct (String.eqb k k') eqn:Hk; simpl.
    + rewrite String.eqb_refl. reflexivity.
    + rewrite Hk. exact IH.
Qed.

Lemma lookup_store_other (k k' : string) (v : V) (d : list (string * V)) :
  k' <> k -> lookup k' (store k v d) = lookup k' d.
Proof.
  intros Hne. apply String.eqb_neq in Hne.
  induction d as [|[k0 v0] d IH]; simpl.
  - rewrite Hne. reflexivity.
  - destruct (String.eqb k k0) eqn:Hk; simpl.
    + apply String.eqb_eq in Hk. subst k0. rewrite Hne. reflexivity.
    + destruct (String.eqb k' k0); [reflexivity|exact IH].
Qed.

Lemma keys_store_new (k : string) (v : V) (d : list (string * V)) :
  lookup k d = None -> keys (store k v d) = (keys d ++ [k])%list.
Proof.
  unfold keys. induction d as [|[k' v'] d IH]; simpl; intros Hnone; [reflexivity|].
  destruct (String.eqb k k'); [discriminate|]. simpl. rewrite IH by exact Hnone. reflexivity.
Qed.

Lemma keys_store_old (k : string) (v v0 : V) (d : list (string * V)) :
  lookup k d = Some v0 -> keys (store k v d) = keys d.
Proof.
  unfold keys. induction d as [|[k' v'] d IH]; simpl; intros Hsome; [discriminate|].
  destruct (String.eqb k k') eqn:Hk; simpl.
  - apply String.eqb_eq in Hk. subst k'. reflexivity.
  - rewrite IH by exact Hsome. reflexivity.
Qed.

End Dictionaries.

Section ConfigMethods.
Context {W : Type} `{ChaptersFile W}.
Import Config.

(** Saving never raises and writes to no field. *)
Lemma _save_chapters_run (chapters : chapters_t) (st : state W Config.t) :
  exists w, _save_chapters chapters st = (Ok tt, mkState (self st) w (trace st)).
Proof.
  unfold _save_chapters. unfold_monad. simpl.
  destruct (dump_chapters (config_file (self st)) chapters (world st)) as [[[]|e] w]; simpl;
    eexists; destruct st; reflexivity.
Qed.

(** X9: [add_class] never raises, also when the configuration cannot
    be saved.  It answers [True] exactly for a class that is not there
    yet, which it puts last in [get_classes], without chapters; on
    [False] no field is written.  The other classes keep their chapters,
    [get_subtopics] answers as before for every class and chapter, and
    a second call for the same class answers [False]. *)
Theorem add_class_outcome (class_name : string) (st : state W Config.t) :
  exists b st',
    add_class class_name st = (Ok b, st')
    /\ trace st' = trace st
    /\ b = negb (contains_str class_name (get_classes (self st)))
    /\ (if b then get_classes (self st') = (get_classes (self st) ++ [class_name])%list
                  /\ get_chapters (self st') class_name = []
        else self st' = self st)
    /\ (forall c, c <> class_name ->
          lookup c (chapters (self st')) = lookup c (chapters (self st)))
    /\ (forall c ch, get_subtopics (self st') c ch = get_subtopics (self st) c ch)
    /\ fst (add_class class_name st') = Ok false.
Proof.
  unfold get_classes. rewrite <- has_key_keys.
  unfold add_class. unfold bind at 1. unfold get_self at 1.
  destruct (has_key class_name (chapters (self st))) eqn:Hkey.
  - eexists _, _. split; [reflexivity|]. split; [reflexivity|]. split; [reflexivity|].
    split; [reflexivity|]. split; [reflexivity|]. split; [reflexivity|].
    unfold_monad. simpl. rewrite Hkey. reflexivity.
  - unfold bind at 1. unfold set_self at 1. unfold bind at 1. unfold get_self at 1.
    cbn [self world trace]. unfold bind at 1.
    match goal with
    | |- context [_save_chapters ?c ?s] =>
        destruct (_save_chapters_run c s) as (w & ->)
    end.
    cbn [self world trace]. unfold ret at 1.
    assert (Hnone : lookup class_name (chapters (self st)) = None).
    { unfold has_key in Hkey. destruct (lookup class_name (chapters (self st))); congruence. }
    eexists _, _. split; [reflexivity|]. cbn [self world trace set_chapters chapters].
    split; [reflexivity|]. split; [reflexivity|].
    split.
    { split; [apply keys_store_new, Hnone|].
      unfold get_chapters. simpl. rewrite lookup_store_same. reflexivity. }
    split; [intros c Hc; simpl; apply lookup_store_other, Hc|].
    split.
    { intros c ch. unfold get_subtopics. simpl.
      destruct (String.eqb c class_name) eqn:Hc.
      - apply String.eqb_eq in Hc. subst c. rewrite lookup_store_same, Hnone. reflexivity.
      - apply String.eqb_neq in Hc. rewrite lookup_store_other by exact Hc. reflexivity. }
    unfold_monad. simpl. unfold has_key at 1. rewrite lookup_store_same. reflexivity.
Qed.

Lemma contains_str_last (x : string) (l : list string) :
  contains_str x (l ++ [x])%list = true.
Proof.
  unfold contains_str. rewrite existsb_app. simpl. rewrite String.eqb_refl.
  rewrite Bool.orb_true_r. reflexivity.
Qed.

(** X10: [add_chapter] never raises.  It answers [True] exactly for a
    class that is there and a chapter that the class does not have yet,
    and puts the chapter last in [get_chapters] of the class; on [False]
    no field is written.  The classes and their order, the chapters of
    the other classes, and every answer of [get_subtopics] stay as they
    were (a new chapter starts with the subtopics [get_subtopics]
    gives for a chapter it does not know), and a second call answers
    [False]. *)
Theorem add_chapter_outcome (class_name chapter_name : string) (st : state W Config.t) :
  exists b st',
    add_chapter class_name chapter_name st = (Ok b, st')
    /\ trace st' = trace st
    /\ b = (contains_str class_name (get_classes (self st))
            && negb (contains_str chapter_name (get_chapters (self st) class_name)))%bool
    /\ (if b then get_chapters (self st') class_name
                  = (get_chapters (self st) class_name ++ [chapter_name])%list
        else self st' = self st)
    /\ get_classes (self st') = get_classes (self st)
    /\ (forall c, c <> class_name ->
          lookup c (chapters (self st')) = lookup c (chapters (self st)))
    /\ (forall c ch, get_subtopics (self st') c ch = get_subtopics (self st) c ch)
    /\ fst (add_chapter class_name chapter_name st') = Ok false.
Proof.
  unfold get_classes, get_chapters. rewrite <- has_key_keys.
  unfold add_chapter at 1. unfold bind at 1. unfold get_self at 1.
  assert (Hhas : has_key class_name (chapters (self st))
                 = match lookup class_name (chapters (self st)) with
                   | Some _ => true
                   | None => false
                   end) by reflexivity.
  rewrite Hhas. clear Hhas.
  destruct (lookup class_name (chapters (self st))) as [class_chapters|] eqn:Hclass;
    cbn [andb].
  2:{ eexists _, _. split; [reflexivity|]. split; [reflexivity|]. split; [reflexivity|].
      split; [reflexivity|]. split; [reflexivity|]. split; [reflexivity|].
      split; [reflexivity|].
      unfold add_chapter. unfold_monad. simpl. rewrite Hclass. reflexivity. }
  rewrite <- has_key_keys.
  destruct (has_key chapter_name class_chapters) eqn:Hkey.
  - eexists _, _. split; [reflexivity|]. split; [reflexivity|]. split; [reflexivity|].
    split; [reflexivity|]. split; [reflexivity|]. split; [reflexivity|].
    split; [reflexivity|].
    unfold add_chapter. unfold_monad. simpl. rewrite Hclass, Hkey. reflexivity.
  - unfold bind at 1. unfold set_self at 1. unfold bind at 1. unfold get_self at 1.
    cbn [self world trace]. unfold bind at 1.
    match goal with
    | |- context [_save_chapters ?c ?s] =>
        destruct (_save_chapters_run c s) as (w & ->)
    end.
    cbn [self world trace]. unfold ret at 1.
    assert (Hnone : lookup chapter_name class_chapters = None).
    { unfold has_key in Hkey. destruct (lookup chapter_name class_chapters); congruence. }
    eexists _, _. split; [reflexivity|]. simpl.
    split; [reflexivity|]. split; [reflexivity|].
    split; [rewrite lookup_store_same; apply keys_store_new, Hnone|].
    split; [apply (keys_store_old _ _ _ _ Hclass)|].
    split; [intros c Hc; apply lookup_store_other, Hc|].
    split.
    { intros c ch. unfold get_subtopics. simpl.
      destruct (String.eqb c class_name) eqn:Hc.
      - apply String.eqb_eq in Hc. subst c. rewrite lookup_store_same, Hclass.
        destruct (String.eqb ch chapter_name) eqn:Hch.
        + apply String.eqb_eq in Hch. subst ch. rewrite lookup_store_same, Hnone. reflexivity.
        + apply String.eqb_neq in Hch. rewrite lookup_store_other by exact Hch. reflexivity.
      - apply String.eqb_neq in Hc. rewrite lookup_store_other by exact Hc. reflexivity. }
    unfold add_chapter. unfold_monad. simpl. rewrite lookup_store_same.
    unfold has_key. rewrite lookup_store_same. reflexivity.
Qed.

(** X11: [add_subtopic] never raises.  It answers [True] exactly for
    a class and a chapter that are there and a subtopic the chapter does
    not have yet, and puts the subtopic last in [get_subtopics] of the
    chapter; on [False] no field is written.  A chapter that is not
    there gets no subtopic, although [get_subtopics] answers ["Main"]
    for it.  The classes, the chapters of every class and the subtopics
    of every other chapter stay as they were, and a second call answers
    [False]. *)
Theorem add_subtopic_outcome (class_name chapter_name subtopic_name : string)
    (st : state W Config.t) :
  exists b st',
    add_subtopic class_name chapter_name subtopic_name st = (Ok b, st')
    /\ trace st' = trace st
    /\ b = (contains_str class_name (get_classes (self st))
            && contains_str chapter_name (get_chapters (self st) class_name)
            && negb (contains_str subtopic_name
                       (get_subtopics (self st) class_name chapter_name)))%bool
    /\ (if b then get_subtopics (self st') class_name chapter_name
                  = (get_subtopics (self st) class_name chapter_name ++ [subtopic_name])%list
        else self st' = self st)
    /\ get_classes (self st') = get_classes (self st)
    /\ (forall c, get_chapters (self st') c = get_chapters (self st) c)
    /\ (forall c ch, c <> class_name \/ ch <> chapter_name ->
          get_subtopics (self st') c ch = get_subtopics (self st) c ch)
    /\ fst (add_subtopic class_name chapter_name subtopic_name st') = Ok false.
Proof.
  unfold get_classes, get_chapters, get_subtopics. rewrite <- has_key_keys.
  unfold add_subtopic at 1. unfold bind at 1. unfold get_self at 1.
  assert (Hhas : has_key class_name (chapters (self st))
                 = match lookup class_name (chapters (self st)) with
                   | Some _ => true
                   | None => false
                   end) by reflexivity.
  rewrite Hhas. clear Hhas.
  destruct (lookup class_name (chapters (self st))) as [class_chapters|] eqn:Hclass;
    cbn [andb].
  2:{ eexists _, _. split; [reflexivity|]. split; [reflexivity|]. split; [reflexivity|].
      split; [reflexivity|]. split; [reflexivity|]. split; [reflexivity|].
      split; [reflexivity|].
      unfold add_subtopic. unfold_monad. simpl. rewrite Hclass. reflexivity. }
  rewrite <- has_key_keys.
  assert (Hhas : has_key chapter_name class_chapters
                 = match lookup chapter_name class_chapters with
                   | Some _ => true
                   | None => false
                   end) by reflexivity.
  rewrite Hhas. clear Hhas.
  destruct (lookup chapter_name class_chapters) as [subtopics|] eqn:Hchapter;
    cbn [andb].
  2:{ eexists _, _. split; [reflexivity|]. split; [reflexivity|]. split; [reflexivity|].
      split; [reflexivity|]. split; [reflexivity|]. split; [reflexivity|].
      split; [reflexivity|].
      unfold add_subtopic. unfold_monad. simpl. rewrite Hclass, Hchapter. reflexivity. }
  destruct (contains_str subtopic_name subtopics) eqn:Hin.
  - eexists _, _. split; [reflexivity|]. split; [reflexivity|]. split; [reflexivity|].
    split; [reflexivity|]. split; [reflexivity|]. split; [reflexivity|].
    split; [reflexivity|].
    unfold add_subtopic. unfold_monad. simpl. rewrite Hclass, Hchapter, Hin. reflexivity.
  - unfold bind at 1. unfold set_self at 1. unfold bind at 1. unfold get_self at 1.
    cbn [self world trace]. unfold bind at 1.
    match goal with
    | |- context [_save_chapters ?c ?s] =>
        destruct (_save_chapters_run c s) as (w & ->)
    end.
    cbn [self world trace]. unfold ret at 1.
    eexists _, _. split; [reflexivity|]. simpl.
    split; [reflexivity|]. split; [reflexivity|].
    split; [rewrite !lookup_store_same; reflexivity|].
    split; [apply (keys_store_old _ _ _ _ Hclass)|].
    split.
    { intros c. destruct (String.eqb c class_name) eqn:Hc.
      - apply String.eqb_eq in Hc. subst c. rewrite lookup_store_same, Hclass.
        apply (keys_store_old _ _ _ _ Hchapter).
      - apply String.eqb_neq in Hc. rewrite lookup_store_other by exact Hc. reflexivity. }
    split.
    { intros c ch Hother.
      destruct (String.eqb c class_name) eqn:Hc.
      - apply String.eqb_eq in Hc. subst c. rewrite lookup_store_same, Hclass.
        destruct Hother as [Hne|Hne]; [congruence|].
        rewrite lookup_store_other by exact Hne. reflexivity.
      - apply String.eqb_neq in Hc. rewrite lookup_store_other by exact Hc. reflexivity. }
    unfold add_subtopic. unfold_monad. simpl. rewrite !lookup_store_same.
    rewrite contains_str_last. reflexivity.
Qed.

End ConfigMethods.

(** ** Config: the validation of a file *)

Section ValidateFile.
Context {W : Type} `{Host W}.
Import Config.
Variable lower : string -> string.
Variable strip : string -> string.


End ValidateFile.

(** ** MainWindow: the search for the recording *)

Section Sorting.
Import Recordings.

Lemma insert_desc_In (x y : string * Q) (l : list (string * Q)) :
  In y (insert_desc x l) <-> x = y \/ In y l.
Proof.
  induction l as [|z l IH]; simpl; [tauto|].
  destruct (Qle_bool (snd z) (snd x)); simpl; tauto.
Qed.

Lemma sort_desc_In (y : string * Q) (l : list (string * Q)) :
  In y (sort_desc l) <-> In y l.
Proof.
  induction l as [|x l IH]; simpl; [tauto|].
  rewrite insert_desc_In. tauto.
Qed.

(** The first file after the sort is one of the newest. *)
Lemma sort_desc_head (l : list (string * Q)) :
  match sort_desc l with
  | [] => l = []
  | x :: _ => forall y, In y l -> (snd y <= snd x)%Q
  end.
Proof.
  induction l as [|a l IH]; simpl; [reflexivity|].
  destruct (sort_desc l) as [|x r]; simpl.
  - subst l. intros y [<-|[]]. apply Qle_refl.
  - destruct (Qle_bool (snd x) (snd a)) eqn:Hle.
    + apply Qle_bool_iff in Hle. intros y [<-|Hy]; [apply Qle_refl|].
      eapply Qle_trans; [apply IH, Hy|exact Hle].
    + assert (Hlt : (snd a < snd x)%Q).
      { apply Qnot_le_lt. intros Hle'. apply Qle_bool_iff in Hle'. congruence. }
      intros y [<-|Hy]; [apply Qlt_le_weak, Hlt|apply IH, Hy].
Qed.

End Sorting.

Section SearchRuns.
Context {W : Type} `{Host W} `{VideoFolders W}.
Import MainWindow Recordings.

Lemma host_read {O A} (f : W -> reply A) (st : state W O) :
  host (fun w => (f w, w)) st = (outcome_of_reply (f (world st)), st).
Proof. unfold host. destruct st; reflexivity. Qed.

(** The loop over the default directories reads only, and collects the
    videos of those that exist. *)
Lemma collect_run (paths : list string) :
  forall (acc : list string) (st : state W MainWindow.t),
  exists r,
    for_each paths acc
      (fun video_files path =>
         found <- ask (path_exists path) ;;
         if found then
           more <- glob_videos path ;;
           ret (video_files ++ more)%list
         else ret video_files) st = (r, st)
    /\ match r with
       | Ok video_files =>
           forall g, In g video_files <->
             In g acc
             \/ exists dir files,
                  In dir paths /\ path_exists dir (world st) = true
                  /\ glob_mp4 dir (world st) = Reply files /\ In g files
       | Raise _ => True
       | Diverged => False
       end.
Proof.
  induction paths as [|path paths IH]; intros acc st; simpl.
  - exists (Ok acc). split; [reflexivity|]. intros g. split; [auto|].
    intros [Hg|(dir & files & [] & _)]. exact Hg.
  - unfold bind at 1. unfold bind at 1. unfold ask at 1. cbv beta iota.
    destruct (path_exists path (world st)) eqn:Hexists.
    + unfold bind at 1. unfold glob_videos at 1. rewrite host_read.
      destruct (glob_mp4 path (world st)) as [more|e] eqn:Hglob; cbn [outcome_of_reply].
      * unfold ret at 1. destruct (IH (acc ++ more)%list st) as (r & -> & Hr).
        exists r. split; [reflexivity|]. destruct r as [video_files|e|]; auto.
        intros g. rewrite Hr, in_app_iff. split.
        -- intros [[Hg|Hg]|(dir & files & Hdir & Hrest)].
           ++ left. exact Hg.
           ++ right. exists path, more. auto.
           ++ right. exists dir, files. auto.
        -- intros [Hg|(dir & files & [<-|Hdir] & Hex & Hfiles & Hg)].
           ++ auto.
           ++ rewrite Hglob in Hfiles. inversion Hfiles; subst. auto.
           ++ right. exists dir, files. auto.
      * exists (Raise e). split; [reflexivity|exact I].
    + unfold ret at 1. destruct (IH acc st) as (r & -> & Hr).
      exists r. split; [reflexivity|]. destruct r as [video_files|e|]; auto.
      intros g. rewrite Hr. split.
      * intros [Hg|(dir & files & Hdir & Hrest)]; [auto|].
        right. exists dir, files. auto.
      * intros [Hg|(dir & files & [<-|Hdir] & Hex & Hfiles & Hg)]; [auto|congruence|].
        right. exists dir, files. auto.
Qed.

(** The keys of the sort are the modification times of the files. *)
Lemma with_mtimes_run (files : list string) :
  forall (acc : list (string * Q)) (st : state W MainWindow.t),
  exists r,
    for_each files acc
      (fun keyed x => t <- mtime x ;; ret (keyed ++ [(x, t)])%list) st = (r, st)
    /\ match r with
       | Ok keyed =>
           exists more,
             keyed = (acc ++ more)%list
             /\ map fst more = files
             /\ Forall (fun xt => stat_mtime (fst xt) (world st) = Reply (snd xt)) more
       | Raise _ => True
       | Diverged => False
       end.
Proof.
  induction files as [|x files IH]; intros acc st; simpl.
  - exists (Ok acc). split; [reflexivity|]. exists []. rewrite app_nil_r. auto.
  - unfold bind at 1. unfold bind at 1. unfold mtime at 1. rewrite host_read.
    destruct (stat_mtime x (world st)) as [t|e] eqn:Hstat; cbn [outcome_of_reply].
    + unfold ret at 1. destruct (IH (acc ++ [(x, t)])%list st) as (r & -> & Hr).
      exists r. split; [reflexivity|]. destruct r as [keyed|e|]; auto.
      destruct Hr as (more & -> & Hfst & Hall).
      exists ((x, t) :: more). rewrite <- app_assoc. split; [reflexivity|].
      split; [simpl; rewrite Hfst; reflexivity|].
      constructor; [exact Hstat|exact Hall].
    + exists (Raise e). split; [reflexivity|exact I].
Qed.

(** The comprehension keeps the recent files, in their order. *)
Lemma recent_only_run (files : list string) :
  forall (acc : list string) (st : state W MainWindow.t),
  exists r,
    for_each files acc
      (fun kept f =>
         now <- ask timestamp_now ;;
         t <- mtime f ;;
         if Qlt_le_dec (float_sub now t) 60 then ret (kept ++ [f])%list else ret kept) st
    = (r, st)
    /\ match r with
       | Ok kept => kept = (acc ++ filter (is_recent (world st)) files)%list
       | Raise _ => True
       | Diverged => False
       end.
Proof.
  induction files as [|f files IH]; intros acc st; simpl.
  - exists (Ok acc). split; [reflexivity|]. rewrite app_nil_r. reflexivity.
  - unfold bind at 1. unfold bind at 1. unfold ask at 1. cbv beta iota.
    unfold bind at 1. unfold mtime at 1. rewrite host_read. unfold is_recent at 1.
    destruct (stat_mtime f (world st)) as [t|e] eqn:Hstat; cbn [outcome_of_reply].
    + destruct (Qlt_le_dec (float_sub (timestamp_now (world st)) t) 60) as [Hlt|Hge].
      * unfold ret at 1. destruct (IH (acc ++ [f])%list st) as (r & -> & Hr).
        exists r. split; [reflexivity|]. destruct r as [kept|e|]; auto.
        rewrite Hr, <- app_assoc. reflexivity.
      * unfold ret at 1. destruct (IH acc st) as (r & -> & Hr).
        exists r. split; [reflexivity|]. exact Hr.
    + exists (Raise e). split; [reflexivity|exact I].
Qed.

End SearchRuns.

Section SearchForRecordings.
Context {W : Type} `{Host W} `{VideoFolders W}.
Import MainWindow Recordings.

(** The search, in full: one dialog whatever happens, and the file it
    selects. *)
Lemma search_for_recordings_run (data_dir : string)
    (st : state W MainWindow.t) :
  exists st' message,
    search_for_recordings data_dir st = (Ok tt, st')
    /\ world st' = world st
    /\ trace st' = trace st
    /\ dialogs (self st') = (dialogs (self st) ++ [message])%list
    /\ (self st' = add_dialog message (self st)
        \/ exists first t,
             self st'
             = set_upload_btn_enabled true
                 (set_file_label ("Recording: " ++ Path.name (Path.of_str first))
                    (set_selected_file (Some (Path.of_str first))
                       (add_dialog message (self st))))
             /\ found_video (world st) data_dir first
             /\ stat_mtime first (world st) = Reply t
             /\ (float_sub (timestamp_now (world st)) t < 60)%Q
             /\ forall g tg,
                  found_video (world st) data_dir g ->
                  stat_mtime g (world st) = Reply tg -> (tg <= t)%Q).
Proof.
  assert (Hdialog : forall (message : string) (r : outcome unit) (s : state W MainWindow.t),
            r = Ok tt ->
            s = mkState (add_dialog message (self st)) (world st) (trace st) ->
            exists st' message',
              (r, s) = (Ok tt, st')
              /\ world st' = world st
              /\ trace st' = trace st
              /\ dialogs (self st') = (dialogs (self st) ++ [message'])%list
              /\ (self st' = add_dialog message' (self st)
                  \/ exists first t,
                       self st'
                       = set_upload_btn_enabled true
                           (set_file_label ("Recording: " ++ Path.name (Path.of_str first))
                              (set_selected_file (Some (Path.of_str first))
                                 (add_dialog message' (self st))))
                       /\ found_video (world st) data_dir first
                       /\ stat_mtime first (world st) = Reply t
                       /\ (float_sub (timestamp_now (world st)) t < 60)%Q
                       /\ forall g tg,
                            found_video (world st) data_dir g ->
                            stat_mtime g (world st) = Reply tg -> (tg <= t)%Q)).
  { intros message r s -> ->. exists (mkState (add_dialog message (self st)) (world st) (trace st)), message.
    split; [reflexivity|]. split; [reflexivity|]. split; [reflexivity|].
    split; [reflexivity|]. left. reflexivity. }
  unfold search_for_recordings. unfold try_except.
  unfold bind at 1. unfold glob_videos at 1. rewrite host_read.
  destruct (glob_mp4 data_dir (world st)) as [files0|e0] eqn:Hglob0; cbn [outcome_of_reply].
  2:{ eapply Hdialog; reflexivity. }
  unfold bind at 1. unfold ask at 1. cbv beta iota.
  unfold bind at 1.
  destruct (collect_run (default_obs_paths (world st)) files0 st) as (r1 & -> & Hr1).
  destruct r1 as [video_files|e1|]; [|eapply Hdialog; reflexivity|contradiction].
  destruct video_files as [|v vs] eqn:Hvideo.
  { eapply Hdialog; reflexivity. }
  rewrite <- Hvideo in *.
  unfold bind at 1. unfold with_mtimes.
  destruct (with_mtimes_run video_files [] st) as (r2 & -> & Hr2).
  destruct r2 as [keyed|e2|]; [|eapply Hdialog; reflexivity|contradiction].
  destruct Hr2 as (more & Hkeyed & Hfst & Hstats). simpl in Hkeyed. subst more.
  unfold bind at 1. unfold recent_only.
  destruct (recent_only_run (map fst (sort_desc keyed)) [] st) as (r3 & -> & Hr3).
  destruct r3 as [recent_files|e3|]; [|eapply Hdialog; reflexivity|contradiction].
  simpl in Hr3. subst recent_files.
  destruct (filter (is_recent (world st)) (map fst (sort_desc keyed)))
    as [|first others] eqn:Hrecent.
  { destruct (map fst (sort_desc keyed)) as [|most_recent older];
      eapply Hdialog; reflexivity. }
  (* a file is selected *)
  assert (Hkeys : forall x t, In (x, t) keyed -> stat_mtime x (world st) = Reply t).
  { intros x t Hin. rewrite Forall_forall in Hstats. apply (Hstats _ Hin). }
  assert (Hfound : forall g, In g video_files <-> found_video (world st) data_dir g).
  { intros g. rewrite Hr1. unfold found_video. split.
    - intros [Hg|(dir & files & Hdir & Hex & Hfiles & Hg)].
      + exists data_dir, files0. auto.
      + exists dir, files. auto.
    - intros (dir & files & [->|[Hdir Hex]] & Hfiles & Hg).
      + left. congruence.
      + right. exists dir, files. auto. }
  assert (Hkeyed : forall g, In g video_files -> exists tg, In (g, tg) keyed).
  { intros g Hg. rewrite <- Hfst in Hg. apply in_map_iff in Hg.
    destruct Hg as ([g' tg] & Heq & Hin). simpl in Heq. subst g'. exists tg. exact Hin. }
  assert (Hfirst : In first (map fst (sort_desc keyed)) /\ is_recent (world st) first = true).
  { apply filter_In. rewrite Hrecent. left. reflexivity. }
  destruct Hfirst as [Hfirst_in Hfirst_recent].
  apply in_map_iff in Hfirst_in. destruct Hfirst_in as ([first' t] & Heq & Hin_sorted).
  simpl in Heq. subst first'. apply (proj1 (sort_desc_In _ _)) in Hin_sorted.
  pose proof (Hkeys _ _ Hin_sorted) as Hstat_first.
  assert (Hlt : (float_sub (timestamp_now (world st)) t < 60)%Q).
  { unfold is_recent in Hfirst_recent. rewrite Hstat_first in Hfirst_recent.
    destruct (Qlt_le_dec (float_sub (timestamp_now (world st)) t) 60);
      [assumption|discriminate]. }
  pose proof (sort_desc_head keyed) as Hhead.
  destruct (sort_desc keyed) as [|[newest tn] sorted] eqn:Hsorted.
  { simpl in Hrecent. discriminate. }
  assert (Hnewest_in : In (newest, tn) keyed).
  { apply sort_desc_In. rewrite Hsorted. left. reflexivity. }
  pose proof (Hkeys _ _ Hnewest_in) as Hstat_newest.
  pose proof (Hhead _ Hin_sorted) as Hle. simpl in Hle.
  assert (Hsame : first = newest).
  { simpl in Hrecent. unfold is_recent at 1 in Hrecent. rewrite Hstat_newest in Hrecent.
    destruct (Qlt_le_dec (float_sub (timestamp_now (world st)) tn) 60) as [_|Hge].
    - inversion Hrecent. reflexivity.
    - exfalso.
      assert (Hmono : (float_sub (timestamp_now (world st)) tn
                       <= float_sub (timestamp_now (world st)) t)%Q)
        by (apply round_float_monotone; lra).
      lra. }
  subst newest. assert (tn = t) by congruence. subst tn.
  unfold bind, show_info, set_self. cbn [self world trace].
  eexists _, _. split; [reflexivity|]. cbn [self world trace].
  split; [reflexivity|]. split; [reflexivity|]. split; [reflexivity|].
  right. exists first, t. split; [reflexivity|].
  split; [apply Hfound; rewrite <- Hfst; apply in_map_iff; exists (first, t); auto|].
  split; [exact Hstat_first|]. split; [exact Hlt|].
  intros g tg Hg Hstat_g. apply Hfound, Hkeyed in Hg. destruct Hg as (tg' & Hin).
  pose proof (Hkeys _ _ Hin) as Hstat_g'. assert (tg' = tg) by congruence. subst tg'.
  apply (Hhead _ Hin).
Qed.

(** X13: [search_for_recordings] never raises, leaves the host as it
    is and opens exactly one dialog.  Either the dialog is all it does,
    or it selects a file and enables the upload button; the file it
    selects is a video of a directory that was searched, was modified
    less than a minute before the time of the clock (the difference
    being that of floats), and no video that was found is newer. *)
Theorem search_for_recordings_selects_newest (data_dir : string)
    (st : state W MainWindow.t) :
  exists st' message,
    search_for_recordings data_dir st = (Ok tt, st')
    /\ world st' = world st
    /\ trace st' = trace st
    /\ dialogs (self st') = (dialogs (self st) ++ [message])%list
    /\ (self st' = add_dialog message (self st)
        \/ exists first t,
             self st'
             = set_upload_btn_enabled true
                 (set_file_label ("Recording: " ++ Path.name (Path.of_str first))
                    (set_selected_file (Some (Path.of_str first))
                       (add_dialog message (self st))))
             /\ found_video (world st) data_dir first
             /\ stat_mtime first (world st) = Reply t
             /\ (float_sub (timestamp_now (world st)) t < 60)%Q
             /\ forall g tg,
                  found_video (world st) data_dir g ->
                  stat_mtime g (world st) = Reply tg -> (tg <= t)%Q).
Proof. exact (search_for_recordings_run data_dir st). Qed.

End SearchForRecordings.

(** ** UploadWorker: the verdict of a run *)

Section WorkerRun.
Context {W : Type} `{DriveService W} `{Host W}.
Import GoogleDriveManager UploadWorker.

Lemma quiet_preserves {O A} (I : O -> Prop) (m : M W O A) : quiet m -> preserves I m.
Proof.
  intros Hm st r st' Hrun HI. destruct (Hm _ _ _ Hrun) as [Hself _].
  rewrite Hself. exact HI.
Qed.

Lemma preserves_next_chunk {O} (I : O -> Prop) (request : upload_request) :
  preserves I (next_chunk request : M W O _).
Proof.
  intros st r st' Hrun HI. unfold next_chunk in Hrun.
  destruct (request_next_chunk request (world st)) as [a w].
  inversion Hrun; subst. exact HI.
Qed.

Section Emitting.
Variable I : UploadWorker.t -> Prop.
Hypothesis I_progress : forall v s, I s -> I (emit_progress v s).

Lemma preserves_progress_callback (value : Z) :
  preserves (W:=W) I (call_callback progress_callback value).
Proof.
  intros st r st' Hrun Hs. unfold call_callback, progress_callback in Hrun.
  inversion Hrun; subst. simpl. apply I_progress, Hs.
Qed.

Lemma preserves_upload_chunks (fuel : nat) (request : upload_request) :
  preserves I (upload_chunks fuel request (Some progress_callback)).
Proof.
  induction fuel as [|fuel IH]; simpl.
  - intros st r st' Hrun Hs. inversion Hrun; subst. exact Hs.
  - apply preserves_bind; [apply preserves_next_chunk|intros [status response]].
    apply preserves_bind.
    + destruct status as [status|]; [|apply preserves_ret].
      apply preserves_bind; [|intros value; apply preserves_progress_callback].
      unfold int_of_float.
      destruct (float_mul (progress status) 100); [apply preserves_ret|apply preserves_raise].
    + intros _. destruct response; [apply preserves_ret|exact IH].
Qed.

(** The upload acts on the worker through the progress signal only. *)
Lemma preserves_upload_file (depth fuel : nat)
    (filepath class_name chapter_name year subtopic_name : string) :
  preserves I
    (upload_file depth fuel filepath class_name chapter_name year subtopic_name
       (Some progress_callback)).
Proof.
  unfold upload_file, get_or_create_class_year_folder, get_or_create_chapter_folder.
  apply preserves_try_except; [|intros e; apply preserves_raise].
  apply preserves_bind; [apply preserves_ask|intros found].
  destruct (negb found); [apply preserves_raise|].
  apply preserves_bind; [apply quiet_preserves, quiet_get_or_create_folder|intros a].
  apply preserves_bind; [apply quiet_preserves, quiet_get_or_create_folder|intros b].
  apply preserves_bind; [apply quiet_preserves, quiet_get_or_create_folder|intros c].
  apply preserves_bind; [apply quiet_preserves, quiet_count_files_in_folder|intros n].
  apply preserves_bind; [apply preserves_ask|intros today].
  apply preserves_bind; [apply preserves_upload_chunks|intros response].
  apply preserves_ret.
Qed.

End Emitting.

(** X14: a run of the worker never raises and, unless the upload
    goes on for ever, emits [finished] exactly once, after the upload and
    with nothing sent after it.  The verdict is a success exactly when
    the upload returned a file id that is not empty, and then the last
    [progress] emitted is 100; when the upload raised, the message is
    the text of its exception and no further [progress] is emitted. *)
Theorem run_emits_one_verdict (depth fuel : nat)
    (file_path class_name chapter_name current_year subtopic_name : string)
    (st : state W UploadWorker.t) :
  let upload :=
    upload_file depth fuel file_path class_name chapter_name current_year subtopic_name
      (Some progress_callback) in
  exists r st',
    run depth fuel file_path class_name chapter_name current_year subtopic_name st = (r, st')
    /\ world st' = world (snd (upload st))
    /\ trace st' = trace (snd (upload st))
    /\ match fst (upload st) with
       | Ok file_id =>
           r = Ok tt
           /\ if truthy file_id then
                finished_emitted (self st')
                = (finished_emitted (self st) ++ [(true, "Upload completed successfully")])%list
                /\ progress_emitted (self st')
                   = (progress_emitted (self (snd (upload st))) ++ [100%Z])%list
              else
                finished_emitted (self st')
                = (finished_emitted (self st)
                     ++ [(false, "Upload failed - no file ID returned")])%list
                /\ progress_emitted (self st') = progress_emitted (self (snd (upload st)))
       | Raise e =>
           r = Ok tt
           /\ finished_emitted (self st')
              = (finished_emitted (self st) ++ [(false, str_of_exn e)])%list
           /\ progress_emitted (self st') = progress_emitted (self (snd (upload st)))
       | Diverged =>
           r = Diverged
           /\ finished_emitted (self st') = finished_emitted (self st)
       end.
Proof.
  intros upload.
  assert (Hkept : finished_emitted (self (snd (upload st))) = finished_emitted (self st)).
  { destruct (upload st) as [r1 st1] eqn:Hup.
    apply (preserves_upload_file
             (fun s => finished_emitted s = finished_emitted (self st))
             (fun v s Hs => Hs) _ _ _ _ _ _ _ _ _ _ Hup).
    reflexivity. }
  unfold run. unfold try_except. unfold bind at 1. fold upload.
  destruct (upload st) as [[file_id|e|] st1]; cbn [fst snd] in *.
  - destruct (truthy file_id).
    + unfold bind, set_self. cbn [self world trace].
      eexists _, _. split; [reflexivity|]. cbn [self world trace].
      split; [reflexivity|]. split; [reflexivity|]. split; [reflexivity|].
      simpl. rewrite Hkept. split; reflexivity.
    + unfold set_self.
      eexists _, _. split; [reflexivity|]. cbn [self world trace].
      split; [reflexivity|]. split; [reflexivity|]. split; [reflexivity|].
      simpl. rewrite Hkept. split; reflexivity.
  - unfold set_self.
    eexists _, _. split; [reflexivity|]. cbn [self world trace].
    split; [reflexivity|]. split; [reflexivity|]. split; [reflexivity|].
    simpl. rewrite Hkept. split; reflexivity.
  - eexists _, _. split; [reflexivity|].
    split; [reflexivity|]. split; [reflexivity|]. split; [reflexivity|exact Hkept].
Qed.

End WorkerRun.

(** ** MainWindow: renaming with the search as fallback *)

Section RenameWithSearch.
Context {W : Type} `{Host W} `{VideoFolders W}.
Import MainWindow Recordings.



End RenameWithSearch.

(** ** MainWindow: the name of a recording and its collision names *)

Section RecordingName.
Import MainWindow Recordings.
Variable isalnum : ascii -> bool.

(** X16: whatever the class, the chapter and the subtopic are called,
    the name [toggle_recording] asks for is cut by the renaming at the
    dot of its own ".mp4": the collision names
    [rename_recording_file] tries put the counter right after the date
    and keep the extension. *)
Theorem recording_filename_collision_names (class_name chapter_name subtopic_name : string)
    (today : date) (target_dir : string) (counter : nat) :
  let stem :=
    safe_name isalnum class_name ++ "_" ++ safe_name isalnum chapter_name ++ "_"
      ++ safe_name isalnum subtopic_name ++ "_" ++ strftime_dmY today in
  let filename := recording_filename isalnum class_name chapter_name subtopic_name today in
  rsplit_dot filename = (stem, Some "mp4")
  /\ suffixed target_dir filename counter
     = Path.joinpath target_dir (stem ++ "_" ++ str_of_nat counter ++ ".mp4").
Proof.
  intros stem filename.
  assert (Hsplit : rsplit_dot filename = (stem, Some "mp4")).
  { unfold filename, recording_filename. cbv zeta. fold stem.
    replace (safe_name isalnum class_name ++ "_" ++ safe_name isalnum chapter_name ++ "_"
               ++ safe_name isalnum subtopic_name ++ "_" ++ strftime_dmY today ++ ".mp4")
      with (stem ++ "." ++ "mp4")
      by (unfold stem; rewrite !append_assoc; reflexivity).
    apply rsplit_dot_last. simpl. repeat split; discriminate. }
  split; [exact Hsplit|].
  unfold suffixed. rewrite Hsplit. reflexivity.
Qed.

End RecordingName.

(** ** The two conversations stay apart *)

Section Apart.
Context {W : Type} `{ObsClient W} `{DriveService W} `{Host W}.
Import OBSManager GoogleDriveManager.

Lemma adds_next_chunk {O} (request : upload_request) :
  adds_only is_transfer (next_chunk request : M W O _).
Proof.
  intros st r st' Hrun. unfold next_chunk in Hrun.
  destruct (request_next_chunk request (world st)) as [a w]. inversion Hrun; subst. simpl.
  eexists [_]. split; reflexivity.
Qed.

Lemma adds_call_callback {O} (cb : callback O) (value : Z) :
  adds_only (W:=W) is_transfer (call_callback cb value).
Proof.
  intros st r st' Hrun. unfold call_callback in Hrun.
  destruct (cb value (self st)) as [a s]. inversion Hrun; subst. simpl.
  eexists [_]. split; reflexivity.
Qed.

Lemma adds_upload_chunks {O} (progress_callback : option (callback O))
    (request : upload_request) (fuel : nat) :
  adds_only is_transfer (upload_chunks fuel request progress_callback).
Proof.
  induction fuel as [|fuel IH]; simpl; [apply adds_diverge|].
  apply adds_bind; [apply adds_next_chunk|intros [status response]].
  apply adds_bind.
  - destruct status as [status|]; [|apply adds_ret].
    destruct progress_callback as [cb|]; [|apply adds_ret].
    apply adds_bind; [|intros value; apply adds_call_callback].
    unfold int_of_float.
    destruct (float_mul (progress status) 100); [apply adds_ret|apply adds_raise].
  - intros _. destruct response; [apply adds_ret|exact IH].
Qed.

Lemma adds_count_files_in_folder {O} (depth : nat) :
  forall folder_id file_extension,
    adds_only (O:=O) is_listing (count_files_in_folder depth folder_id file_extension).
Proof.
  induction depth as [|depth IH]; intros folder_id file_extension; simpl.
  - apply adds_raise.
  - apply adds_try_except; [|intros e; apply adds_ret].
    apply adds_bind; [apply adds_remote; reflexivity|intros results].
    apply adds_bind; [apply adds_remote; reflexivity|intros folder_results].
    apply adds_bind; [|intros n; apply adds_ret].
    apply adds_for_each. intros acc x.
    apply adds_bind; [apply IH|intros n; apply adds_ret].
Qed.

Lemma adds_get_or_create_folder {O} (folder_name : string) (parent_id : option string) :
  adds_only (O:=O) is_drive_lookup (get_or_create_folder folder_name parent_id).
Proof.
  unfold get_or_create_folder.
  apply adds_try_except; [|intros e; apply adds_raise].
  apply adds_bind; [apply adds_remote; reflexivity|intros results].
  destruct (get_files results); [|apply adds_ret].
  apply adds_bind; [apply adds_remote; reflexivity|intros file; apply adds_ret].
Qed.

(** X17: the methods that record talk to OBS only, and the methods
    that upload talk to Drive only: [start_recording], [stop_recording]
    and [get_recording_status] add nothing but OBS requests to what was
    sent, [upload_file] nothing but Drive listings, creations and the
    chunks and callbacks of the transfer, and [count_files_in_folder]
    nothing but listings, so that counting never creates a folder. *)
Theorem requests_stay_apart :
  (forall output_path, adds_only is_obs_request (start_recording output_path))
  /\ adds_only is_obs_request stop_recording
  /\ adds_only is_obs_request OBSConnection.get_recording_status
  /\ (forall (O : Type) depth fuel filepath class_name chapter_name year subtopic_name
        (progress_callback : option (callback O)),
        adds_only is_drive_event
          (upload_file depth fuel filepath class_name chapter_name year subtopic_name
             progress_callback))
  /\ (forall (O : Type) depth folder_id file_extension,
        adds_only (O:=O) is_listing (count_files_in_folder depth folder_id file_extension)).
Proof.
  split; [|split; [|split; [|split]]].
  - intros output_path.
    unfold start_recording, ensure_directory, check_writable, stop_if_already_recording,
      _try_recording_method_1, _try_recording_method_2, _try_recording_method_3,
      try_start_record, verify_started, _check_recording_status.
    prove_adds.
  - unfold stop_recording, _check_recording_output_exists. prove_adds.
  - unfold OBSConnection.get_recording_status. prove_adds.
  - intros O depth fuel filepath class_name chapter_name year subtopic_name progress_callback.
    assert (Hlookup : forall ev, is_drive_lookup ev = true -> is_drive_event ev = true).
    { intros ev Hev. unfold is_drive_event. rewrite Hev. reflexivity. }
    assert (Hlisting : forall ev, is_listing ev = true -> is_drive_event ev = true).
    { intros [] Hev; try discriminate; reflexivity. }
    assert (Htransfer : forall ev, is_transfer ev = true -> is_drive_event ev = true).
    { intros ev Hev. unfold is_drive_event. rewrite Hev. apply Bool.orb_true_r. }
    unfold upload_file, get_or_create_class_year_folder, get_or_create_chapter_folder.
    apply adds_try_except; [|intros e; apply adds_raise].
    apply adds_bind; [apply adds_ask|intros found].
    destruct (negb found); [apply adds_raise|].
    apply adds_bind;
      [apply (adds_weaken _ _ _ Hlookup), adds_get_or_create_folder|intros a].
    apply adds_bind;
      [apply (adds_weaken _ _ _ Hlookup), adds_get_or_create_folder|intros b].
    apply adds_bind;
      [apply (adds_weaken _ _ _ Hlookup), adds_get_or_create_folder|intros c].
    apply adds_bind;
      [apply (adds_weaken _ _ _ Hlisting), adds_count_files_in_folder|intros n].
    apply adds_bind; [apply adds_ask|intros today].
    apply adds_bind;
      [apply (adds_weaken _ _ _ Htransfer), adds_upload_chunks|intros response].
    apply adds_ret.
  - intros O depth folder_id file_extension. apply adds_count_files_in_folder.
Qed.

End Apart.

(** ** Runs of the further methods on the simulated world *)

(** Ten seconds after the newer recording was written the search selects
    it; a long time after, it only names it. *)
Lemma search_for_recordings_sample :
  (let st' := snd (Recordings.search_for_recordings "/videos" (sample_searching 1010)) in
   MainWindow.selected_file (self st') = Some (Path.of_str "/videos/rec.mp4")
   /\ MainWindow.upload_btn_enabled (self st') = true
   /\ MainWindow.dialogs (self st') = ["Recording saved to: /videos/rec.mp4"])
  /\ (let st' := snd (Recordings.search_for_recordings "/videos" (sample_searching 2000)) in
      MainWindow.selected_file (self st') = None
      /\ MainWindow.dialogs (self st')
         = ["Recording may have been saved to: /videos/rec.mp4"]).
Proof. vm_compute. repeat split. Qed.

(** The path of the first recording of the sample Drive. *)
Lemma get_file_path_sample :
  fst (DriveMetadata.get_file_path "f1" sample_drive)
  = Ok (Some "Thermodynamics > Main > 11th_Thermodynamics_Main_30-12-2023_Class_1.mp4")
  /\ fst (DriveMetadata.get_file_path "lost" sample_drive) = Ok None.
Proof. vm_compute. split; reflexivity. Qed.

(** A new chapter comes last and starts with the subtopic Main; a file
    of exactly the largest size allowed is accepted. *)
Lemma config_sample :
  (let st' := snd (Config.add_chapter "11th" "Optics" sample_config) in
   Config.get_chapters (self st') "11th" = ["Thermodynamics"; "Optics"]
   /\ Config.get_subtopics (self st') "11th" "Optics" = ["Main"])
  /\ fst (Config.validate_file (fun s => s) (fun s => s) (Path.of_str "/videos/rec.mp4")
            sample_config)
     = Ok (true, None)
  /\ fst (Config.validate_file (fun s => s) (fun s => s) (Path.of_str "/videos/rec.avi")
            sample_config)
     = Ok (false, Some "File does not exist").
Proof. vm_compute. repeat split. Qed.

(** Connecting to an OBS that runs, and to one that does not. *)
Lemma connect_sample :
  fst (OBSConnection.connect
         (mkState (OBSConnection.mk idle_controller None) (search_world 0) []))
  = Ok true
  /\ fst (OBSConnection.connect
            (mkState (OBSConnection.mk idle_controller None)
               (Sim2.mkWorld Sim.w0 false (Fault (ClientError "not connected"))
                  (Fault (ClientError "not connected")) [] 0 "/home/teacher" "/app")
               []))
     = Ok false.
Proof. vm_compute. split; reflexivity. Qed.
